(** * Import Mocha Track: a shallow embedding of [import_mocha_track.py]

    The script edits the host application's serialized node setup as a
    list of text lines.  Python strings are [string], Python integers
    are [Z], Python lists are [list] with the index conventions of the
    language written out (negative indices, clamped [insert],
    [IndexError]), and exceptions are an explicit [result] type. *)

From Stdlib Require Import ZArith Ascii String DecimalString DecimalZ Lia.
From stdpp Require Import base option list gmap strings.

Local Open Scope string_scope.
Local Open Scope Z_scope.
Local Open Scope list_scope.

(** ** Exceptions *)

Inductive exn : Type :=
  | ValueError
  | TypeError
  | IndexError
  | OverflowError
  | OSError
  | RecursionError.

Inductive result (A : Type) : Type :=
  | Ok (a : A)
  | Raise (e : exn).

Arguments Ok {A} a.
Arguments Raise {A} e.

#[global] Instance result_ret : MRet result := fun A a => Ok a.

#[global] Instance result_bind : MBind result := fun A B k m =>
  match m with
  | Ok a => k a
  | Raise e => Raise e
  end.

(** A value that is [None] in the script and is then used as a number
    or as an index raises [TypeError]. *)
Definition need {A : Type} (o : option A) : result A :=
  match o with
  | Some a => Ok a
  | None => Raise TypeError
  end.

Fixpoint mapM {A B : Type} (f : A -> result B) (l : list A) : result (list B) :=
  match l with
  | [] => Ok []
  | a :: rest => b ← f a; bs ← mapM f rest; Ok (b :: bs)
  end.

Fixpoint foldM {A S : Type} (f : S -> A -> result S) (l : list A) (s : S) : result S :=
  match l with
  | [] => Ok s
  | a :: rest => s' ← f s a; foldM f rest s'
  end.

(** ** Strings *)

Definition TAB : string := String "009"%char EmptyString.
Definition NL : string := String "010"%char EmptyString.
Definition QUOTE : string := String "034"%char EmptyString.

(** [str(n)] and [f'{n}'] for a Python integer. *)
Definition str_int (z : Z) : string := NilEmpty.string_of_int (Z.to_int z).

(** [s.startswith(p)] *)
Fixpoint starts_with (p s : string) : bool :=
  match p, s with
  | EmptyString, _ => true
  | String a p', String b s' => if Ascii.eqb a b then starts_with p' s' else false
  | String _ _, EmptyString => false
  end.

(** [item in line] *)
Fixpoint contains (item line : string) : bool :=
  starts_with item line ||
  match line with
  | EmptyString => false
  | String _ rest => contains item rest
  end.

(** [s[n:]] for [0 <= n] *)
Fixpoint drop_chars (n : nat) (s : string) : string :=
  match n, s with
  | O, _ => s
  | S n', String _ s' => drop_chars n' s'
  | S _, EmptyString => EmptyString
  end.

(** [s[:n]] for [0 <= n] *)
Fixpoint take_chars (n : nat) (s : string) : string :=
  match n, s with
  | O, _ => EmptyString
  | S n', String a s' => String a (take_chars n' s')
  | S _, EmptyString => EmptyString
  end.

(** [s.endswith(p)] *)
Definition ends_with (p s : string) : bool :=
  (String.length p <=? String.length s)%nat &&
  String.eqb (drop_chars (String.length s - String.length p) s) p.

(** The mathematical meaning of "is a substring". *)
Definition is_sub (item line : string) : Prop :=
  exists a b : string, line = a +:+ item +:+ b.

(** ** Searching the setup *)

(** [enumerate(setup)] starting at [num], stopping at the first line
    that contains [item]. *)
Fixpoint find_line_from (item : string) (num : nat) (setup : list string) : option nat :=
  match setup with
  | [] => None
  | line :: rest =>
      if contains item line then Some num
      else find_line_from item (S num) rest
  end.

Definition find_line (item : string) (setup : list string) : option nat :=
  find_line_from item 0 setup.

Fixpoint find_line_after_from (item : string) (item_line_num : Z) (num : nat)
    (setup : list string) : option nat :=
  match setup with
  | [] => None
  | line :: rest =>
      if (item_line_num <? Z.of_nat num) && contains item line then Some num
      else find_line_after_from item item_line_num (S num) rest
  end.

Definition find_line_after (item : string) (item_line_num : Z) (setup : list string)
    : option nat :=
  find_line_after_from item item_line_num 0 setup.

(** ** Python lists *)

(** The position [l[i]] denotes: a negative index counts from the end,
    anything outside [-len(l) <= i < len(l)] is an [IndexError]. *)
Definition py_index {A : Type} (l : list A) (i : Z) : result nat :=
  let n := Z.of_nat (length l) in
  if (0 <=? i) && (i <? n) then Ok (Z.to_nat i)
  else if (- n <=? i) && (i <? 0) then Ok (Z.to_nat (n + i))
  else Raise IndexError.

(** [l[i]] *)
Definition py_getitem {A : Type} (l : list A) (i : Z) : result A :=
  k ← py_index l i;
  match l !! k with
  | Some a => Ok a
  | None => Raise IndexError
  end.

(** [l[i] = v] *)
Definition py_setitem {A : Type} (l : list A) (i : Z) (v : A) : result (list A) :=
  k ← py_index l i; Ok (<[k:=v]> l).

(** [l.insert(i, v)]: never raises, the position is clamped. *)
Definition py_insert {A : Type} (l : list A) (i : Z) (v : A) : list A :=
  let n := Z.of_nat (length l) in
  let j := if i <? 0 then Z.max 0 (n + i) else Z.min i n in
  take (Z.to_nat j) l ++ v :: drop (Z.to_nat j) l.

(** [l.pop(i)], keeping the list only. *)
Definition py_pop {A : Type} (l : list A) (i : Z) : result (list A) :=
  k ← py_index l i; Ok (delete k l).

(** [enumerate(l, start)] *)
Fixpoint enumerate_from {A : Type} (start : Z) (l : list A) : list (Z * A) :=
  match l with
  | [] => []
  | a :: rest => (start, a) :: enumerate_from (start + 1) rest
  end.

(** [for n, v in enumerate(lines, start): contents.insert(n, v)] *)
Definition insert_lines (start : Z) (lines contents : list string) : list string :=
  fold_left (fun acc nv => py_insert acc nv.1 nv.2) (enumerate_from start lines) contents.

(** ** Splitting and number syntax *)

(** Characters [str.split()] treats as white space (code points < 256). *)
Definition is_space (c : ascii) : bool :=
  let n := nat_of_ascii c in
  ((9 <=? n) && (n <=? 13) || (28 <=? n) && (n <=? 32) || (n =? 133) || (n =? 160))%nat.

Definition flush_word (cur : option string) : list string :=
  match cur with
  | Some w => [w]
  | None => []
  end.

Fixpoint py_split_go (s : string) (cur : option string) : list string :=
  match s with
  | EmptyString => flush_word cur
  | String c rest =>
      if is_space c then flush_word cur ++ py_split_go rest None
      else py_split_go rest (Some (default EmptyString cur +:+ String c EmptyString))
  end.

(** [s.split()] *)
Definition py_split (s : string) : list string := py_split_go s None.

Fixpoint split_on_go (sep : ascii) (s : string) (cur : string) : list string :=
  match s with
  | EmptyString => [cur]
  | String c rest =>
      if Ascii.eqb c sep then cur :: split_on_go sep rest EmptyString
      else split_on_go sep rest (cur +:+ String c EmptyString)
  end.

(** [s.split(sep)] for a one-character separator *)
Definition split_on (sep : ascii) (s : string) : list string :=
  split_on_go sep s EmptyString.

(** [s.replace(a, b)] for single characters *)
Fixpoint replace_char (a b : ascii) (s : string) : string :=
  match s with
  | EmptyString => EmptyString
  | String c rest => String (if Ascii.eqb c a then b else c) (replace_char a b rest)
  end.

(** [''.join(words)] *)
Definition join_empty (words : list string) : string :=
  fold_right String.append EmptyString words.

Definition digit_of (c : ascii) : option Z :=
  let n := nat_of_ascii c in
  if ((48 <=? n) && (n <=? 57))%nat then Some (Z.of_nat (n - 48)) else None.

(** Decimal digits with single underscores between digits. *)
Fixpoint int_digits (s : string) (acc : Z) (after_digit : bool) : option Z :=
  match s with
  | EmptyString => if after_digit then Some acc else None
  | String c rest =>
      match digit_of c with
      | Some d => int_digits rest (10 * acc + d) true
      | None =>
          if Ascii.eqb c "_" && after_digit then int_digits rest acc false else None
      end
  end.

(** [int(s)] on a token without white space: an optional sign and a
    decimal literal, [ValueError] otherwise. *)
Definition py_int (s : string) : result Z :=
  let body :=
    match s with
    | String "+" rest => int_digits rest 0 false
    | String "-" rest => Z.opp <$> int_digits rest 0 false
    | _ => int_digits s 0 false
    end in
  match body with
  | Some z => Ok z
  | None => Raise ValueError
  end.

(** [int(contents[line].split()[1])] *)
Definition line_int (contents : list string) (line : nat) : result Z :=
  text ← py_getitem contents (Z.of_nat line);
  tok ← py_getitem (py_split text) 1;
  py_int tok.

(** ** Floating point

    The script only parses floats, subtracts and adds them, mixes them
    with integers and prints them.  These operations of the host
    language are taken as an interface. *)

Class PyFloat : Type := {
  float : Type;
  (** [float(s)], [ValueError] on a malformed literal *)
  float_of_str : string -> result float;
  (** [int(x)], which raises on infinities and NaN *)
  int_of_float : float -> result Z;
  (** the conversion of the integer operand in [x - n], which raises
      [OverflowError] when [n] is too large *)
  float_of_int : Z -> result float;
  fadd : float -> float -> float;
  fsub : float -> float -> float;
  (** the literal [0.5] *)
  float_half : float;
  (** [f'{x}'] *)
  str_float : float -> string
}.

(** ** Keyframes and setup lines *)

Definition T1 : string := TAB.
Definition T2 : string := TAB +:+ TAB.
Definition T3 : string := TAB +:+ TAB +:+ TAB.
Definition T4 : string := TAB +:+ TAB +:+ TAB +:+ TAB.

Section Setup.
Context {FM : PyFloat}.

(** A keyframe value is an integer (shape indices, the literal [0]) or
    a float (positions); the two print differently. *)
Inductive pyval : Type :=
  | VInt (z : Z)
  | VFloat (x : float).

Definition str_val (v : pyval) : string :=
  match v with
  | VInt z => str_int z
  | VFloat x => str_float x
  end.

(** A parsed tracker line: [(frame, x, y)]. *)
Definition keyframe : Type := Z * float * float.

Definition kf_frame (p : keyframe) : Z := p.1.1.
Definition kf_x (p : keyframe) : float := p.1.2.
Definition kf_y (p : keyframe) : float := p.2.

(** [key_frame(index, frame, value, value_lock, curve_order)] *)
Definition key_frame (index frame : Z) (value : pyval) (value_lock : bool)
    (curve_order : string) : list string :=
  let kf_lines :=
    [ T3 +:+ "Key " +:+ str_int index +:+ NL;
      T4 +:+ "Frame " +:+ str_int frame +:+ NL;
      T4 +:+ "Value " +:+ str_val value +:+ NL;
      T4 +:+ "RHandle_dX 0.25" +:+ NL;
      T4 +:+ "RHandle_dY 0" +:+ NL;
      T4 +:+ "LHandle_dX -0.25" +:+ NL;
      T4 +:+ "LHandle_dY 0" +:+ NL;
      T4 +:+ "CurveMode hermite" +:+ NL;
      T4 +:+ "CurveOrder " +:+ curve_order +:+ NL;
      T4 +:+ "End" +:+ NL ] in
  if value_lock then py_insert kf_lines 7 (T4 +:+ "ValueLock yes" +:+ NL)
  else kf_lines.

(** [extract_dimension(corner, 'x')] and [extract_dimension(corner, 'y')] *)
Definition extract_dimension_x (corner : list keyframe) : list (Z * float) :=
  map (fun p => (kf_frame p, kf_x p)) corner.

Definition extract_dimension_y (corner : list keyframe) : list (Z * float) :=
  map (fun p => (kf_frame p, kf_y p)) corner.

(** [[k[2:] for k in self.key_frame(index, frame, value)]] *)
Definition tracker_key (index frame : Z) (value : pyval) : list string :=
  map (drop_chars 2) (key_frame index frame value false "linear").

(** The two loops of [add_tracker] over [enumerate(corner)]. *)
Definition shift_keys (dim : keyframe -> float) (first : keyframe)
    (corner : list keyframe) (attachment_lines : list string) : list string :=
  fold_left
    (fun acc nf => acc ++ tracker_key nf.1 (kf_frame nf.2) (VFloat (fsub (dim first) (dim nf.2))))
    (enumerate_from 0 corner) attachment_lines.

(** [add_tracker(tracker, corner, width, height)] *)
Definition add_tracker (tracker : string) (corner : list keyframe) (width height : Z)
    : result (list string) :=
  first ← py_getitem corner 0;
  let ref_frame := kf_frame first in
  let attachment_lines :=
    [ T1 +:+ "Attachement Tracker" +:+ NL;
      T1 +:+ "AttachementName " +:+ TAB +:+ QUOTE +:+ tracker +:+ QUOTE +:+ NL;
      T1 +:+ "Active yes" +:+ NL;
      T1 +:+ "FixedRef no" +:+ NL;
      T1 +:+ "FixedX no" +:+ NL;
      T1 +:+ "FixedY no" +:+ NL;
      T1 +:+ "Tolerance 100" +:+ NL;
      T1 +:+ "Colour" +:+ NL;
      T2 +:+ "Red 100" +:+ NL;
      T2 +:+ "Green 0" +:+ NL;
      T2 +:+ "Blue 0" +:+ NL;
      T1 +:+ "OffsetsX 0" +:+ NL;
      T1 +:+ "OffsetsY 0" +:+ NL;
      T1 +:+ "FirstRefFrame " +:+ str_int ref_frame +:+ NL;
      T1 +:+ "Anim" +:+ NL;
      "Channel ref/x" +:+ NL;
      T1 +:+ "Extrapolation constant" +:+ NL;
      T1 +:+ "Value " +:+ str_float (kf_x first) +:+ NL;
      T1 +:+ "Size 1" +:+ NL;
      T1 +:+ "KeyVersion 2" +:+ NL ] in
  let attachment_lines :=
    attachment_lines ++ tracker_key 0 ref_frame (VFloat (kf_x first)) in
  let ref_y_lines :=
    [ T1 +:+ "Colour 85 85 85" +:+ NL;
      T1 +:+ "End" +:+ NL;
      "Channel ref/y" +:+ NL;
      T1 +:+ "Extrapolation constant" +:+ NL;
      T1 +:+ "Value " +:+ str_float (kf_y first) +:+ NL;
      T1 +:+ "Size 1" +:+ NL;
      T1 +:+ "KeyVersion 2" +:+ NL ] in
  let attachment_lines := attachment_lines ++ ref_y_lines in
  let attachment_lines :=
    attachment_lines ++ tracker_key 0 ref_frame (VFloat (kf_y first)) in
  let ref_lines :=
    [ T1 +:+ "Colour 85 85 85" +:+ NL;
      T1 +:+ "End" +:+ NL;
      "Channel ref/width" +:+ NL;
      T1 +:+ "Extrapolation constant" +:+ NL;
      T1 +:+ "Value 64" +:+ NL;
      T1 +:+ "Colour 85 85 85" +:+ NL;
      T1 +:+ "End" +:+ NL;
      "Channel ref/height" +:+ NL;
      T1 +:+ "Extrapolation constant" +:+ NL;
      T1 +:+ "Value 64" +:+ NL;
      T1 +:+ "Colour 85 85 85" +:+ NL;
      T1 +:+ "End" +:+ NL;
      "Channel ref/dx" +:+ NL;
      T1 +:+ "Extrapolation constant" +:+ NL;
      T1 +:+ "Value 0" +:+ NL;
      T1 +:+ "Size 1" +:+ NL;
      T1 +:+ "KeyVersion 2" +:+ NL ] in
  let attachment_lines := attachment_lines ++ ref_lines in
  let attachment_lines := attachment_lines ++ tracker_key 0 ref_frame (VInt 0) in
  let ref_dy_lines :=
    [ T1 +:+ "Colour 85 85 85" +:+ NL;
      T1 +:+ "End" +:+ NL;
      "Channel ref/dy" +:+ NL;
      T1 +:+ "Extrapolation constant" +:+ NL;
      T1 +:+ "Value 0" +:+ NL;
      T1 +:+ "Size 1" +:+ NL;
      T1 +:+ "KeyVersion 2" +:+ NL ] in
  let attachment_lines := attachment_lines ++ ref_dy_lines in
  let attachment_lines := attachment_lines ++ tracker_key 0 ref_frame (VInt 0) in
  let shift_x_lines :=
    [ T1 +:+ "Colour 85 85 85" +:+ NL;
      T1 +:+ "End" +:+ NL;
      "Channel track/x" +:+ NL;
      T1 +:+ "Extrapolation linear" +:+ NL;
      T1 +:+ "Value " +:+ str_int (width `div` 2) +:+ NL;
      T1 +:+ "Colour 85 85 85" +:+ NL;
      T1 +:+ "End" +:+ NL;
      "Channel track/y" +:+ NL;
      T1 +:+ "Extrapolation linear" +:+ NL;
      T1 +:+ "Value " +:+ str_int (height `div` 2) +:+ NL;
      T1 +:+ "Colour 85 85 85" +:+ NL;
      T1 +:+ "End" +:+ NL;
      "Channel track/width" +:+ NL;
      T1 +:+ "Extrapolation constant" +:+ NL;
      T1 +:+ "Value 96" +:+ NL;
      T1 +:+ "Colour 85 85 85" +:+ NL;
      T1 +:+ "End" +:+ NL;
      "Channel track/height" +:+ NL;
      T1 +:+ "Extrapolation constant" +:+ NL;
      T1 +:+ "Value 96" +:+ NL;
      T1 +:+ "Colour 85 85 85" +:+ NL;
      T1 +:+ "End" +:+ NL;
      "Channel shift/x" +:+ NL;
      T1 +:+ "Extrapolation linear" +:+ NL;
      T1 +:+ "Value 0" +:+ NL;
      T1 +:+ "Size " +:+ str_int (Z.of_nat (length corner)) +:+ NL;
      T1 +:+ "KeyVersion 2" +:+ NL ] in
  let attachment_lines := attachment_lines ++ shift_x_lines in
  let attachment_lines := shift_keys kf_x first corner attachment_lines in
  let shift_y_lines :=
    [ T1 +:+ "Colour 255 0 0" +:+ NL;
      T1 +:+ "End" +:+ NL;
      "Channel shift/y" +:+ NL;
      T1 +:+ "Extrapolation linear" +:+ NL;
      T1 +:+ "Value 0" +:+ NL;
      T1 +:+ "Size " +:+ str_int (Z.of_nat (length corner)) +:+ NL;
      T1 +:+ "KeyVersion 2" +:+ NL ] in
  let attachment_lines := attachment_lines ++ shift_y_lines in
  let attachment_lines := shift_keys kf_y first corner attachment_lines in
  let attachment_end :=
    [ T1 +:+ "Colour 255 0 0" +:+ NL;
      T1 +:+ "End" +:+ NL;
      "Channel offset/x" +:+ NL;
      T1 +:+ "Extrapolation linear" +:+ NL;
      T1 +:+ "Value 0" +:+ NL;
      T1 +:+ "Colour 85 85 85" +:+ NL;
      T1 +:+ "End" +:+ NL;
      "Channel offset/y" +:+ NL;
      T1 +:+ "Extrapolation linear" +:+ NL;
      T1 +:+ "Value 0" +:+ NL;
      T1 +:+ "Colour 85 85 85" +:+ NL;
      T1 +:+ "End" +:+ NL;
      "ChannelEnd" +:+ NL;
      "AttachementEnd" +:+ NL ] in
  Ok (attachment_lines ++ attachment_end).

(** The loop of [add_animation] that extends [animation_lines] with
    the lines of every key. *)
Definition animation_keys (animation : list (Z * pyval)) (value_lock : bool)
    (curve_order : string) (animation_lines : list string) : list string :=
  fold_left
    (fun acc nf => acc ++ key_frame nf.1 nf.2.1 nf.2.2 value_lock curve_order)
    (enumerate_from 0 animation) animation_lines.

(** [add_animation(node_name, setup, channel, animation, value_lock,
    extrapolation, curve_order, value_index)] *)
Definition add_animation (node_name : string) (setup : list string) (channel : string)
    (animation : list (Z * pyval)) (value_lock : bool) (extrapolation curve_order : string)
    (value_index : Z) : result (list string) :=
  node_line ← need (find_line node_name setup);
  channel_line ← need (find_line_after channel (Z.of_nat node_line) setup);
  setup ← py_setitem setup (Z.of_nat channel_line + 1)
            (T3 +:+ "Extrapolation " +:+ extrapolation +:+ NL);
  key ← py_getitem animation value_index;
  setup ← py_setitem setup (Z.of_nat channel_line + 2)
            (T3 +:+ "Value " +:+ str_val key.2 +:+ NL);
  let animation_lines :=
    [ T3 +:+ "Size " +:+ str_int (Z.of_nat (length animation)) +:+ NL;
      T3 +:+ "KeyVersion 2" +:+ NL ] in
  let animation_lines := animation_keys animation value_lock curve_order animation_lines in
  Ok (insert_lines (Z.of_nat channel_line + 3) animation_lines setup).

End Setup.

(** ** Reading the tracker files *)

Definition is_tracker_digit (c : ascii) : bool :=
  let n := nat_of_ascii c in ((49 <=? n) && (n <=? 52))%nat.

(** The regular expression [_Tracker[1-4]] matched at the head of [s]. *)
Definition tracker_match_here (s : string) : bool :=
  starts_with "_Tracker" s &&
  match drop_chars 8 s with
  | String c _ => is_tracker_digit c
  | EmptyString => false
  end.

(** [tracker_regex.search(file)]: the start of the leftmost match. *)
Fixpoint tracker_search_from (pos : nat) (s : string) : option nat :=
  if tracker_match_here s then Some pos
  else
    match s with
    | EmptyString => None
    | String _ rest => tracker_search_from (S pos) rest
    end.

Definition tracker_search (file : string) : option nat := tracker_search_from 0 file.

(** [i.split('/')[-1]] *)
Definition file_name (path : string) : result string :=
  py_getitem (split_on "/" path) (-1).

(** The loop that scans the file names for problems.  [mocha_names]
    and [track_name] are the values the loop has built so far; the
    result is the final [self.track_name]. *)
Fixpoint scan_names (files : list string) (mocha_names : list string)
    (track_name : string) : result string :=
  match files with
  | [] => Ok track_name
  | file :: rest =>
      match tracker_search file with
      | None => Raise TypeError
      | Some name_end =>
          let tracker_name := take_chars name_end file in
          let mocha_names := mocha_names ++ [tracker_name] in
          if negb (length (remove_dups mocha_names) =? 1)%nat then Raise ValueError
          else
            name ← py_getitem mocha_names 0;
            scan_names rest mocha_names name
      end
  end.

(** The validation phase of [parse_mocha_files]: the result is the
    track name the instance ends up with. *)
Definition validate_selection (selected_files : list string) : result string :=
  if negb (length selected_files =? 4)%nat then Raise ValueError
  else
    tracker_file_names ← mapM file_name selected_files;
    scan_names tracker_file_names [] EmptyString.

Section Parser.
Context {FM : PyFloat}.

(** The instance attributes the parser fills. *)
Record tracks : Type := {
  lower_left : list keyframe;
  lower_right : list keyframe;
  upper_left : list keyframe;
  upper_right : list keyframe
}.

Definition no_tracks : tracks :=
  {| lower_left := []; lower_right := []; upper_left := []; upper_right := [] |}.

(** [frame_to_tuple(file_line)] *)
Definition frame_to_tuple (sf_offset : Z) (file_line : string) : result keyframe :=
  let stripped := join_empty (py_split file_line) in
  let no_colon := replace_char ":" "," stripped in
  let line_info_slice := split_on "," no_colon in
  field0 ← py_getitem line_info_slice 0;
  frame_float ← float_of_str field0;
  frame_int ← int_of_float frame_float;
  field1 ← py_getitem line_info_slice 1;
  x ← float_of_str field1;
  field2 ← py_getitem line_info_slice 2;
  y ← float_of_str field2;
  Ok (frame_int + sf_offset, x, y).

(** [l[0:-6]] *)
Definition path_stem (l : string) : string :=
  take_chars (String.length l - 6) l.

(** The [if]/[elif] chain that appends a tuple to a corner list. *)
Definition route (l : string) (track_frame : keyframe) (t : tracks) : tracks :=
  if ends_with "Tracker1" (path_stem l) then
    {| lower_left := lower_left t; lower_right := lower_right t;
       upper_left := upper_left t ++ [track_frame]; upper_right := upper_right t |}
  else if ends_with "Tracker2" (path_stem l) then
    {| lower_left := lower_left t; lower_right := lower_right t;
       upper_left := upper_left t; upper_right := upper_right t ++ [track_frame] |}
  else if ends_with "Tracker3" (path_stem l) then
    {| lower_left := lower_left t ++ [track_frame]; lower_right := lower_right t;
       upper_left := upper_left t; upper_right := upper_right t |}
  else if ends_with "Tracker4" (path_stem l) then
    {| lower_left := lower_left t; lower_right := lower_right t ++ [track_frame];
       upper_left := upper_left t; upper_right := upper_right t |}
  else t.

(** [for line in f: ...] for one opened file. *)
Definition read_lines (sf_offset : Z) (l : string) (lines : list string) (t : tracks)
    : result tracks :=
  foldM (fun t line => track_frame ← frame_to_tuple sf_offset line;
                       Ok (route l track_frame t)) lines t.

(** [for l in selected_files: with open(l, 'r') as f: ...]; [open_file]
    is the file system, a path that cannot be opened raises [OSError]. *)
Definition read_files (sf_offset : Z) (open_file : string -> option (list string))
    (selected_files : list string) (t : tracks) : result tracks :=
  foldM (fun t l =>
           match open_file l with
           | Some lines => read_lines sf_offset l lines t
           | None => Raise OSError
           end) selected_files t.

(** [self.corners], a dictionary in insertion order. *)
Definition corners_of (t : tracks) : list (string * list keyframe) :=
  [ ("lower_left", lower_left t);
    ("upper_left", upper_left t);
    ("lower_right", lower_right t);
    ("upper_right", upper_right t) ].

(** [parse_mocha_files]: the track name, the four corner lists and
    [self.corners] for a fresh instance. *)
Definition parse_mocha_files (start_frame : Z) (open_file : string -> option (list string))
    (selected_files : list string)
    : result (string * tracks * list (string * list keyframe)) :=
  let sf_offset := start_frame - 1 in
  track_name ← validate_selection selected_files;
  t ← read_files sf_offset open_file selected_files no_tracks;
  Ok (track_name, t, corners_of t).

(** ** Naming the new node *)

(** [name_import(name, object_num)]; [fuel] bounds the recursion depth. *)
Fixpoint name_import_fuel (fuel : nat) (track_name : string) (existing_nodes : list string)
    (name : string) (object_num : Z) : option string :=
  match fuel with
  | O => None
  | S fuel' =>
      if negb (existsb (String.eqb name) existing_nodes) then Some name
      else
        let object_num := object_num + 1 in
        name_import_fuel fuel' track_name existing_nodes
          (track_name +:+ str_int object_num) object_num
  end.

(** [self.name_import(self.track_name)]: one more candidate than there
    are existing nodes always suffices. *)
Definition name_import (track_name : string) (existing_nodes : list string) : option string :=
  name_import_fuel (S (length existing_nodes)) track_name existing_nodes track_name 0.

(** ** The perspective grid *)

Definition float_anim (a : list (Z * float)) : list (Z * pyval) :=
  map (fun p => (p.1, VFloat p.2)) a.

(** The inner loop of [import_perspective_grid] that builds
    [translation] for one corner. *)
Definition translate_grid (h_offset v_offset : Z) (corner : list keyframe)
    : result (list keyframe) :=
  foldM (fun translation i =>
           hf ← float_of_int h_offset;
           let x := fadd (fsub (kf_x i) hf) float_half in
           vf ← float_of_int v_offset;
           let y := fadd (fsub (kf_y i) vf) float_half in
           Ok (translation ++ [(kf_frame i, x, y)])) corner [].

(** The body of [for key in self.corners]. *)
Definition grid_corner (node_name : string) (h_offset v_offset : Z)
    (contents : list string) (entry : string * list keyframe) : result (list string) :=
  translation ← translate_grid h_offset v_offset entry.2;
  let x := extract_dimension_x translation in
  let y := extract_dimension_y translation in
  contents ← add_animation node_name contents (entry.1 +:+ "_corner/x") (float_anim x)
               false "linear" "linear" 0;
  add_animation node_name contents (entry.1 +:+ "_corner/y") (float_anim y)
    false "linear" "linear" 0.

(** The statements of [import_perspective_grid] that switch the grid to 2D. *)
Definition set_grid_2d (node_name : string) (contents : list string)
    : result (list string) :=
  grid_line ← need (find_line node_name contents);
  grid_3d_line ← need (find_line_after "TransformIs3D" (Z.of_nat grid_line) contents);
  py_setitem contents (Z.of_nat grid_3d_line) (T2 +:+ "TransformIs3D no" +:+ NL).

(** Everything [import_perspective_grid] does to the line list between
    reading the setup file and writing it back. *)
Definition grid_patch (node_name : string) (corners : list (string * list keyframe))
    (contents : list string) : result (list string) :=
  width_line ← need (find_line "FrameWidth" contents);
  width ← line_int contents width_line;
  height_line ← need (find_line_after "FrameHeight" (Z.of_nat width_line) contents);
  height ← line_int contents height_line;
  contents ← set_grid_2d node_name contents;
  let h_offset := width `div` 2 in
  let v_offset := height `div` 2 in
  foldM (grid_corner node_name h_offset v_offset) corners contents.

End Parser.

(** ** The bilinear surface *)

Section Surface.
Context {FM : PyFloat}.

(** The statement that turns the new surface into a bilinear one. *)
Definition set_bilinear (name_line : nat) (contents : list string) : result (list string) :=
  py_setitem contents (Z.of_nat name_line - 1) ("Node SurfaceBilinear" +:+ NL).

(** The four calls of [add_tracker] and the list they are spliced into. *)
Definition tracker_attachments (t : tracks) (width height : Z) : result (list string) :=
  tracker_ll ← add_tracker "offset0_0" (lower_left t) width height;
  tracker_ul ← add_tracker "offset0_1" (upper_left t) width height;
  tracker_lr ← add_tracker "offset1_0" (lower_right t) width height;
  tracker_ur ← add_tracker "offset1_1" (upper_right t) width height;
  Ok (tracker_ll ++ tracker_ul ++ tracker_lr ++ tracker_ur).

(** The loop [for n in range(4)] that inserts the control points. *)
Definition insert_control_points (track_points_line : nat) (contents : list string)
    : list string :=
  fold_left
    (fun contents n =>
       py_insert contents (Z.of_nat track_points_line + 1 + n)
         (T2 +:+ "UVTrackControlPoint " +:+ str_int n +:+ NL))
    [0; 1; 2; 3] contents.

(** [while 'End' not in contents[line]: contents.pop(line)] followed by
    the final [contents.pop(line)].  Every pass removes a line, so
    [fuel] above the length of the list is never used up; running off
    the end is the [IndexError] of [contents[line]]. *)
Fixpoint pop_while (fuel : nat) (contents : list string) (line : Z)
    : result (list string) :=
  match fuel with
  | O => Raise RecursionError
  | S fuel' =>
      cur ← py_getitem contents line;
      if negb (contains "End" cur) then
        contents ← py_pop contents line;
        pop_while fuel' contents line
      else py_pop contents line
  end.

(** The nested function [channel_lines(corner)]. *)
Definition channel_lines (corner : string) : list string :=
  let horz_direction := if contains "left" corner then "right" else "left" in
  let vert_direction := if contains "lower" corner then "up" else "down" in
  let subchannel_names :=
    [ "position/x";
      "position/y";
      "horz_tan_" +:+ horz_direction +:+ "/x";
      "horz_tan_" +:+ horz_direction +:+ "/y";
      "horz_tan_cont";
      "vert_tan_" +:+ vert_direction +:+ "/x";
      "vert_tan_" +:+ vert_direction +:+ "/y";
      "vert_tan_cont" ] in
  fold_left
    (fun ch_lines subchannel =>
       let val := if contains "cont" subchannel then 2 else 0 in
       let lines :=
         [ T2 +:+ "Channel uv_track_vertices/" +:+ corner +:+ "/" +:+ subchannel +:+ NL;
           T3 +:+ "Extrapolation constant" +:+ NL;
           T3 +:+ "Value " +:+ str_int val +:+ NL;
           T3 +:+ "End" +:+ NL ] in
       ch_lines ++ lines)
    subchannel_names [].

Definition original_path_channels : list string :=
  [ "lower_left/position/x"; "lower_left/position/y";
    "upper_left/position/x"; "lower_right/position/y" ].

(** One pass of [for ch_dimension in channel_names]; the state is the
    pair [(x_translation, y_translation)]. *)
Definition uv_dimension (width height : Z) (x y : list (Z * float))
    (acc : list (Z * float) * list (Z * float)) (ch_dimension : string)
    : result (list (Z * float) * list (Z * float)) :=
  if existsb (String.eqb ch_dimension) original_path_channels then
    if ends_with "x" ch_dimension then
      Ok (acc.1 ++ map (fun kf => (kf.1, fadd kf.2 float_half)) x, acc.2)
    else
      Ok (acc.1, acc.2 ++ map (fun kf => (kf.1, fadd kf.2 float_half)) y)
  else
    if ends_with "x" ch_dimension then
      xs ← mapM (fun kf => wf ← float_of_int width;
                           Ok (kf.1, fsub (fsub kf.2 wf) float_half)) x;
      Ok (acc.1 ++ xs, acc.2)
    else
      ys ← mapM (fun kf => hf ← float_of_int height;
                           Ok (kf.1, fsub (fsub kf.2 hf) float_half)) y;
      Ok (acc.1, acc.2 ++ ys).

(** The body of [for key in self.corners.keys()]. *)
Definition uv_corner (node_name : string) (width height : Z)
    (contents : list string) (entry : string * list keyframe) : result (list string) :=
  let key := entry.1 in
  let x := extract_dimension_x entry.2 in
  let y := extract_dimension_y entry.2 in
  let channel_names := [ key +:+ "/position/x"; key +:+ "/position/y" ] in
  tr ← foldM (uv_dimension width height x y) channel_names ([], []);
  contents ← add_animation node_name contents
               ("uv_track_vertices/" +:+ key +:+ "/position/x") (float_anim tr.1)
               false "constant" "linear" (-1);
  add_animation node_name contents
    ("uv_track_vertices/" +:+ key +:+ "/position/y") (float_anim tr.2)
    false "constant" "linear" (-1).

(** The first part of [import_bilinear_uvs] on the line list: the
    surface type, the resolution, and the tracker attachments spliced
    in after the [IsSoftImported] line. *)
Definition uv_attach (node_name : string) (t : tracks) (contents : list string)
    : result (nat * Z * Z * nat * list string) :=
  name_line ← need (find_line node_name contents);
  contents ← set_bilinear name_line contents;
  width_line ← need (find_line_after "ResWidth" (Z.of_nat name_line) contents);
  width ← line_int contents width_line;
  height_line ← need (find_line_after "ResHeight" (Z.of_nat width_line) contents);
  height ← line_int contents height_line;
  soft_line ← need (find_line_after "IsSoftImported" (Z.of_nat name_line) contents);
  let input_line := (soft_line + 1)%nat in
  attachments ← tracker_attachments t width height;
  Ok (name_line, width, height, input_line,
      insert_lines (Z.of_nat input_line) attachments contents).

(** Everything [import_bilinear_uvs] does to the line list between
    reading the setup file and writing it back. *)
Definition uv_patch (node_name : string) (t : tracks)
    (corners : list (string * list keyframe)) (contents : list string)
    : result (list string) :=
  a ← uv_attach node_name t contents;
  let '(name_line, width, height, input_line, contents) := a in
  track_points_line ←
    need (find_line_after "NumUVTrackControlPoints" (Z.of_nat input_line) contents);
  contents ← py_setitem contents (Z.of_nat track_points_line)
               (T2 +:+ "NumUVTrackControlPoints 4" +:+ NL);
  let contents := insert_control_points track_points_line contents in
  let uvt_line := Z.of_nat track_points_line + 1 + 3 in
  let shapes :=
    map (fun nf => (kf_frame nf.2, VInt nf.1)) (enumerate_from 0 (lower_left t)) in
  contents ← add_animation node_name contents "uv_track_shape" shapes
               true "constant" "linear" 0;
  track_vertices_line ← need (find_line_after "uv_track_vertices" uvt_line contents);
  contents ← pop_while (S (length contents)) contents (Z.of_nat track_vertices_line);
  let empty_channels :=
    channel_lines "lower_left" ++ channel_lines "upper_left" ++
    channel_lines "lower_right" ++ channel_lines "upper_right" in
  let contents := insert_lines (Z.of_nat track_vertices_line) empty_channels contents in
  foldM (uv_corner node_name width height) corners contents.

End Surface.

(** ** The host, the temp folder and the two operations

    The host application is a closed runtime.  What it answers during
    one run is collected in [env]; what the script does to it and to
    the setup file is recorded as a list of [event]s.  Console messages
    and node positions are not modelled. *)

Inductive event : Type :=
  | ECreateNode (kind : string)
  | ERename (name : string)
  | EMakeDirs (path : string)
  | ERmTree (path : string)
  | ESaveSetup (path : string)
  | EReadSetup (path : string)
  | EWriteSetup (path : string) (lines : list string)
  | ELoadSetup (path : string).

Record env : Type := {
  (** the paths the file browser returns *)
  env_selected : list string;
  (** [flame.batch.start_frame.get_value()] *)
  env_start_frame : Z;
  (** the names of [self.host_node.nodes] while [name_import] runs *)
  env_existing : list string;
  (** the lines [save_node_setup] writes *)
  env_setup : list string;
  (** [self.host_node.name.get_value()] *)
  env_host_name : string;
  (** [str(self.host_node.type)[1:-1]] *)
  env_host_type : string
}.

(** The files (as lines) and whether the temp folder exists. *)
Record world : Type := {
  w_files : gmap string (list string);
  w_temp : bool
}.

Definition SCRIPT_PATH : string := "/opt/Autodesk/shared/python/import_mocha_track".

(** [os.path.join(a, b)] *)
Definition path_join (a b : string) : string :=
  if starts_with "/" b then b
  else if String.eqb a EmptyString || ends_with "/" a then a +:+ b
  else a +:+ "/" +:+ b.

Definition temp_folder : string := path_join SCRIPT_PATH "temp".

Definition save_node_path (e : env) : string := path_join temp_folder (env_host_name e).

Definition node_filename (e : env) : string :=
  if String.eqb (env_host_type e) "Action" then save_node_path e +:+ ".action"
  else if String.eqb (env_host_type e) "Image" then save_node_path e +:+ ".image"
  else save_node_path e +:+ ".mask".

(** Computations that change the world, record events and may raise;
    the world and the events survive an exception. *)
Definition M (A : Type) : Type := world -> result A * world * list event.

#[global] Instance M_ret : MRet M := fun A a w => (Ok a, w, []).

#[global] Instance M_bind : MBind M := fun A B k m w =>
  match m w with
  | (Ok a, w', tr) => let '(r, w'', tr') := k a w' in (r, w'', tr ++ tr')
  | (Raise e, w', tr) => (Raise e, w', tr)
  end.

Definition emit (ev : event) : M unit := fun w => (Ok (), w, [ev]).

Definition lift {A : Type} (r : result A) : M A := fun w => (r, w, []).

(** [try: m except: handler] *)
Definition try_except {A : Type} (m handler : M A) : M A := fun w =>
  match m w with
  | (Ok a, w', tr) => (Ok a, w', tr)
  | (Raise _, w', tr) => let '(r, w'', tr') := handler w' in (r, w'', tr ++ tr')
  end.

(** [os.makedirs(path)] of the temp folder *)
Definition makedirs (path : string) : M unit := fun w =>
  if w_temp w then (Raise OSError, w, [EMakeDirs path])
  else (Ok (), {| w_files := w_files w; w_temp := true |}, [EMakeDirs path]).

(** [shutil.rmtree(path)] of the temp folder *)
Definition rmtree (path : string) : M unit := fun w =>
  if w_temp w then
    (Ok (),
     {| w_files := filter (fun kv => starts_with (path +:+ "/") kv.1 = false) (w_files w);
        w_temp := false |},
     [ERmTree path])
  else (Raise OSError, w, [ERmTree path]).

(** [self.host_node.save_node_setup(path)]: the host writes its setup
    to the file the script calls [node_filename]. *)
Definition host_save_node_setup (e : env) : M unit := fun w =>
  (Ok (),
   {| w_files := <[node_filename e := env_setup e]> (w_files w); w_temp := w_temp w |},
   [ESaveSetup (save_node_path e)]).

(** [save_selected_node] *)
Definition save_selected_node (e : env) : M unit :=
  _ ← try_except (makedirs temp_folder)
        (_ ← rmtree temp_folder; makedirs temp_folder);
  host_save_node_setup e.

(** [with open(self.node_filename, 'r') as edit_node: contents = edit_node.readlines()] *)
Definition read_setup (e : env) : M (list string) := fun w =>
  (match w_files w !! node_filename e with
   | Some lines => Ok lines
   | None => Raise OSError
   end, w, [EReadSetup (node_filename e)]).

(** [with open(self.node_filename, 'w') as edit_node: for l in contents: edit_node.write(l)] *)
Definition write_setup (e : env) (contents : list string) : M unit := fun w =>
  (Ok (),
   {| w_files := <[node_filename e := contents]> (w_files w); w_temp := w_temp w |},
   [EWriteSetup (node_filename e) contents]).

(** [reload_selected_node] *)
Definition reload_selected_node (e : env) : M unit :=
  emit (ELoadSetup (save_node_path e)).

(** [remove_temp_folder] *)
Definition remove_temp_folder : M unit := rmtree temp_folder.

Section Operations.
Context {FM : PyFloat}.

(** [self.parse_mocha_files()] against the files of the world. *)
Definition parse_in_world (e : env)
    : M (string * tracks * list (string * list keyframe)) := fun w =>
  (parse_mocha_files (env_start_frame e) (fun path => w_files w !! path) (env_selected e),
   w, []).

(** [node_name = self.name_import(self.track_name)] *)
Definition name_in_host (e : env) (track_name : string) : M string :=
  lift (match name_import track_name (env_existing e) with
        | Some name => Ok name
        | None => Raise RecursionError
        end).

(** [import_perspective_grid] *)
Definition import_perspective_grid (e : env) : M unit :=
  p ← parse_in_world e;
  _ ← emit (ECreateNode "Perspective Grid");
  node_name ← name_in_host e p.1.1;
  _ ← emit (ERename node_name);
  _ ← save_selected_node e;
  contents ← read_setup e;
  contents ← lift (grid_patch node_name p.2 contents);
  _ ← write_setup e contents;
  _ ← reload_selected_node e;
  remove_temp_folder.

(** [import_bilinear_uvs] *)
Definition import_bilinear_uvs (e : env) : M unit :=
  p ← parse_in_world e;
  _ ← emit (ECreateNode "Surface");
  node_name ← name_in_host e p.1.1;
  _ ← emit (ERename node_name);
  _ ← save_selected_node e;
  contents ← read_setup e;
  contents ← lift (uv_patch node_name p.1.2 p.2 contents);
  _ ← write_setup e contents;
  _ ← reload_selected_node e;
  remove_temp_folder.

End Operations.

(** ** A small float model

    The multiples of one half, counted in halves.  It is exact on the
    values the examples below use and serves to run the operations on
    concrete setups. *)

Module HalfFloat.

(** [digits], [digits.0] or [digits.5], with an optional sign *)
Definition of_str (s : string) : result Z :=
  let '(neg, body) :=
    match s with
    | String "-" rest => (true, rest)
    | _ => (false, s)
    end in
  let halves :=
    match split_on "." body with
    | [whole] => z ← int_digits whole 0 false; Some (2 * z)
    | [whole; "0"] => z ← int_digits whole 0 false; Some (2 * z)
    | [whole; "5"] => z ← int_digits whole 0 false; Some (2 * z + 1)
    | _ => None
    end in
  match halves with
  | Some h => Ok (if neg then - h else h)
  | None => Raise ValueError
  end.

Definition to_str (h : Z) : string :=
  (if h <? 0 then "-" else "") +:+ str_int (Z.abs h `quot` 2) +:+
  (if Z.even h then ".0" else ".5").

#[global] Instance model : PyFloat := {|
  float := Z;
  float_of_str := of_str;
  int_of_float := fun h => Ok (h `quot` 2);
  float_of_int := fun n => Ok (2 * n);
  fadd := Z.add;
  fsub := Z.sub;
  float_half := 1;
  str_float := to_str
|}.

(** A float value and a parsed tracker line of this model. *)
Definition val (h : Z) : pyval := @VFloat model h.

Definition kf (frame x y : Z) : keyframe := (frame, x, y).

End HalfFloat.

(** ** A sample run

    Four tracker files of the track [plate] with two lines each, a
    perspective-grid setup and a surface setup, in the float model
    above.  The batch starts at frame 1001. *)

Module Sample.

Definition selected : list string :=
  [ "/shots/plate_Tracker1.ascii"; "/shots/plate_Tracker2.ascii";
    "/shots/plate_Tracker3.ascii"; "/shots/plate_Tracker4.ascii" ].

Definition files : gmap string (list string) :=
  list_to_map
    [ ("/shots/plate_Tracker1.ascii", [ "1 : 10.0 , 90.0" +:+ NL; "2 : 11.5 , 90.5" +:+ NL ]);
      ("/shots/plate_Tracker2.ascii", [ "1 : 80.0 , 90.0" +:+ NL; "2 : 81.5 , 90.5" +:+ NL ]);
      ("/shots/plate_Tracker3.ascii", [ "1 : 10.0 , 20.0" +:+ NL; "2 : 11.5 , 20.5" +:+ NL ]);
      ("/shots/plate_Tracker4.ascii", [ "1 : 80.0 , 20.0" +:+ NL; "2 : 81.5 , 20.5" +:+ NL ]) ].

Definition open_file (path : string) : option (list string) := files !! path.

Definition per_file : list (list keyframe) :=
  [ [ HalfFloat.kf 1001 20 180; HalfFloat.kf 1002 23 181 ];
    [ HalfFloat.kf 1001 160 180; HalfFloat.kf 1002 163 181 ];
    [ HalfFloat.kf 1001 20 40; HalfFloat.kf 1002 23 41 ];
    [ HalfFloat.kf 1001 160 40; HalfFloat.kf 1002 163 41 ] ].

Definition sample_tracks : tracks :=
  {| lower_left := [ HalfFloat.kf 1001 20 40; HalfFloat.kf 1002 23 41 ];
     lower_right := [ HalfFloat.kf 1001 160 40; HalfFloat.kf 1002 163 41 ];
     upper_left := [ HalfFloat.kf 1001 20 180; HalfFloat.kf 1002 23 181 ];
     upper_right := [ HalfFloat.kf 1001 160 180; HalfFloat.kf 1002 163 181 ] |}.

Definition channel_stub (name : string) : list string :=
  [ T2 +:+ "Channel " +:+ name +:+ NL;
    T3 +:+ "Extrapolation constant" +:+ NL;
    T3 +:+ "Value 0" +:+ NL;
    T3 +:+ "End" +:+ NL ].

Definition grid_setup : list string :=
  [ "FrameWidth 200" +:+ NL;
    "FrameHeight 100" +:+ NL;
    "Node PerspectiveGrid" +:+ NL;
    T1 +:+ "Name plate" +:+ NL;
    T2 +:+ "TransformIs3D yes" +:+ NL ] ++
  channel_stub "lower_left_corner/x" ++ channel_stub "lower_left_corner/y" ++
  channel_stub "upper_left_corner/x" ++ channel_stub "upper_left_corner/y" ++
  channel_stub "lower_right_corner/x" ++ channel_stub "lower_right_corner/y" ++
  channel_stub "upper_right_corner/x" ++ channel_stub "upper_right_corner/y" ++
  [ "End" +:+ NL ].

Definition surface_setup : list string :=
  [ "Node Surface" +:+ NL;
    T1 +:+ "Name plate" +:+ NL;
    T2 +:+ "ResWidth 200" +:+ NL;
    T2 +:+ "ResHeight 100" +:+ NL;
    T2 +:+ "IsSoftImported no" +:+ NL;
    T2 +:+ "NumUVTrackControlPoints 0" +:+ NL ] ++
  channel_stub "uv_track_shape" ++ channel_stub "uv_track_vertices" ++
  [ "End" +:+ NL ].

Definition grid_env : env :=
  {| env_selected := selected;
     env_start_frame := 1001;
     env_existing := [ "axis1"; "persp_grid1" ];
     env_setup := grid_setup;
     env_host_name := "action1";
     env_host_type := "Action" |}.

Definition surface_env : env :=
  {| env_selected := selected;
     env_start_frame := 1001;
     env_existing := [ "axis1"; "surface1" ];
     env_setup := surface_setup;
     env_host_name := "action1";
     env_host_type := "Action" |}.

Definition start : world := {| w_files := files; w_temp := false |}.

(** A second run of the grid import: another host node of another
    type, the existing names listed differently, the temp folder left
    over from before and one more file on disk. *)
Definition other_env : env :=
  {| env_selected := selected;
     env_start_frame := 1001;
     env_existing := [ "persp_grid1"; "axis1"; "axis1" ];
     env_setup := grid_setup;
     env_host_name := "image4";
     env_host_type := "Image" |}.

Definition other_start : world :=
  {| w_files := <["/notes.txt" := [ "x" +:+ NL ]]> files; w_temp := true |}.

Definition grid_patched : list string :=
  Eval vm_compute in
    match grid_patch "plate" (corners_of sample_tracks) grid_setup with
    | Ok out => out
    | Raise _ => []
    end.

Definition surface_base : list string :=
  <[0%nat := "Node SurfaceBilinear" +:+ NL]> surface_setup.

Definition surface_patched : list string :=
  Eval vm_compute in
    match uv_patch "plate" sample_tracks (corners_of sample_tracks) surface_setup with
    | Ok out => out
    | Raise _ => []
    end.

End Sample.

(** ** Vocabulary of the statements *)

(** The loop that removes a channel, read on the lines [tail] from the
    fixed index on: lines are dropped up to and including the first
    one containing [End]; [kept] are the lines before the index. *)
Fixpoint pop_channel_tail (kept tail : list string) : result (list string) :=
  match tail with
  | [] => Raise IndexError
  | cur :: rest =>
      if negb (contains "End" cur) then pop_channel_tail kept rest
      else Ok (kept ++ rest)
  end.

Definition pop_channel (contents : list string) (line : nat) : result (list string) :=
  pop_channel_tail (take line contents) (drop line contents).

(** The last component of a path, and the part of a file name before
    the leftmost [_Tracker[1-4]]. *)
Definition base_name (path : string) : string :=
  default EmptyString (last (split_on "/" path)).

Definition name_prefix (file : string) : option string :=
  match tracker_search file with
  | Some name_end => Some (take_chars name_end file)
  | None => None
  end.

Section Vocabulary.
Context {FM : PyFloat}.

(** The texts written to the setup file during a run. *)
Definition writes (tr : list event) : list (list string) :=
  omap (fun ev => match ev with EWriteSetup _ lines => Some lines | _ => None end) tr.

(** Every reload of the host is preceded by a write of the setup file. *)
Definition load_after_write (e : env) (tr : list event) : Prop :=
  forall i path, tr !! i = Some (ELoadSetup path) ->
    path = save_node_path e /\
    exists j patched, (j < i)%nat /\ tr !! j = Some (EWriteSetup (node_filename e) patched).

(** What [save_selected_node] does about the temp folder. *)
Definition temp_events (w : world) : list event :=
  if w_temp w then [EMakeDirs temp_folder; ERmTree temp_folder; EMakeDirs temp_folder]
  else [EMakeDirs temp_folder].

(** The events of a complete run that names the new node [node_name]
    and writes [patched]. *)
Definition run_events (kind : string) (e : env) (w : world) (node_name : string)
    (patched : list string) : list event :=
  [ECreateNode kind; ERename node_name] ++ temp_events w ++
  [ ESaveSetup (save_node_path e);
    EReadSetup (node_filename e);
    EWriteSetup (node_filename e) patched;
    ELoadSetup (save_node_path e);
    ERmTree temp_folder ].

(** The candidate names [name_import] tries, in order. *)
Fixpoint candidates (fuel : nat) (track_name name : string) (object_num : Z) : list string :=
  match fuel with
  | O => []
  | S fuel' =>
      name :: candidates fuel' track_name (track_name +:+ str_int (object_num + 1))
                (object_num + 1)
  end.

(** The fields of a tracker line as the parser cuts them: all white
    space deleted, then split at every colon and comma. *)
Definition line_fields (file_line : string) : list string :=
  split_on "," (replace_char ":" "," (join_empty (py_split file_line))).

(** [line] converts to the keyframe [k] for the batch start frame. *)
Definition converts (start_frame : Z) (file_line : string) (k : keyframe) : Prop :=
  exists (f0 f1 f2 : string) (rest : list string) (frame_float : float) (z : Z) (x y : float),
    line_fields file_line = f0 :: f1 :: f2 :: rest /\
    float_of_str f0 = Ok frame_float /\ int_of_float frame_float = Ok z /\
    float_of_str f1 = Ok x /\ float_of_str f2 = Ok y /\
    k = (z + start_frame - 1, x, y).

(** The keyframes of the files whose path, without its last six
    characters, ends with [tag], in selection order. *)
Definition routed (tag : string) (selected : list string) (per_file : list (list keyframe))
    : list keyframe :=
  concat (zip_with (fun path tuples => if ends_with tag (path_stem path) then tuples else [])
            selected per_file).

(** The conversion of a line as the specification words it: the fields
    are what colons and white space separate, the first is read with
    [int], the second and third with [float]. *)
Definition claimed_fields (file_line : string) : list string :=
  py_split (replace_char ":" " " file_line).

Definition claimed_tuple (start_frame : Z) (file_line : string) : result keyframe :=
  field0 ← py_getitem (claimed_fields file_line) 0;
  z ← py_int field0;
  field1 ← py_getitem (claimed_fields file_line) 1;
  x ← float_of_str field1;
  field2 ← py_getitem (claimed_fields file_line) 2;
  y ← float_of_str field2;
  Ok (z + start_frame - 1, x, y).

(** No line of [text] before index [k - 1] contains the node name. *)
Definition clean (node_name : string) (k : nat) (text : list string) : Prop :=
  forall j line, (j + 1 < k)%nat -> text !! j = Some line -> contains node_name line = false.

(** The lines [add_animation] splices in after the [Value] line. *)
Definition animation_block (animation : list (Z * pyval)) (value_lock : bool)
    (curve_order : string) : list string :=
  [ T3 +:+ "Size " +:+ str_int (Z.of_nat (length animation)) +:+ NL;
    T3 +:+ "KeyVersion 2" +:+ NL ] ++
  concat (map (fun nf => key_frame nf.1 nf.2.1 nf.2.2 value_lock curve_order)
            (enumerate_from 0 animation)).

(** [text] holds, on three consecutive lines, the head of the key
    [index] at [frame] with [value]. *)
Definition holds_key (text : list string) (index : nat) (frame : Z) (value : pyval) : Prop :=
  exists j : nat,
    text !! j = Some (T3 +:+ "Key " +:+ str_int (Z.of_nat index) +:+ NL) /\
    text !! (j + 1)%nat = Some (T4 +:+ "Frame " +:+ str_int frame +:+ NL) /\
    text !! (j + 2)%nat = Some (T4 +:+ "Value " +:+ str_val value +:+ NL).

(** The animation of one dimension of a grid corner: every keyframe
    value lowered by [offset] and raised by one half. *)
Definition grid_animation (dim : keyframe -> float) (offset : float)
    (corner : list keyframe) : list (Z * pyval) :=
  map (fun k => (kf_frame k, VFloat (fadd (fsub (dim k) offset) float_half))) corner.

(** What the loop over the corners of [import_perspective_grid] writes,
    corner by corner, from the text [before] to the text [after]. *)
Fixpoint grid_written (node_name : string) (width height : Z)
    (corners : list (string * list keyframe)) (before after : list string) : Prop :=
  match corners with
  | [] => after = before
  | entry :: rest =>
      exists (hf vf : float) (with_x with_y : list string),
        float_of_int (width `div` 2) = Ok hf /\
        float_of_int (height `div` 2) = Ok vf /\
        add_animation node_name before (entry.1 +:+ "_corner/x")
          (grid_animation kf_x hf entry.2) false "linear" "linear" 0 = Ok with_x /\
        (forall i k, entry.2 !! i = Some k ->
           holds_key with_x i (kf_frame k) (VFloat (fadd (fsub (kf_x k) hf) float_half))) /\
        add_animation node_name with_x (entry.1 +:+ "_corner/y")
          (grid_animation kf_y vf entry.2) false "linear" "linear" 0 = Ok with_y /\
        (forall i k, entry.2 !! i = Some k ->
           holds_key with_y i (kf_frame k) (VFloat (fadd (fsub (kf_y k) vf) float_half))) /\
        grid_written node_name width height rest with_y after
  end.

(** The keys of a shift channel of a tracker attachment: one key per
    keyframe of the corner, holding the first position minus the
    position of the keyframe. *)
Definition shift_key_lines (dim : keyframe -> float) (first : keyframe)
    (corner : list keyframe) : list string :=
  concat (map (fun nf => tracker_key nf.1 (kf_frame nf.2)
                           (VFloat (fsub (dim first) (dim nf.2))))
            (enumerate_from 0 corner)).

(** [block] is the tracker attachment named [tracker] of [corner]. *)
Definition is_attachment (tracker : string) (corner : list keyframe)
    (block : list string) : Prop :=
  exists (first : keyframe) (pre : list string),
    corner !! 0%nat = Some first /\
    block !! 0%nat = Some (T1 +:+ "Attachement Tracker" +:+ NL) /\
    block !! 1%nat
    = Some (T1 +:+ "AttachementName " +:+ TAB +:+ QUOTE +:+ tracker +:+ QUOTE +:+ NL) /\
    block !! 13%nat = Some (T1 +:+ "FirstRefFrame " +:+ str_int (kf_frame first) +:+ NL) /\
    last block = Some ("AttachementEnd" +:+ NL) /\
    length pre = 113%nat /\
    block =
      pre ++
      [ "Channel shift/x" +:+ NL;
        T1 +:+ "Extrapolation linear" +:+ NL;
        T1 +:+ "Value 0" +:+ NL;
        T1 +:+ "Size " +:+ str_int (Z.of_nat (length corner)) +:+ NL;
        T1 +:+ "KeyVersion 2" +:+ NL ] ++
      shift_key_lines kf_x first corner ++
      [ T1 +:+ "Colour 255 0 0" +:+ NL;
        T1 +:+ "End" +:+ NL;
        "Channel shift/y" +:+ NL;
        T1 +:+ "Extrapolation linear" +:+ NL;
        T1 +:+ "Value 0" +:+ NL;
        T1 +:+ "Size " +:+ str_int (Z.of_nat (length corner)) +:+ NL;
        T1 +:+ "KeyVersion 2" +:+ NL ] ++
      shift_key_lines kf_y first corner ++
      [ T1 +:+ "Colour 255 0 0" +:+ NL;
        T1 +:+ "End" +:+ NL;
        "Channel offset/x" +:+ NL;
        T1 +:+ "Extrapolation linear" +:+ NL;
        T1 +:+ "Value 0" +:+ NL;
        T1 +:+ "Colour 85 85 85" +:+ NL;
        T1 +:+ "End" +:+ NL;
        "Channel offset/y" +:+ NL;
        T1 +:+ "Extrapolation linear" +:+ NL;
        T1 +:+ "Value 0" +:+ NL;
        T1 +:+ "Colour 85 85 85" +:+ NL;
        T1 +:+ "End" +:+ NL;
        "ChannelEnd" +:+ NL;
        "AttachementEnd" +:+ NL ].

(** The files left when [save_selected_node] has made the temp folder anew. *)
Definition cleared (w : world) : gmap string (list string) :=
  if w_temp w then
    filter (fun kv => starts_with (temp_folder +:+ "/") kv.1 = false) (w_files w)
  else w_files w.

(** The outcome of an operation in terms of what the parser, the naming
    and the patch of the line list return: the result, the world left
    behind and the events, in each of the four ways a run can end. *)
Definition expected_run (kind : string) (e : env) (w : world)
    (parsed : result (string * tracks * list (string * list keyframe)))
    (patch : string -> string * tracks * list (string * list keyframe) ->
             result (list string))
    : result unit * world * list event :=
  match parsed with
  | Raise x => (Raise x, w, [])
  | Ok p =>
      match name_import p.1.1 (env_existing e) with
      | None => (Raise RecursionError, w, [ECreateNode kind])
      | Some node_name =>
          let saved :=
            {| w_files := <[node_filename e := env_setup e]> (cleared w);
               w_temp := true |} in
          match patch node_name p with
          | Raise x =>
              (Raise x, saved,
               [ECreateNode kind; ERename node_name] ++ temp_events w ++
               [ESaveSetup (save_node_path e); EReadSetup (node_filename e)])
          | Ok patched =>
              (Ok (),
               {| w_files :=
                    filter (fun kv => starts_with (temp_folder +:+ "/") kv.1 = false)
                      (<[node_filename e := patched]> (w_files saved));
                  w_temp := false |},
               run_events kind e w node_name patched)
          end
      end
  end.

(** What an operation writes, as a function of what the parser, the
    naming and the patch return. *)
Definition patch_outcome (e : env)
    (parsed : result (string * tracks * list (string * list keyframe)))
    (patch : string -> string * tracks * list (string * list keyframe) ->
             result (list string))
    : result (list string) :=
  p ← parsed;
  node_name ← match name_import p.1.1 (env_existing e) with
              | Some name => Ok name
              | None => Raise RecursionError
              end;
  patch node_name p.

End Vocabulary.

(** ** More of the script *)

(** [extract_dimension(corner, dimension)]: any dimension other than
    ['x'] and ['y'] falls through both branches and yields [None]. *)
Definition extract_dimension {FM : PyFloat} (corner : list keyframe) (dimension : string)
    : option (list (Z * float)) :=
  if String.eqb dimension "x" then Some (map (fun p => (kf_frame p, kf_x p)) corner)
  else if String.eqb dimension "y" then Some (map (fun p => (kf_frame p, kf_y p)) corner)
  else None.

(** ** More vocabulary *)

(** A string without its white space. *)
Fixpoint remove_spaces (s : string) : string :=
  match s with
  | EmptyString => EmptyString
  | String c rest => if is_space c then remove_spaces rest else String c (remove_spaces rest)
  end.

(** A line with every colon turned into a comma. *)
Definition commas (s : string) : string := replace_char ":" "," s.

(** The two animations [import_bilinear_uvs] builds from a corner:
    positions raised by one half, and positions lowered by a size and
    by one half. *)
Definition raised {FM : PyFloat} (dim : keyframe -> float) (corner : list keyframe)
    : list (Z * pyval) :=
  map (fun k => (kf_frame k, VFloat (fadd (dim k) float_half))) corner.

Definition lowered {FM : PyFloat} (dim : keyframe -> float) (size : float)
    (corner : list keyframe) : list (Z * pyval) :=
  map (fun k => (kf_frame k, VFloat (fsub (fsub (dim k) size) float_half))) corner.

(** The two calls of [add_animation] that end the loop body of
    [import_bilinear_uvs] for the corner [key]. *)
Definition uv_animate {FM : PyFloat} (node_name : string) (contents : list string)
    (key : string) (ax ay : list (Z * pyval)) : result (list string) :=
  contents ← add_animation node_name contents
               ("uv_track_vertices/" +:+ key +:+ "/position/x") ax
               false "constant" "linear" (-1);
  add_animation node_name contents
    ("uv_track_vertices/" +:+ key +:+ "/position/y") ay
    false "constant" "linear" (-1).

(** [path] lies in the temp folder. *)
Definition in_temp (path : string) : bool := starts_with (temp_folder +:+ "/") path.


(** ** More sample runs *)




(* ================================================================== *)
(** * Properties *)

(** ** Facts about strings *)

Lemma starts_with_spec (p s : string) :
  starts_with p s = true <-> exists r, s = p +:+ r.
Proof.
  revert s. induction p as [|a p IH]; intros s; simpl.
  - split; [intros _; by exists s | done].
  - destruct s as [|b s].
    + split; [done | intros [r Hr]; discriminate].
    + destruct (Ascii.eqb_spec a b) as [->|Hne].
      * rewrite IH. split; intros [r Hr]; exists r; [by rewrite Hr | by injection Hr].
      * split; [done | intros [r Hr]; injection Hr; congruence].
Qed.

Lemma contains_spec (item line : string) :
  contains item line = true <-> is_sub item line.
Proof.
  induction line as [|c line IH]; simpl.
  - rewrite orb_false_r, starts_with_spec. split.
    + intros [r Hr]. by exists EmptyString, r.
    + intros [a [b Hab]]. destruct a; [by exists b | discriminate].
  - rewrite orb_true_iff, starts_with_spec, IH. split.
    + intros [[r Hr] | [a [b Hab]]].
      * by exists EmptyString, r.
      * exists (String c a), b. simpl. by rewrite Hab.
    + intros [a [b Hab]]. destruct a as [|c' a]; simpl in Hab.
      * left. by exists b.
      * right. injection Hab as _ Hab. by exists a, b.
Qed.

Lemma contains_false (item line : string) :
  contains item line = false <-> ~ is_sub item line.
Proof. rewrite <- contains_spec. by destruct (contains item line). Qed.

(** ** Facts about the two searches *)

Lemma find_line_from_Some item num setup i :
  find_line_from item num setup = Some i ->
  exists k : nat, i = (num + k)%nat /\
    (exists line, setup !! k = Some line /\ contains item line = true) /\
    (forall j line, (j < k)%nat -> setup !! j = Some line -> contains item line = false).
Proof.
  revert num. induction setup as [|l setup IH]; intros num; simpl; [done|].
  destruct (contains item l) eqn:Hc.
  - intros [= <-]. exists 0%nat. split; [lia|]. split; [by exists l|]. intros; lia.
  - intros H. destruct (IH _ H) as (k & -> & Hk & Hmin).
    exists (S k). split; [lia|]. split; [done|].
    intros [|j] line Hj; simpl; [by intros [= <-] | apply Hmin; lia].
Qed.

Lemma find_line_from_None item num setup :
  find_line_from item num setup = None ->
  forall j line, setup !! j = Some line -> contains item line = false.
Proof.
  revert num. induction setup as [|l setup IH]; intros num; simpl; [done|].
  destruct (contains item l) eqn:Hc; [done|].
  intros H [|j] line; simpl; [by intros [= <-] | by apply (IH _ H)].
Qed.

Lemma find_line_after_from_Some item n num setup i :
  find_line_after_from item n num setup = Some i ->
  exists k : nat, i = (num + k)%nat /\ n < Z.of_nat i /\
    (exists line, setup !! k = Some line /\ contains item line = true) /\
    (forall j line, (j < k)%nat -> n < Z.of_nat (num + j) ->
       setup !! j = Some line -> contains item line = false).
Proof.
  revert num. induction setup as [|l setup IH]; intros num; simpl; [done|].
  destruct ((n <? Z.of_nat num) && contains item l) eqn:Hc.
  - intros [= <-]. apply andb_true_iff in Hc as [Hn Hc]. apply Z.ltb_lt in Hn.
    exists 0%nat. split; [lia|]. split; [lia|]. split; [by exists l|]. intros; lia.
  - intros H. destruct (IH _ H) as (k & -> & Hlt & Hk & Hmin).
    exists (S k). split; [lia|]. split; [lia|]. split; [done|].
    intros [|j] line Hj Hn; simpl.
    + intros [= <-]. apply andb_false_iff in Hc as [Hc|Hc]; [|done].
      apply Z.ltb_ge in Hc. lia.
    + apply Hmin; [lia|]. by replace (S num + j)%nat with (num + S j)%nat by lia.
Qed.

Lemma find_line_after_from_None item n num setup :
  find_line_after_from item n num setup = None ->
  forall j line, n < Z.of_nat (num + j) ->
    setup !! j = Some line -> contains item line = false.
Proof.
  revert num. induction setup as [|l setup IH]; intros num; simpl; [done|].
  destruct ((n <? Z.of_nat num) && contains item l) eqn:Hc; [done|].
  intros H [|j] line Hn; simpl.
  - intros [= <-]. apply andb_false_iff in Hc as [Hc|Hc]; [|done].
    apply Z.ltb_ge in Hc. lia.
  - apply (IH _ H). by replace (S num + j)%nat with (num + S j)%nat by lia.
Qed.

(** C9. [find_line] returns the least index whose line contains [item]
    as a substring and [None] when no line does; [find_line_after]
    returns the least index strictly greater than [n] whose line
    contains [item], and [None] when there is none. *)
Theorem find_line_least_index (item : string) (n : Z) (setup : list string) :
  match find_line item setup with
  | Some i =>
      (exists line, setup !! i = Some line /\ is_sub item line) /\
      (forall j line, (j < i)%nat -> setup !! j = Some line -> ~ is_sub item line)
  | None => forall j line, setup !! j = Some line -> ~ is_sub item line
  end /\
  match find_line_after item n setup with
  | Some i =>
      n < Z.of_nat i /\
      (exists line, setup !! i = Some line /\ is_sub item line) /\
      (forall j line, n < Z.of_nat j -> (j < i)%nat ->
         setup !! j = Some line -> ~ is_sub item line)
  | None =>
      forall j line, n < Z.of_nat j -> setup !! j = Some line -> ~ is_sub item line
  end.
Proof.
  split.
  - unfold find_line. destruct (find_line_from item 0 setup) as [i|] eqn:H.
    + apply find_line_from_Some in H as (k & -> & (line & Hl & Hc) & Hmin).
      simpl. split.
      * exists line. split; [done|]. by apply contains_spec.
      * intros j l Hj Hl'. apply contains_false. by apply (Hmin j).
    + intros j line Hl. apply contains_false. by apply (find_line_from_None _ _ _ H j).
  - unfold find_line_after.
    destruct (find_line_after_from item n 0 setup) as [i|] eqn:H.
    + apply find_line_after_from_Some in H as (k & -> & Hn & (line & Hl & Hc) & Hmin).
      simpl in *. split; [done|]. split.
      * exists line. split; [done|]. by apply contains_spec.
      * intros j l Hnj Hj Hl'. apply contains_false. by apply (Hmin j).
    + intros j line Hn Hl. apply contains_false.
      by apply (find_line_after_from_None _ _ _ _ H j).
Qed.


(** ** Facts about the list operations *)

Lemma bind_Ok {A B : Type} (m : result A) (k : A -> result B) (b : B) :
  m ≫= k = Ok b -> exists a, m = Ok a /\ k a = Ok b.
Proof. destruct m as [a|e]; [by exists a | done]. Qed.

Lemma need_Ok {A : Type} (o : option A) (a : A) : need o = Ok a -> o = Some a.
Proof. destruct o; simpl; congruence. Qed.

Lemma py_index_nat {A : Type} (l : list A) (k : nat) :
  (k < length l)%nat -> py_index l (Z.of_nat k) = Ok k.
Proof.
  intros Hk. unfold py_index.
  replace (0 <=? Z.of_nat k) with true by (symmetry; apply Z.leb_le; lia).
  replace (Z.of_nat k <? Z.of_nat (length l)) with true by (symmetry; apply Z.ltb_lt; lia).
  simpl. by rewrite Nat2Z.id.
Qed.

Lemma py_index_last {A : Type} (l : list A) :
  l ≠ [] -> py_index l (-1) = Ok (length l - 1)%nat.
Proof.
  intros Hl. unfold py_index. destruct l as [|a l]; [done|]. simpl length.
  replace (0 <=? -1) with false by done. simpl.
  replace (- Z.of_nat (S (length l)) <=? -1) with true by (symmetry; apply Z.leb_le; lia).
  simpl. f_equal. lia.
Qed.

Lemma py_index_lt {A : Type} (l : list A) (i : Z) (k : nat) :
  py_index l i = Ok k -> (k < length l)%nat.
Proof.
  unfold py_index.
  destruct ((0 <=? i) && (i <? Z.of_nat (length l))) eqn:H1.
  - intros [= <-]. apply andb_true_iff in H1 as [?%Z.leb_le ?%Z.ltb_lt]. lia.
  - destruct ((- Z.of_nat (length l) <=? i) && (i <? 0)) eqn:H2; [|done].
    intros [= <-]. apply andb_true_iff in H2 as [?%Z.leb_le ?%Z.ltb_lt]. lia.
Qed.

Lemma py_getitem_nat {A : Type} (l : list A) (k : nat) (a : A) :
  l !! k = Some a -> py_getitem l (Z.of_nat k) = Ok a.
Proof.
  intros H. unfold py_getitem. rewrite py_index_nat by by eapply lookup_lt_Some.
  simpl. by rewrite H.
Qed.

Lemma py_setitem_nat {A : Type} (l : list A) (k : nat) (v : A) :
  (k < length l)%nat -> py_setitem l (Z.of_nat k) v = Ok (<[k:=v]> l).
Proof. intros H. unfold py_setitem. by rewrite py_index_nat. Qed.

Lemma py_setitem_Ok {A : Type} (l l' : list A) (i : Z) (v : A) :
  py_setitem l i v = Ok l' ->
  exists k, py_index l i = Ok k /\ (k < length l)%nat /\ l' = <[k:=v]> l.
Proof.
  unfold py_setitem. intros (k & Hk & [= <-])%bind_Ok.
  exists k. split; [done|]. split; [by eapply py_index_lt | done].
Qed.

Lemma py_insert_nat {A : Type} (l : list A) (k : nat) (v : A) :
  (k <= length l)%nat -> py_insert l (Z.of_nat k) v = take k l ++ v :: drop k l.
Proof.
  intros Hk. unfold py_insert.
  replace (Z.of_nat k <? 0) with false by (symmetry; apply Z.ltb_ge; lia).
  by rewrite Z.min_l, Nat2Z.id by lia.
Qed.

Lemma insert_lines_nat (lines contents : list string) (k : nat) :
  (k <= length contents)%nat ->
  insert_lines (Z.of_nat k) lines contents = take k contents ++ lines ++ drop k contents.
Proof.
  unfold insert_lines. revert k contents.
  induction lines as [|x lines IH]; intros k contents Hk; simpl.
  - by rewrite take_drop.
  - rewrite py_insert_nat by done.
    replace (Z.of_nat k + 1) with (Z.of_nat (S k)) by lia.
    rewrite IH by (rewrite length_app, length_take; simpl; rewrite length_drop; lia).
    replace (take k contents ++ x :: drop k contents)
      with ((take k contents ++ [x]) ++ drop k contents) by by rewrite <- app_assoc.
    assert (Hlen : length (take k contents ++ [x]) = S k)
      by (rewrite length_app, length_take; simpl; lia).
    rewrite take_app_length' by done. rewrite drop_app_length' by done.
    by rewrite <- app_assoc.
Qed.

Lemma fold_left_extend {A B : Type} (g : A -> list B) (xs : list A) (init : list B) :
  fold_left (fun acc x => acc ++ g x) xs init = init ++ concat (map g xs).
Proof.
  revert init. induction xs as [|x xs IH]; intros init; simpl.
  - by rewrite app_nil_r.
  - by rewrite IH, app_assoc.
Qed.

Lemma length_enumerate_from {A : Type} (start : Z) (l : list A) :
  length (enumerate_from start l) = length l.
Proof. revert start. induction l; intros; simpl; [done | by rewrite IHl]. Qed.

Lemma lookup_enumerate_from {A : Type} (start : Z) (l : list A) (i : nat) :
  enumerate_from start l !! i = (fun a => (start + Z.of_nat i, a)) <$> l !! i.
Proof.
  revert start i. induction l as [|a l IH]; intros start [|i]; simpl; try done.
  - by rewrite Z.add_0_r.
  - rewrite IH. destruct (l !! i); simpl; [|done]. do 2 f_equal. lia.
Qed.

Lemma length_concat_const {A B : Type} (g : A -> list B) (xs : list A) (k : nat) :
  (forall x, length (g x) = k) -> length (concat (map g xs)) = (k * length xs)%nat.
Proof.
  intros Hg. induction xs as [|x xs IH]; simpl; [lia|].
  rewrite length_app, Hg, IH. lia.
Qed.

(** ** Facts about animation curves *)

Section AnimationFacts.
Context {FM : PyFloat}.

Lemma length_key_frame index frame value value_lock curve_order :
  length (key_frame index frame value value_lock curve_order)
  = if value_lock then 11%nat else 10%nat.
Proof. by destruct value_lock. Qed.

Lemma length_animation_block animation value_lock curve_order :
  length (animation_block animation value_lock curve_order)
  = (2 + (if value_lock then 11 else 10) * length animation)%nat.
Proof.
  unfold animation_block. rewrite length_app. simpl. f_equal.
  rewrite (length_concat_const _ _ (if value_lock then 11 else 10)%nat).
  - by rewrite length_enumerate_from.
  - intros nf. apply length_key_frame.
Qed.

(** The equation of a successful [add_animation]. *)
Lemma add_animation_eq node_name channel setup animation value_lock
    extrapolation curve_order value_index (n c : nat) (key : Z * pyval) :
  find_line node_name setup = Some n ->
  find_line_after channel (Z.of_nat n) setup = Some c ->
  (c + 2 < length setup)%nat ->
  py_getitem animation value_index = Ok key ->
  add_animation node_name setup channel animation value_lock extrapolation
    curve_order value_index
  = Ok (take (c + 1) setup ++
        [ T3 +:+ "Extrapolation " +:+ extrapolation +:+ NL;
          T3 +:+ "Value " +:+ str_val key.2 +:+ NL ] ++
        animation_block animation value_lock curve_order ++
        drop (c + 3) setup).
Proof.
  intros Hn Hc Hlen Hkey. unfold add_animation. rewrite Hn. simpl. rewrite Hc. simpl.
  replace (Z.of_nat c + 1) with (Z.of_nat (c + 1)) by lia.
  replace (Z.of_nat c + 2) with (Z.of_nat (c + 2)) by lia.
  replace (Z.of_nat c + 3) with (Z.of_nat (c + 3)) by lia.
  rewrite py_setitem_nat by lia. simpl. rewrite Hkey. simpl.
  rewrite py_setitem_nat by (rewrite length_insert; lia). simpl.
  rewrite insert_lines_nat by (rewrite !length_insert; lia).
  f_equal. unfold animation_keys. rewrite fold_left_extend.
  fold (animation_block animation value_lock curve_order).
  set (E := T3 +:+ "Extrapolation " +:+ extrapolation +:+ NL).
  set (V := T3 +:+ "Value " +:+ str_val key.2 +:+ NL).
  rewrite !drop_insert_lt by lia.
  assert (Ht : take (c + 3) (<[(c + 2)%nat:=V]> (<[(c + 1)%nat:=E]> setup))
               = take (c + 1) setup ++ [E; V]); [|rewrite Ht; by rewrite <- app_assoc].
  apply list_eq. intros i.
  destruct (decide (i < c + 1)%nat) as [Hi|Hi].
  - rewrite lookup_take_lt by lia. rewrite list_lookup_insert_ne by lia.
    rewrite list_lookup_insert_ne by lia.
    rewrite lookup_app_l by (rewrite length_take; lia). by rewrite lookup_take_lt by lia.
  - rewrite lookup_app_r by (rewrite length_take; lia). rewrite length_take.
    rewrite Nat.min_l by lia.
    destruct (decide (i = c + 1)%nat) as [->|Hi1].
    + rewrite lookup_take_lt by lia. rewrite list_lookup_insert_ne by lia.
      rewrite list_lookup_insert_eq by lia. by rewrite Nat.sub_diag.
    + destruct (decide (i = c + 2)%nat) as [->|Hi2].
      * rewrite lookup_take_lt by lia.
        rewrite list_lookup_insert_eq by (rewrite length_insert; lia).
        by assert (c + 2 - (c + 1) = 1)%nat as -> by lia.
      * rewrite lookup_take_ge by lia.
        destruct (i - (c + 1))%nat as [|[|k]] eqn:Hk; [lia|lia|done].
Qed.

End AnimationFacts.

Lemma py_index_nonneg {A : Type} (l : list A) (i : Z) (k : nat) :
  0 <= i -> py_index l i = Ok k -> i = Z.of_nat k /\ (k < length l)%nat.
Proof.
  intros Hi H. split; [|by eapply py_index_lt].
  revert H. unfold py_index.
  destruct ((0 <=? i) && (i <? Z.of_nat (length l))) eqn:H1.
  - intros [= <-]. lia.
  - destruct ((- Z.of_nat (length l) <=? i) && (i <? 0)) eqn:H2; [|done].
    apply andb_true_iff in H2 as [_ ?%Z.ltb_lt]. lia.
Qed.

Section AnimationEffect.
Context {FM : PyFloat}.

Lemma add_animation_Ok_inv node_name channel setup animation value_lock
    extrapolation curve_order value_index out :
  add_animation node_name setup channel animation value_lock extrapolation
    curve_order value_index = Ok out ->
  exists (n c : nat) (key : Z * pyval),
    find_line node_name setup = Some n /\
    find_line_after channel (Z.of_nat n) setup = Some c /\
    (c + 2 < length setup)%nat /\
    py_getitem animation value_index = Ok key /\
    out = take (c + 1) setup ++
          [ T3 +:+ "Extrapolation " +:+ extrapolation +:+ NL;
            T3 +:+ "Value " +:+ str_val key.2 +:+ NL ] ++
          animation_block animation value_lock curve_order ++
          drop (c + 3) setup.
Proof.
  intros H. pose proof H as H0. unfold add_animation in H.
  apply bind_Ok in H as (n & Hn%need_Ok & H).
  apply bind_Ok in H as (c & Hc%need_Ok & H).
  apply bind_Ok in H as (s1 & Hs1 & H).
  apply bind_Ok in H as (key & Hkey & H).
  apply bind_Ok in H as (s2 & Hs2 & _).
  apply py_setitem_Ok in Hs1 as (k1 & Hk1 & _ & ->).
  apply py_setitem_Ok in Hs2 as (k2 & Hk2 & _ & _).
  apply py_index_nonneg in Hk2 as [Hk2 Hlt]; [|lia].
  rewrite length_insert in Hlt.
  assert (Hlen : (c + 2 < length setup)%nat) by lia.
  exists n, c, key. repeat (split; [done|]).
  rewrite (add_animation_eq _ _ _ _ _ _ _ _ n c key) in H0 by done.
  by injection H0 as <-.
Qed.

(** C10 (amended). When the first line containing [node_name] is [n],
    the first line after it containing [channel] is [c], two more
    lines follow [c], and [value_index] is a valid index of
    [animation], [add_animation] returns the setup with line [c+1]
    replaced by the Extrapolation line, line [c+2] by the Value line of
    [animation[value_index]], and [2 + 10 * len(animation)] lines
    (11 per key with [value_lock]) inserted at [c+3]; the lines up to
    [c] stay in place and those from [c+3] on are shifted unchanged. *)
Theorem add_animation_frame node_name channel setup animation value_lock
    extrapolation curve_order value_index (n c : nat) (key : Z * pyval) :
  find_line node_name setup = Some n ->
  find_line_after channel (Z.of_nat n) setup = Some c ->
  (c + 2 < length setup)%nat ->
  py_getitem animation value_index = Ok key ->
  exists out block,
    add_animation node_name setup channel animation value_lock extrapolation
      curve_order value_index = Ok out /\
    block = animation_block animation value_lock curve_order /\
    length block = (2 + (if value_lock then 11 else 10) * length animation)%nat /\
    length out = (length setup + length block)%nat /\
    (forall i, (i <= c)%nat -> out !! i = setup !! i) /\
    out !! (c + 1)%nat = Some (T3 +:+ "Extrapolation " +:+ extrapolation +:+ NL) /\
    out !! (c + 2)%nat = Some (T3 +:+ "Value " +:+ str_val key.2 +:+ NL) /\
    (forall j, (j < length block)%nat -> out !! (c + 3 + j)%nat = block !! j) /\
    (forall i, (c + 3 <= i)%nat -> out !! (i + length block)%nat = setup !! i).
Proof.
  intros Hn Hc Hlen Hkey.
  eexists _, (animation_block animation value_lock curve_order).
  split; [by apply (add_animation_eq _ _ _ _ _ _ _ _ n c key)|].
  split; [done|]. split; [apply length_animation_block|].
  generalize (animation_block animation value_lock curve_order) as block.
  generalize (T3 +:+ "Extrapolation " +:+ extrapolation +:+ NL) as E.
  generalize (T3 +:+ "Value " +:+ str_val key.2 +:+ NL) as V.
  intros V E block.
  assert (Htake : length (take (c + 1) setup) = (c + 1)%nat)
    by (rewrite length_take; lia).
  split; [|split; [|split; [|split; [|split]]]].
  - rewrite !length_app, Htake, length_drop. simpl. lia.
  - intros i Hi. rewrite lookup_app_l by lia. apply lookup_take_lt. lia.
  - rewrite lookup_app_r by lia. rewrite Htake. by rewrite Nat.sub_diag.
  - rewrite lookup_app_r by lia. rewrite Htake.
    by assert (c + 2 - (c + 1) = 1)%nat as -> by lia.
  - intros j Hj. rewrite lookup_app_r by lia. rewrite Htake.
    assert (c + 3 + j - (c + 1) = S (S j))%nat as -> by lia. simpl.
    by rewrite lookup_app_l by done.
  - intros i Hi. rewrite lookup_app_r by lia. rewrite Htake.
    assert (i + length block - (c + 1) = S (S (length block + (i - (c + 3)))))%nat
      as -> by lia. simpl.
    rewrite lookup_app_r by lia. rewrite lookup_drop. f_equal. lia.
Qed.

End AnimationEffect.

(** A five-line setup with a one-key animation. *)
Lemma add_animation_frame_witness :
  exists out block,
    add_animation (FM := HalfFloat.model) "grid" ["Node"; "grid"; "chan"; "e"; "v"; "End"]
      "chan" [(7, HalfFloat.val 3)] false "linear" "linear" 0 = Ok out /\
    block = animation_block [(7, HalfFloat.val 3)] false "linear" /\
    length block = 12%nat /\
    length out = (6 + length block)%nat /\
    (forall i, (i <= 2)%nat -> out !! i = ["Node"; "grid"; "chan"; "e"; "v"; "End"] !! i) /\
    out !! 3%nat = Some (T3 +:+ "Extrapolation " +:+ "linear" +:+ NL) /\
    out !! 4%nat = Some (T3 +:+ "Value " +:+ "1.5" +:+ NL) /\
    (forall j, (j < length block)%nat -> out !! (5 + j)%nat = block !! j) /\
    (forall i, (5 <= i)%nat ->
       out !! (i + length block)%nat = ["Node"; "grid"; "chan"; "e"; "v"; "End"] !! i).
Proof.
  apply (add_animation_frame (FM := HalfFloat.model) "grid" "chan"
           ["Node"; "grid"; "chan"; "e"; "v"; "End"] [(7, HalfFloat.val 3)] false
           "linear" "linear" 0 1 2 (7, HalfFloat.val 3));
    [reflexivity | reflexivity | simpl; lia | reflexivity].
Defined.

(** C10, as stated, fails when fewer than two lines follow the channel
    line: the assignment to [setup[channel_line + 1]] raises. *)
Lemma add_animation_channel_at_end :
  find_line "grid" ["grid"; "chan"] = Some 0%nat /\
  find_line_after "chan" 0 ["grid"; "chan"] = Some 1%nat /\
  add_animation (FM := HalfFloat.model) "grid" ["grid"; "chan"] "chan"
    [(1, VInt 0)] false "linear" "linear" 0 = Raise IndexError.
Proof. by vm_compute. Qed.

(** ** Facts about the file selection *)

Lemma split_on_go_nonempty sep s cur : split_on_go sep s cur ≠ [].
Proof.
  revert cur. induction s as [|c s IH]; intros cur; simpl; [done|].
  destruct (Ascii.eqb c sep); [done | apply IH].
Qed.

Lemma file_name_eq (path : string) : file_name path = Ok (base_name path).
Proof.
  unfold file_name, base_name, py_getitem, split_on.
  pose proof (split_on_go_nonempty "/" path EmptyString) as Hne.
  destruct (split_on_go "/" path EmptyString) as [|a l] eqn:E; [done|].
  rewrite py_index_last by done. simpl mbind. rewrite last_lookup.
  simpl length. simpl Init.Nat.pred. rewrite Nat.sub_0_r.
  destruct ((a :: l) !! length l) eqn:Hl; [done|].
  apply lookup_ge_None in Hl. simpl in Hl. lia.
Qed.

Lemma mapM_file_name (selected : list string) :
  mapM file_name selected = Ok (map base_name selected).
Proof.
  induction selected as [|p l IH]; simpl; [done|].
  by rewrite file_name_eq, IH.
Qed.

Lemma remove_dups_all_eq (p : string) (l : list string) :
  l ≠ [] -> Forall (eq p) l -> remove_dups l = [p].
Proof.
  intros Hne Hall.
  assert (Hin : forall x, x ∈ remove_dups l -> x = p).
  { intros x Hx. rewrite elem_of_remove_dups in Hx. rewrite Forall_forall in Hall.
    symmetry. by apply Hall. }
  pose proof (NoDup_remove_dups l) as Hnd.
  destruct (remove_dups l) as [|a [|b r]] eqn:E.
  - destruct l as [|x l]; [done|].
    assert (x ∈ remove_dups (x :: l)) as Hx by (apply elem_of_remove_dups; left).
    rewrite E in Hx. by apply elem_of_nil in Hx.
  - f_equal. apply Hin. left.
  - assert (a = p) as -> by (apply Hin; left).
    assert (b = p) as -> by (apply Hin; right; left).
    apply NoDup_cons in Hnd as [Hnot _]. exfalso. apply Hnot. left.
Qed.

Lemma remove_dups_two (p q : string) (l : list string) :
  p ∈ l -> q ∈ l -> q ≠ p -> length (remove_dups l) ≠ 1%nat.
Proof.
  intros Hp Hq Hne Hlen. rewrite <- elem_of_remove_dups in Hp, Hq.
  destruct (remove_dups l) as [|a [|b r]]; [done| |done].
  apply list_elem_of_singleton in Hp, Hq. congruence.
Qed.

Lemma scan_names_step files acc tn p file :
  Forall (eq p) acc -> name_prefix file = Some p ->
  scan_names (file :: files) acc tn = scan_names files (acc ++ [p]) p.
Proof.
  intros Hall Hp. unfold name_prefix in Hp. simpl.
  destruct (tracker_search file) as [e|]; [|done]. injection Hp as Hp. rewrite Hp.
  rewrite (remove_dups_all_eq p).
  - simpl. destruct acc as [|a acc]; [done|]. simpl.
    apply Forall_cons in Hall as [<- _]. unfold py_getitem, py_index. simpl length.
    replace (0 <? Z.of_nat (S (length (acc ++ [p])))) with true
      by (symmetry; apply Z.ltb_lt; lia). done.
  - by destruct acc.
  - apply Forall_app. split; [done | by constructor].
Qed.

Lemma scan_names_no_pattern files acc tn file :
  name_prefix file = None -> scan_names (file :: files) acc tn = Raise TypeError.
Proof. unfold name_prefix. simpl. by destruct (tracker_search file). Qed.

Lemma scan_names_other_prefix files acc tn p q file :
  acc ≠ [] -> Forall (eq p) acc -> name_prefix file = Some q -> q ≠ p ->
  scan_names (file :: files) acc tn = Raise ValueError.
Proof.
  intros Hne Hall Hq Hpq. unfold name_prefix in Hq. simpl.
  destruct (tracker_search file) as [e|]; [|done]. injection Hq as Hq. rewrite Hq.
  assert (Hlen : length (remove_dups (acc ++ [q])) ≠ 1%nat).
  { apply (remove_dups_two p q); [|set_solver|done].
    destruct acc as [|a acc]; [done|]. apply Forall_cons in Hall as [<- _]. set_solver. }
  apply Nat.eqb_neq in Hlen. by rewrite Hlen.
Qed.

Lemma scan_names_good good files acc tn p :
  Forall (eq p) acc -> Forall (fun f => name_prefix f = Some p) good ->
  scan_names (good ++ files) acc tn
  = scan_names files (acc ++ replicate (length good) p)
      (match good with [] => tn | _ => p end).
Proof.
  revert acc tn. induction good as [|g good IH]; intros acc tn Hacc Hgood.
  - simpl. by rewrite app_nil_r.
  - apply Forall_cons in Hgood as [Hg Hgood]. rewrite <- app_comm_cons.
    rewrite (scan_names_step _ _ _ p) by done.
    rewrite IH; [|apply Forall_app; split; [done | by constructor] | done].
    rewrite <- app_assoc. simpl length. simpl replicate. simpl app. by destruct good.
Qed.

(** C1 (amended). [parse_mocha_files] raises [ValueError] unless exactly
    four files are selected.  With four files the names are checked in
    selection order and the first offending one decides: [TypeError]
    when it lacks [_Tracker[1-4]] and every file before it matches with
    one prefix, [ValueError] when it matches but its prefix differs
    from that of the files before it.  When all four match and share a
    prefix nothing is raised and the track name is that prefix. *)
Theorem validate_selection_raises (selected : list string) :
  (length selected ≠ 4%nat -> validate_selection selected = Raise ValueError) /\
  (length selected = 4%nat ->
   (forall p,
      Forall (fun path => name_prefix (base_name path) = Some p) selected ->
      validate_selection selected = Ok p) /\
   (forall good path rest p,
      selected = good ++ path :: rest ->
      Forall (fun g => name_prefix (base_name g) = Some p) good ->
      name_prefix (base_name path) = None ->
      validate_selection selected = Raise TypeError) /\
   (forall good path rest p q,
      selected = good ++ path :: rest -> good ≠ [] ->
      Forall (fun g => name_prefix (base_name g) = Some p) good ->
      name_prefix (base_name path) = Some q -> q ≠ p ->
      validate_selection selected = Raise ValueError)).
Proof.
  unfold validate_selection. split.
  - intros Hlen. apply Nat.eqb_neq in Hlen. by rewrite Hlen.
  - intros Hlen. rewrite Hlen. simpl negb. cbv iota. rewrite mapM_file_name. simpl mbind.
    split; [|split].
    + intros p Hall.
      pose proof (scan_names_good (map base_name selected) [] [] EmptyString p) as H.
      rewrite app_nil_r in H. rewrite H; [|done|by apply Forall_map].
      simpl. destruct selected; [done | done].
    + intros good path rest p -> Hgood Hpath.
      rewrite map_app. simpl map.
      rewrite (scan_names_good _ _ _ _ p); [|done|by apply Forall_map].
      by apply scan_names_no_pattern.
    + intros good path rest p q -> Hne Hgood Hpath Hpq.
      rewrite map_app. simpl map.
      rewrite (scan_names_good _ _ _ _ p); [|done|by apply Forall_map].
      apply (scan_names_other_prefix _ _ _ p q); try done.
      * destruct good; [done|]. simpl. done.
      * simpl. apply Forall_replicate. done.
Qed.

(** Four files of one track. *)
Lemma validate_selection_raises_witness :
  validate_selection
    [ "/shots/plate_Tracker1.ascii"; "/shots/plate_Tracker2.ascii";
      "/shots/plate_Tracker3.ascii"; "/shots/plate_Tracker4.ascii" ] = Ok "plate".
Proof.
  apply (proj1 (proj2 (validate_selection_raises
           [ "/shots/plate_Tracker1.ascii"; "/shots/plate_Tracker2.ascii";
             "/shots/plate_Tracker3.ascii"; "/shots/plate_Tracker4.ascii" ]) eq_refl)
           "plate").
  repeat constructor.
Defined.

(** C1, as stated, fails when a file without the pattern comes after
    two files of different tracks: the exception is [ValueError]. *)
Lemma validate_selection_mixed_offenders :
  length [ "/shots/a_Tracker1.ascii"; "/shots/b_Tracker2.ascii";
           "/shots/notes.ascii"; "/shots/a_Tracker4.ascii" ] = 4%nat /\
  name_prefix (base_name "/shots/notes.ascii") = None /\
  validate_selection
    [ "/shots/a_Tracker1.ascii"; "/shots/b_Tracker2.ascii";
      "/shots/notes.ascii"; "/shots/a_Tracker4.ascii" ]
  = Raise ValueError.
Proof. by vm_compute. Qed.

(** What the search for [_Tracker[1-4]] finds. *)

Lemma take_drop_chars (k : nat) (s : string) : take_chars k s +:+ drop_chars k s = s.
Proof.
  revert s. induction k as [|k IH]; intros [|c s]; try done.
  change (String c (take_chars k s +:+ drop_chars k s) = String c s). by rewrite IH.
Qed.

Lemma drop_chars_app (a s : string) : drop_chars (String.length a) (a +:+ s) = s.
Proof. induction a as [|c a IH]; [done | apply IH]. Qed.

Lemma length_take_chars (k : nat) (s : string) :
  (k <= String.length s)%nat -> String.length (take_chars k s) = k.
Proof.
  revert s. induction k as [|k IH]; intros [|c s] Hk; simpl in *; try done; [lia|].
  rewrite IH; lia.
Qed.

Lemma tracker_match_here_spec (s : string) :
  tracker_match_here s = true <->
  exists d rest, is_tracker_digit d = true /\ s = "_Tracker" +:+ String d rest.
Proof.
  unfold tracker_match_here. rewrite andb_true_iff, starts_with_spec. split.
  - intros [[r ->] Hd]. change (drop_chars 8 ("_Tracker" +:+ r)) with r in Hd.
    destruct r as [|d rest]; [done|]. by exists d, rest.
  - intros (d & rest & Hd & ->). split; [by eexists | exact Hd].
Qed.

Lemma tracker_search_from_Some pos s e :
  tracker_search_from pos s = Some e ->
  exists k, e = (pos + k)%nat /\ (k <= String.length s)%nat /\
    tracker_match_here (drop_chars k s) = true /\
    forall j, (j < k)%nat -> tracker_match_here (drop_chars j s) = false.
Proof.
  revert pos. induction s as [|c s IH]; intros pos; simpl.
  - done.
  - destruct (tracker_match_here (String c s)) eqn:Hm.
    + intros [= <-]. exists 0%nat. split; [lia|]. split; [simpl; lia|]. split; [done|]. intros; lia.
    + intros H. destruct (IH _ H) as (k & -> & Hk & Hmk & Hmin).
      exists (S k). split; [lia|]. split; [simpl; lia|]. split; [done|].
      intros [|j] Hj; [done|]. simpl. apply Hmin. lia.
Qed.

Lemma tracker_search_from_None pos s :
  tracker_search_from pos s = None ->
  forall j, tracker_match_here (drop_chars j s) = false.
Proof.
  revert pos. induction s as [|c s IH]; intros pos; simpl.
  - by intros _ [|j].
  - destruct (tracker_match_here (String c s)) eqn:Hm; [done|].
    intros H [|j]; [done|]. simpl. by apply (IH _ H).
Qed.

(** X22. The prefix is what stands before the leftmost occurrence of
    [_Tracker] followed by a digit from 1 to 4, and there is no prefix
    exactly when the name has no such occurrence. *)
Lemma name_prefix_spec (file : string) :
  match name_prefix file with
  | Some p =>
      (exists d rest, is_tracker_digit d = true /\
         file = p +:+ "_Tracker" +:+ String d rest) /\
      (forall a d rest, is_tracker_digit d = true ->
         file = a +:+ "_Tracker" +:+ String d rest ->
         (String.length p <= String.length a)%nat)
  | None =>
      forall a d rest, is_tracker_digit d = true ->
        file ≠ a +:+ "_Tracker" +:+ String d rest
  end.
Proof.
  unfold name_prefix, tracker_search.
  destruct (tracker_search_from 0 file) as [e|] eqn:H.
  - apply tracker_search_from_Some in H as (k & -> & Hk & Hm & Hmin). simpl. split.
    + apply tracker_match_here_spec in Hm as (d & rest & Hd & Hrest).
      exists d, rest. split; [done|]. by rewrite <- Hrest, take_drop_chars.
    + intros a d rest Hd Hfile. rewrite length_take_chars by done.
      destruct (decide (String.length a < k)%nat) as [Hlt|]; [|lia].
      specialize (Hmin _ Hlt). rewrite Hfile, drop_chars_app in Hmin.
      assert (tracker_match_here ("_Tracker" +:+ String d rest) = true) as Ht
        by (apply tracker_match_here_spec; by exists d, rest).
      congruence.
  - intros a d rest Hd Hfile.
    pose proof (tracker_search_from_None _ _ H (String.length a)) as Hm.
    rewrite Hfile, drop_chars_app in Hm.
    assert (tracker_match_here ("_Tracker" +:+ String d rest) = true) as Ht
      by (apply tracker_match_here_spec; by exists d, rest).
    congruence.
Qed.

(** ** Facts about the tracker files *)

Lemma ends_with_same_length (a b s : string) :
  String.length a = String.length b ->
  ends_with a s = true -> ends_with b s = true -> a = b.
Proof.
  unfold ends_with. intros Hlen [_ Ha]%andb_true_iff [_ Hb]%andb_true_iff.
  rewrite Hlen in Ha. apply String.eqb_eq in Ha, Hb. congruence.
Qed.

Section TrackerFiles.
Context {FM : PyFloat}.

Lemma frame_to_tuple_converts start_frame file_line k :
  converts start_frame file_line k ->
  frame_to_tuple (start_frame - 1) file_line = Ok k.
Proof.
  intros (f0 & f1 & f2 & rest & ff & z & x & y & Hf & H0 & Hz & H1 & H2 & ->).
  unfold frame_to_tuple. fold (line_fields file_line). rewrite Hf.
  rewrite (py_getitem_nat _ 0 f0) by done. simpl. rewrite H0. simpl. rewrite Hz. simpl.
  rewrite (py_getitem_nat _ 1 f1) by done. simpl. rewrite H1. simpl.
  rewrite (py_getitem_nat _ 2 f2) by done. simpl. rewrite H2. simpl.
  do 3 f_equal. lia.
Qed.

Lemma route_fields (l : string) (k : keyframe) (t : tracks) :
  route l k t =
  {| lower_left := lower_left t ++ (if ends_with "Tracker3" (path_stem l) then [k] else []);
     lower_right := lower_right t ++ (if ends_with "Tracker4" (path_stem l) then [k] else []);
     upper_left := upper_left t ++ (if ends_with "Tracker1" (path_stem l) then [k] else []);
     upper_right := upper_right t ++ (if ends_with "Tracker2" (path_stem l) then [k] else []) |}.
Proof.
  unfold route. destruct t as [ll lr ul ur]. simpl.
  destruct (ends_with "Tracker1" (path_stem l)) eqn:H1;
    destruct (ends_with "Tracker2" (path_stem l)) eqn:H2;
    destruct (ends_with "Tracker3" (path_stem l)) eqn:H3;
    destruct (ends_with "Tracker4" (path_stem l)) eqn:H4;
    rewrite ?app_nil_r; try reflexivity; exfalso;
    repeat match goal with
    | Ha : ends_with ?a ?s = true, Hb : ends_with ?b ?s = true |- _ =>
        discriminate (ends_with_same_length a b s eq_refl Ha Hb)
    end.
Qed.

Lemma route_all (l : string) (tuples : list keyframe) (t : tracks) :
  fold_left (fun t k => route l k t) tuples t =
  {| lower_left := lower_left t ++ (if ends_with "Tracker3" (path_stem l) then tuples else []);
     lower_right := lower_right t ++ (if ends_with "Tracker4" (path_stem l) then tuples else []);
     upper_left := upper_left t ++ (if ends_with "Tracker1" (path_stem l) then tuples else []);
     upper_right := upper_right t ++ (if ends_with "Tracker2" (path_stem l) then tuples else []) |}.
Proof.
  revert t. induction tuples as [|k tuples IH]; intros t; simpl.
  - destruct t. simpl.
    by destruct (ends_with "Tracker1" _), (ends_with "Tracker2" _),
      (ends_with "Tracker3" _), (ends_with "Tracker4" _); rewrite !app_nil_r.
  - rewrite IH, route_fields. simpl.
    by destruct (ends_with "Tracker1" _), (ends_with "Tracker2" _),
      (ends_with "Tracker3" _), (ends_with "Tracker4" _);
      rewrite <- ?app_assoc, ?app_nil_r.
Qed.

Lemma read_lines_converts start_frame l lines tuples t :
  Forall2 (converts start_frame) lines tuples ->
  read_lines (start_frame - 1) l lines t
  = Ok (fold_left (fun t k => route l k t) tuples t).
Proof.
  intros H. revert t. induction H as [|line k lines tuples Hk _ IH]; intros t; simpl.
  - done.
  - unfold read_lines in *. simpl. rewrite (frame_to_tuple_converts _ _ _ Hk). simpl.
    apply IH.
Qed.

Lemma read_files_converts start_frame open_file selected per_file t :
  Forall2 (fun path tuples => exists lines,
             open_file path = Some lines /\ Forall2 (converts start_frame) lines tuples)
    selected per_file ->
  read_files (start_frame - 1) open_file selected t =
  Ok {| lower_left := lower_left t ++ routed "Tracker3" selected per_file;
        lower_right := lower_right t ++ routed "Tracker4" selected per_file;
        upper_left := upper_left t ++ routed "Tracker1" selected per_file;
        upper_right := upper_right t ++ routed "Tracker2" selected per_file |}.
Proof.
  intros H. revert t.
  induction H as [|path tuples selected per_file (lines & Hopen & Hconv) _ IH]; intros t.
  - unfold routed. simpl. destruct t. simpl. by rewrite !app_nil_r.
  - unfold read_files in *. simpl. rewrite Hopen.
    rewrite (read_lines_converts _ _ _ _ _ Hconv). simpl. rewrite IH.
    rewrite route_all. unfold routed. simpl. by rewrite <- !app_assoc.
Qed.

(** C2 (amended).  For a valid selection whose files open and whose
    lines all convert, [parse_mocha_files] turns every line into
    [(int(float(f0)) + start_frame - 1, float(f1), float(f2))], where
    [f0], [f1], [f2] are the first fields left after deleting all white
    space and splitting at colons and commas, and appends the tuples in
    file order to the corner list chosen by the tracker number at the
    end of the path without its last six characters: Tracker1 to
    [upper_left], Tracker2 to [upper_right], Tracker3 to [lower_left],
    Tracker4 to [lower_right]; [self.corners] maps the four corner
    names to exactly these lists. *)
Theorem parse_mocha_files_corners (start_frame : Z)
    (open_file : string -> option (list string)) (selected : list string)
    (track_name : string) (per_file : list (list keyframe)) :
  validate_selection selected = Ok track_name ->
  Forall2 (fun path tuples => exists lines,
             open_file path = Some lines /\ Forall2 (converts start_frame) lines tuples)
    selected per_file ->
  exists t,
    parse_mocha_files start_frame open_file selected
    = Ok (track_name, t,
          [ ("lower_left", routed "Tracker3" selected per_file);
            ("upper_left", routed "Tracker1" selected per_file);
            ("lower_right", routed "Tracker4" selected per_file);
            ("upper_right", routed "Tracker2" selected per_file) ]) /\
    upper_left t = routed "Tracker1" selected per_file /\
    upper_right t = routed "Tracker2" selected per_file /\
    lower_left t = routed "Tracker3" selected per_file /\
    lower_right t = routed "Tracker4" selected per_file.
Proof.
  intros Hvalid Hfiles. unfold parse_mocha_files. rewrite Hvalid. simpl.
  rewrite (read_files_converts _ _ _ _ _ Hfiles). simpl.
  eexists. split; [reflexivity|]. by simpl.
Qed.

End TrackerFiles.


(** The sample selection. *)
Lemma parse_mocha_files_corners_witness :
  exists t,
    parse_mocha_files 1001 Sample.open_file Sample.selected
    = Ok ("plate", t,
          [ ("lower_left", routed "Tracker3" Sample.selected Sample.per_file);
            ("upper_left", routed "Tracker1" Sample.selected Sample.per_file);
            ("lower_right", routed "Tracker4" Sample.selected Sample.per_file);
            ("upper_right", routed "Tracker2" Sample.selected Sample.per_file) ]) /\
    upper_left t = routed "Tracker1" Sample.selected Sample.per_file /\
    upper_right t = routed "Tracker2" Sample.selected Sample.per_file /\
    lower_left t = routed "Tracker3" Sample.selected Sample.per_file /\
    lower_right t = routed "Tracker4" Sample.selected Sample.per_file.
Proof.
  apply (parse_mocha_files_corners 1001 Sample.open_file Sample.selected "plate"
           Sample.per_file).
  - reflexivity.
  - unfold Sample.selected, Sample.per_file.
    repeat (constructor;
            [eexists; split; [reflexivity|];
             repeat (constructor;
                     [do 8 eexists; repeat (split; [reflexivity|]); reflexivity|]);
             constructor|]);
      constructor.
Defined.

(** C2, as stated, fails on a line whose fields are separated by white
    space only: read as the claim words it the line is a keyframe, the
    parser deletes the white space and finds a single field. *)
Lemma frame_to_tuple_space_separated :
  claimed_tuple 1001 "1 2 3" = Ok (HalfFloat.kf 1001 4 6) /\
  frame_to_tuple (FM := HalfFloat.model) (1001 - 1) "1 2 3" = Raise IndexError.
Proof. by vm_compute. Qed.

(** ** Facts about the perspective grid *)

Lemma find_line_lt item setup i :
  find_line item setup = Some i -> (i < length setup)%nat.
Proof.
  intros H. apply find_line_from_Some in H as (k & -> & (line & Hl & _) & _).
  apply lookup_lt_Some in Hl. lia.
Qed.

Lemma find_line_after_lt item n setup i :
  find_line_after item n setup = Some i -> n < Z.of_nat i /\ (i < length setup)%nat.
Proof.
  intros H. apply find_line_after_from_Some in H as (k & -> & Hn & (line & Hl & _) & _).
  apply lookup_lt_Some in Hl. split; [done | lia].
Qed.

Lemma lookup_concat_const {A B : Type} (g : A -> list B) (xs : list A) (k i j : nat) (x : A) :
  (forall y, length (g y) = k) -> xs !! i = Some x -> (j < k)%nat ->
  concat (map g xs) !! (i * k + j)%nat = g x !! j.
Proof.
  intros Hg. revert i. induction xs as [|y xs IH]; intros i Hi Hj; [done|].
  destruct i as [|i]; simpl in *.
  - injection Hi as ->. apply lookup_app_l. by rewrite Hg.
  - rewrite lookup_app_r by (rewrite Hg; lia). rewrite Hg.
    replace (k + i * k + j - k)%nat with (i * k + j)%nat by lia. by apply IH.
Qed.

Lemma lookup_after_four {A : Type} (pre : list A) (a b c d : A) (body tail : list A)
    (m : nat) :
  (pre ++ [a; b] ++ ([c; d] ++ body) ++ tail) !! (length pre + 4 + m)%nat
  = (body ++ tail) !! m.
Proof.
  rewrite lookup_app_r by lia.
  by assert (length pre + 4 + m - length pre = S (S (S (S m))))%nat as -> by lia.
Qed.

Lemma string_app_assoc (a b c : string) : (a +:+ b) +:+ c = a +:+ b +:+ c.
Proof.
  induction a as [|x a IH]; [done|].
  change (String x ((a +:+ b) +:+ c) = String x (a +:+ b +:+ c)). by rewrite IH.
Qed.


Section GridFacts.
Context {FM : PyFloat}.



Lemma add_animation_holds_key node_name channel setup animation value_lock
    extrapolation curve_order value_index out (i : nat) (frame : Z) (value : pyval) :
  add_animation node_name setup channel animation value_lock extrapolation
    curve_order value_index = Ok out ->
  animation !! i = Some (frame, value) ->
  holds_key out i frame value.
Proof.
  intros (n & c & key & _ & _ & Hlen & _ & ->)%add_animation_Ok_inv Hi.
  set (k := if value_lock then 11%nat else 10%nat).
  set (g := fun nf : Z * (Z * pyval) => key_frame nf.1 nf.2.1 nf.2.2 value_lock curve_order).
  assert (Hg : forall y, length (g y) = k) by (intros y; apply length_key_frame).
  assert (Hen : enumerate_from 0 animation !! i = Some (Z.of_nat i, (frame, value))).
  { rewrite lookup_enumerate_from, Hi. simpl. by rewrite Z.add_0_l. }
  assert (Hline : forall j, (j < 3)%nat ->
    (take (c + 1) setup ++
     [T3 +:+ "Extrapolation " +:+ extrapolation +:+ NL;
      T3 +:+ "Value " +:+ str_val key.2 +:+ NL] ++
     animation_block animation value_lock curve_order ++ drop (c + 3) setup)
      !! (c + 5 + i * k + j)%nat
    = key_frame (Z.of_nat i) frame value value_lock curve_order !! j).
  { intros j Hj.
    assert (Htake : length (take (c + 1) setup) = (c + 1)%nat)
      by (rewrite length_take; lia).
    assert (c + 5 + i * k + j = length (take (c + 1) setup) + 4 + (i * k + j))%nat
      as -> by lia.
    unfold animation_block. rewrite lookup_after_four. fold g.
    assert (Hk : (j < k)%nat) by (unfold k; destruct value_lock; lia).
    rewrite lookup_app_l.
    - by rewrite (lookup_concat_const g _ k i j _ Hg Hen Hk).
    - rewrite (length_concat_const g _ k Hg), length_enumerate_from.
      apply lookup_lt_Some in Hi. nia. }
  exists (c + 5 + i * k)%nat. split; [|split].
  - rewrite <- (Nat.add_0_r (c + 5 + i * k)). rewrite Hline by lia. by destruct value_lock.
  - rewrite Hline by lia. by destruct value_lock.
  - rewrite Hline by lia. by destruct value_lock.
Qed.

Lemma translate_grid_Ok h_offset v_offset corner acc tr :
  foldM (fun translation i =>
           hf ← float_of_int h_offset;
           let x := fadd (fsub (kf_x i) hf) float_half in
           vf ← float_of_int v_offset;
           let y := fadd (fsub (kf_y i) vf) float_half in
           Ok (translation ++ [(kf_frame i, x, y)])) corner acc = Ok tr ->
  (corner = [] /\ tr = acc) \/
  exists hf vf, float_of_int h_offset = Ok hf /\ float_of_int v_offset = Ok vf /\
    tr = acc ++ map (fun k => (kf_frame k, fadd (fsub (kf_x k) hf) float_half,
                               fadd (fsub (kf_y k) vf) float_half)) corner.
Proof.
  revert acc. induction corner as [|k corner IH]; intros acc; simpl.
  - intros [= <-]. by left.
  - intros (acc' & Hstep & Hrest)%bind_Ok. right.
    apply bind_Ok in Hstep as (hf & Hhf & Hstep).
    apply bind_Ok in Hstep as (vf & Hvf & [= <-]).
    exists hf, vf. split; [done|]. split; [done|].
    apply IH in Hrest as [[-> ->] | (hf' & vf' & Hhf' & Hvf' & ->)]; [done|].
    rewrite Hhf in Hhf'. rewrite Hvf in Hvf'. injection Hhf' as <-. injection Hvf' as <-.
    by rewrite <- app_assoc.
Qed.

Lemma add_animation_empty node_name channel setup value_lock extrapolation
    curve_order out :
  add_animation node_name setup channel [] value_lock extrapolation curve_order 0
  ≠ Ok out.
Proof. by intros (n & c & key & _ & _ & _ & Hkey & _)%add_animation_Ok_inv. Qed.

Lemma grid_corner_Ok node_name width height contents entry out :
  grid_corner node_name (width `div` 2) (height `div` 2) contents entry = Ok out ->
  grid_written node_name width height [entry] contents out.
Proof.
  unfold grid_corner. intros (tr & Htr & H)%bind_Ok.
  apply bind_Ok in H as (with_x & Hx & Hy).
  unfold translate_grid in Htr.
  apply translate_grid_Ok in Htr as [[He ->] | (hf & vf & Hhf & Hvf & ->)].
  - by apply add_animation_empty in Hx.
  - simpl in Hx, Hy.
    assert (Hax : float_anim (extract_dimension_x
              (map (fun k => (kf_frame k, fadd (fsub (kf_x k) hf) float_half,
                              fadd (fsub (kf_y k) vf) float_half)) entry.2))
            = grid_animation kf_x hf entry.2).
    { unfold float_anim, extract_dimension_x, grid_animation. by rewrite !map_map. }
    assert (Hay : float_anim (extract_dimension_y
              (map (fun k => (kf_frame k, fadd (fsub (kf_x k) hf) float_half,
                              fadd (fsub (kf_y k) vf) float_half)) entry.2))
            = grid_animation kf_y vf entry.2).
    { unfold float_anim, extract_dimension_y, grid_animation. by rewrite !map_map. }
    rewrite Hax in Hx. rewrite Hay in Hy.
    exists hf, vf, with_x, out. repeat (split; [done|]). split; [|split; [done|split; [|done]]].
    + intros i k Hk. eapply add_animation_holds_key; [exact Hx|].
      unfold grid_animation. by rewrite list_lookup_fmap, Hk.
    + intros i k Hk. eapply add_animation_holds_key; [exact Hy|].
      unfold grid_animation. by rewrite list_lookup_fmap, Hk.
Qed.

Lemma grid_corners_Ok node_name width height corners contents out :
  foldM (grid_corner node_name (width `div` 2) (height `div` 2)) corners contents = Ok out ->
  grid_written node_name width height corners contents out.
Proof.
  revert contents. induction corners as [|entry corners IH]; intros contents; simpl.
  - by intros [= <-].
  - intros (mid & Hmid & Hrest)%bind_Ok.
    apply grid_corner_Ok in Hmid as (hf & vf & with_x & with_y & ? & ? & ? & ? & ? & ? & ->).
    exists hf, vf, with_x, with_y. repeat (split; [done|]). by apply IH.
Qed.



End GridFacts.

(** ** Facts about the bilinear surface *)

Section SurfaceFacts.
Context {FM : PyFloat}.

(** The head of a key of a tracker attachment: its index, its frame
    and its value, one tab less than in an animation channel. *)
Lemma tracker_key_head (index frame : Z) (value : pyval) :
  take 3 (tracker_key index frame value)
  = [ T1 +:+ "Key " +:+ str_int index +:+ NL;
      T2 +:+ "Frame " +:+ str_int frame +:+ NL;
      T2 +:+ "Value " +:+ str_val value +:+ NL ].
Proof. reflexivity. Qed.

Lemma add_tracker_shape tracker corner width height :
  corner ≠ [] ->
  exists block,
    add_tracker tracker corner width height = Ok block /\
    is_attachment tracker corner block.
Proof.
  destruct corner as [|first rest]; [done|]. intros _.
  unfold add_tracker. rewrite (py_getitem_nat _ 0 first) by done.
  eexists. split; [reflexivity|].
  exists first.
  unfold shift_keys. rewrite !fold_left_extend.
  fold (shift_key_lines kf_x first (first :: rest)).
  fold (shift_key_lines kf_y first (first :: rest)).
  generalize (shift_key_lines kf_x first (first :: rest)) as KX.
  generalize (shift_key_lines kf_y first (first :: rest)) as KY.
  generalize (str_int (Z.of_nat (length (first :: rest)))) as size.
  intros size KY KX.
  match goal with |- exists pre, _ /\ ?B !! _ = _ /\ _ => set (block := B) end.
  exists (take 113 block).
  split; [done|]. split; [reflexivity|]. split; [reflexivity|]. split; [reflexivity|].
  split; [|split].
  - unfold block. by rewrite last_app.
  - rewrite length_take. unfold block. rewrite !length_app. simpl. lia.
  - rewrite <- (take_drop 113 block) at 1. f_equal.
    unfold block. rewrite <- !app_assoc. reflexivity.
Qed.

(** C6. When the setup has the lines the first part of
    [import_bilinear_uvs] looks for and every corner has a keyframe,
    the four tracker attachments [offset0_0] (lower left), [offset0_1]
    (upper left), [offset1_0] (lower right) and [offset1_1] (upper
    right) are inserted, in this order, one line past the first
    [IsSoftImported] line after the name line.  Each begins with the
    [Attachement Tracker] line and ends with [AttachementEnd], its
    [FirstRefFrame] is the frame of the first keyframe of its corner,
    and its [shift/x] and [shift/y] channels hold one key per keyframe
    with the value [first_x - x], respectively [first_y - y]. *)
Theorem uv_attach_trackers node_name (t : tracks) contents
    (name_line width_line height_line soft_line : nat) (width height : Z)
    (base : list string) :
  find_line node_name contents = Some name_line ->
  set_bilinear name_line contents = Ok base ->
  find_line_after "ResWidth" (Z.of_nat name_line) base = Some width_line ->
  line_int base width_line = Ok width ->
  find_line_after "ResHeight" (Z.of_nat width_line) base = Some height_line ->
  line_int base height_line = Ok height ->
  find_line_after "IsSoftImported" (Z.of_nat name_line) base = Some soft_line ->
  lower_left t ≠ [] -> upper_left t ≠ [] ->
  lower_right t ≠ [] -> upper_right t ≠ [] ->
  exists tracker_ll tracker_ul tracker_lr tracker_ur,
    is_attachment "offset0_0" (lower_left t) tracker_ll /\
    is_attachment "offset0_1" (upper_left t) tracker_ul /\
    is_attachment "offset1_0" (lower_right t) tracker_lr /\
    is_attachment "offset1_1" (upper_right t) tracker_ur /\
    uv_attach node_name t contents
    = Ok (name_line, width, height, (soft_line + 1)%nat,
          take (soft_line + 1) base ++
          (tracker_ll ++ tracker_ul ++ tracker_lr ++ tracker_ur) ++
          drop (soft_line + 1) base).
Proof.
  intros Hn Hbase Hwl Hw Hhl Hh Hsoft Hll Hul Hlr Hur.
  destruct (add_tracker_shape "offset0_0" _ width height Hll) as (tll & Ell & Sll).
  destruct (add_tracker_shape "offset0_1" _ width height Hul) as (tul & Eul & Sul).
  destruct (add_tracker_shape "offset1_0" _ width height Hlr) as (tlr & Elr & Slr).
  destruct (add_tracker_shape "offset1_1" _ width height Hur) as (tur & Eur & Sur).
  exists tll, tul, tlr, tur. repeat (split; [done|]).
  unfold uv_attach. rewrite Hn. simpl. rewrite Hbase. simpl. rewrite Hwl. simpl.
  rewrite Hw. simpl. rewrite Hhl. simpl. rewrite Hh. simpl. rewrite Hsoft. simpl.
  unfold tracker_attachments. rewrite Ell. simpl. rewrite Eul. simpl.
  rewrite Elr. simpl. rewrite Eur. simpl.
  rewrite insert_lines_nat; [done|].
  apply find_line_after_lt in Hsoft as [_ Hlt]. lia.
Qed.

End SurfaceFacts.

(** ** The lines before the surface are never touched *)

Lemma length_py_insert {A : Type} (l : list A) (i : Z) (v : A) :
  length (py_insert l i v) = S (length l).
Proof.
  unfold py_insert. rewrite length_app. simpl. rewrite length_take, length_drop. lia.
Qed.

Lemma take_py_insert {A : Type} (l : list A) (k : nat) (i : Z) (v : A) :
  (k <= length l)%nat -> Z.of_nat k <= i -> take k (py_insert l i v) = take k l.
Proof.
  intros Hk Hi. unfold py_insert.
  replace (i <? 0) with false by (symmetry; apply Z.ltb_ge; lia).
  rewrite take_app_le by (rewrite length_take; lia).
  rewrite take_take. f_equal. lia.
Qed.

Lemma take_insert_lines (lines contents : list string) (k s : nat) :
  (k <= s)%nat -> (s <= length contents)%nat ->
  take k (insert_lines (Z.of_nat s) lines contents) = take k contents.
Proof.
  intros Hk Hs. rewrite insert_lines_nat by done.
  rewrite take_app_le by (rewrite length_take; lia).
  rewrite take_take. f_equal. lia.
Qed.

Lemma pop_channel_tail_Ok (kept tail out : list string) :
  pop_channel_tail kept tail = Ok out -> exists rest, out = kept ++ rest.
Proof.
  induction tail as [|cur tail IH]; simpl; [done|].
  destruct (contains "End" cur); simpl; [|done].
  intros [= <-]. by exists tail.
Qed.

Lemma pop_while_eq (fuel : nat) (contents : list string) (k : nat) :
  (length contents < fuel)%nat ->
  pop_while fuel contents (Z.of_nat k) = pop_channel contents k.
Proof.
  revert contents. induction fuel as [|fuel IH]; intros contents Hfuel; [lia|].
  unfold pop_channel. simpl.
  destruct (contents !! k) as [cur|] eqn:Hk.
  - pose proof (lookup_lt_Some _ _ _ Hk) as Hlt.
    rewrite (py_getitem_nat _ _ _ Hk). simpl.
    rewrite (drop_S _ _ _ Hk). simpl.
    unfold py_pop. rewrite py_index_nat by done. simpl.
    assert (Hdel : delete k contents = take k contents ++ drop (S k) contents)
      by apply delete_take_drop.
    destruct (contains "End" cur); simpl.
    + by rewrite Hdel.
    + rewrite IH by (rewrite length_delete; [lia | by eexists]).
      unfold pop_channel. rewrite Hdel.
      assert (Hlen : length (take k contents) = k) by (rewrite length_take; lia).
      by rewrite take_app_length', drop_app_length' by done.
  - pose proof (lookup_ge_None_1 _ _ Hk) as Hge.
    rewrite drop_ge by done. simpl.
    unfold py_getitem, py_index.
    replace (Z.of_nat k <? Z.of_nat (length contents)) with false
      by (symmetry; apply Z.ltb_ge; lia).
    replace (Z.of_nat k <? 0) with false by (symmetry; apply Z.ltb_ge; lia).
    by rewrite !andb_false_r.
Qed.

Section SurfacePrefix.
Context {FM : PyFloat}.
Variable node_name : string.
Variable k : nat.

Lemma clean_take (text text' : list string) :
  take k text' = take k text -> clean node_name k text -> clean node_name k text'.
Proof.
  intros Ht Hc j line Hj Hl. apply (Hc j line Hj).
  rewrite <- (lookup_take_lt text k j) by lia.
  rewrite <- Ht. by rewrite lookup_take_lt by lia.
Qed.

Lemma add_animation_take setup channel animation value_lock extrapolation
    curve_order value_index out :
  add_animation node_name setup channel animation value_lock extrapolation
    curve_order value_index = Ok out ->
  clean node_name k setup -> take k out = take k setup.
Proof.
  intros (n & c & key & Hn & Hc & Hlen & _ & ->)%add_animation_Ok_inv Hclean.
  assert (Hk : (k <= n + 1)%nat).
  { destruct (decide (k <= n + 1)%nat) as [|Hgt]; [done|].
    apply find_line_from_Some in Hn as (j & -> & (line & Hl & Hcont) & _). simpl in *.
    rewrite (Hclean j line) in Hcont; [done | lia | done]. }
  apply find_line_after_lt in Hc as [Hc _].
  rewrite take_app_le by (rewrite length_take; lia).
  rewrite take_take. f_equal. lia.
Qed.

Lemma uv_corner_take width height contents entry out :
  uv_corner node_name width height contents entry = Ok out ->
  clean node_name k contents -> take k out = take k contents.
Proof.
  unfold uv_corner. intros (tr & _ & H)%bind_Ok Hclean.
  apply bind_Ok in H as (mid & Hx & Hy).
  apply add_animation_take in Hx; [|done].
  apply add_animation_take in Hy; [|by eapply clean_take]. congruence.
Qed.

Lemma uv_corners_take width height corners contents out :
  foldM (uv_corner node_name width height) corners contents = Ok out ->
  clean node_name k contents -> take k out = take k contents.
Proof.
  revert contents. induction corners as [|entry corners IH]; intros contents; simpl.
  - by intros [= <-].
  - intros (mid & Hmid & Hrest)%bind_Ok Hclean.
    apply uv_corner_take in Hmid; [|done].
    apply IH in Hrest; [|by eapply clean_take]. congruence.
Qed.

End SurfacePrefix.

Section SurfaceType.
Context {FM : PyFloat}.

Lemma uv_patch_prefix node_name t corners contents (n : nat) out :
  find_line node_name contents = Some n ->
  uv_patch node_name t corners contents = Ok out ->
  exists base, set_bilinear n contents = Ok base /\ take n out = take n base.
Proof.
  intros Hn H. unfold uv_patch in H.
  apply bind_Ok in H as ([[[[n' w] h] il] c1] & Hatt & H).
  unfold uv_attach in Hatt. rewrite Hn in Hatt. simpl in Hatt.
  apply bind_Ok in Hatt as (base & Hbase & Hatt).
  apply bind_Ok in Hatt as (wl & _ & Hatt). apply bind_Ok in Hatt as (w' & _ & Hatt).
  apply bind_Ok in Hatt as (hl & _ & Hatt). apply bind_Ok in Hatt as (h' & _ & Hatt).
  apply bind_Ok in Hatt as (soft & Hsoft%need_Ok & Hatt).
  apply bind_Ok in Hatt as (att & _ & Hatt).
  injection Hatt as <- <- <- <- <-.
  exists base. split; [done|].
  apply find_line_after_lt in Hsoft as [Hsoft Hsoftlt].
  apply bind_Ok in H as (tpl & Htpl%need_Ok & H).
  apply bind_Ok in H as (c2 & Hc2 & H).
  apply bind_Ok in H as (c4 & Hc4 & H).
  apply bind_Ok in H as (tvl & Htvl%need_Ok & H).
  apply bind_Ok in H as (c5 & Hc5 & H).
  set (c1 := insert_lines (Z.of_nat (soft + 1)) att base) in *.
  assert (H1 : take n c1 = take n base) by (apply take_insert_lines; lia).
  apply find_line_after_lt in Htpl as [Htpl Htpllt].
  apply py_setitem_Ok in Hc2 as (i2 & Hi2 & _ & ->).
  apply py_index_nonneg in Hi2 as [Hi2 _]; [|lia].
  assert (i2 = tpl) as -> by lia.
  assert (H2 : take n (<[tpl:=T2 +:+ "NumUVTrackControlPoints 4" +:+ NL]> c1) = take n c1)
    by (apply take_insert_ge; lia).
  set (c2 := <[tpl:=T2 +:+ "NumUVTrackControlPoints 4" +:+ NL]> c1) in *.
  assert (Hlen2 : (tpl < length c2)%nat) by (unfold c2; by rewrite length_insert).
  assert (H3 : take n (insert_control_points tpl c2) = take n c2).
  { unfold insert_control_points. simpl.
    rewrite !take_py_insert; rewrite ?length_py_insert; try lia. done. }
  assert (Hlen3 : length (insert_control_points tpl c2) = (4 + length c2)%nat).
  { unfold insert_control_points. simpl. rewrite !length_py_insert. lia. }
  set (c3 := insert_control_points tpl c2) in *.
  (* no line before [n - 1] of the original text contains the name *)
  assert (Hclean0 : clean node_name n base).
  { intros j line Hj Hl.
    apply py_setitem_Ok in Hbase as (i0 & Hi0 & _ & ->).
    apply py_index_nonneg in Hi0 as [Hi0 _]; [|lia].
    rewrite list_lookup_insert_ne in Hl by lia.
    apply find_line_from_Some in Hn as (m & -> & _ & Hmin). simpl in *.
    apply (Hmin j line); [lia | done]. }
  assert (Hclean3 : clean node_name n c3).
  { apply (clean_take _ _ base); [congruence | done]. }
  pose proof (add_animation_take node_name n _ _ _ _ _ _ _ _ Hc4 Hclean3) as H4.
  apply find_line_after_lt in Htvl as [Htvl Htvllt].
  rewrite pop_while_eq in Hc5 by lia.
  unfold pop_channel in Hc5. apply pop_channel_tail_Ok in Hc5 as (rest & ->).
  assert (Htake5 : length (take tvl c4) = tvl) by (rewrite length_take; lia).
  assert (H5 : take n (take tvl c4 ++ rest) = take n c4).
  { rewrite take_app_le by lia. rewrite take_take. f_equal. lia. }
  match type of H with
  | foldM _ _ (insert_lines _ ?empty _) = _ => set (empty_channels := empty) in *
  end.
  assert (H6 : take n (insert_lines (Z.of_nat tvl) empty_channels (take tvl c4 ++ rest))
               = take n (take tvl c4 ++ rest)).
  { apply take_insert_lines; [lia|]. rewrite length_app. lia. }
  apply (uv_corners_take node_name n) in H.
  - congruence.
  - apply (clean_take _ _ base); [congruence | done].
Qed.

(** C5. When the first line containing the node name is [n >= 1],
    [import_bilinear_uvs] replaces line [n - 1] by the exact line
    [Node SurfaceBilinear] (with its newline) and changes no other
    line by this edit; in the text the operation finally produces,
    line [n - 1] is still this line and the lines before it are the
    original ones. *)
Theorem set_bilinear_effect node_name contents (n : nat) :
  find_line node_name contents = Some n ->
  (1 <= n)%nat ->
  exists base,
    set_bilinear n contents = Ok base /\
    base !! (n - 1)%nat = Some ("Node SurfaceBilinear" +:+ NL) /\
    length base = length contents /\
    (forall i, i ≠ (n - 1)%nat -> base !! i = contents !! i) /\
    (forall t corners out,
       uv_patch node_name t corners contents = Ok out ->
       out !! (n - 1)%nat = Some ("Node SurfaceBilinear" +:+ NL) /\
       (forall i, (i < n - 1)%nat -> out !! i = contents !! i)).
Proof.
  intros Hn Hpos. pose proof (find_line_lt _ _ _ Hn) as Hlt.
  exists (<[(n - 1)%nat := "Node SurfaceBilinear" +:+ NL]> contents).
  assert (Hset : set_bilinear n contents
                 = Ok (<[(n - 1)%nat := "Node SurfaceBilinear" +:+ NL]> contents)).
  { unfold set_bilinear. replace (Z.of_nat n - 1) with (Z.of_nat (n - 1)) by lia.
    apply py_setitem_nat. lia. }
  split; [done|]. split; [apply list_lookup_insert_eq; lia|].
  split; [apply length_insert|]. split.
  - intros i Hi. by apply list_lookup_insert_ne.
  - intros t corners out Hout.
    destruct (uv_patch_prefix _ _ _ _ _ _ Hn Hout) as (base & Hbase & Htake).
    rewrite Hset in Hbase. injection Hbase as <-. split.
    + rewrite <- (lookup_take_lt out n) by lia. rewrite Htake.
      rewrite lookup_take_lt by lia. apply list_lookup_insert_eq. lia.
    + intros i Hi. rewrite <- (lookup_take_lt out n) by lia. rewrite Htake.
      rewrite lookup_take_lt by lia. apply list_lookup_insert_ne. lia.
Qed.

End SurfaceType.



(** The sample surface setup. *)
Lemma set_bilinear_effect_witness :
  exists base,
    set_bilinear 1 Sample.surface_setup = Ok base /\
    base !! (1 - 1)%nat = Some ("Node SurfaceBilinear" +:+ NL) /\
    length base = length Sample.surface_setup /\
    (forall i, i ≠ (1 - 1)%nat -> base !! i = Sample.surface_setup !! i) /\
    (forall t corners out,
       uv_patch (FM := HalfFloat.model) "plate" t corners Sample.surface_setup = Ok out ->
       out !! (1 - 1)%nat = Some ("Node SurfaceBilinear" +:+ NL) /\
       (forall i, (i < 1 - 1)%nat -> out !! i = Sample.surface_setup !! i)).
Proof.
  apply (set_bilinear_effect (FM := HalfFloat.model) "plate" Sample.surface_setup 1);
    [reflexivity | lia].
Defined.

Lemma uv_attach_trackers_witness :
  exists tracker_ll tracker_ul tracker_lr tracker_ur,
    is_attachment "offset0_0" (lower_left Sample.sample_tracks) tracker_ll /\
    is_attachment "offset0_1" (upper_left Sample.sample_tracks) tracker_ul /\
    is_attachment "offset1_0" (lower_right Sample.sample_tracks) tracker_lr /\
    is_attachment "offset1_1" (upper_right Sample.sample_tracks) tracker_ur /\
    uv_attach "plate" Sample.sample_tracks Sample.surface_setup
    = Ok (1%nat, 200, 100, (4 + 1)%nat,
          take (4 + 1) Sample.surface_base ++
          (tracker_ll ++ tracker_ul ++ tracker_lr ++ tracker_ur) ++
          drop (4 + 1) Sample.surface_base).
Proof.
  apply (uv_attach_trackers "plate" Sample.sample_tracks Sample.surface_setup
           1 2 3 4 200 100 Sample.surface_base);
    try reflexivity; discriminate.
Defined.

(** ** Facts about the two operations *)

Section Runs.
Context {FM : PyFloat}.

Lemma import_perspective_grid_run (e : env) (w : world) :
  import_perspective_grid e w
  = expected_run "Perspective Grid" e w
      (parse_mocha_files (env_start_frame e) (fun path => w_files w !! path)
         (env_selected e))
      (fun node_name p => grid_patch node_name p.2 (env_setup e)).
Proof.
  unfold import_perspective_grid, expected_run, parse_in_world, name_in_host,
    save_selected_node, read_setup, write_setup, reload_selected_node,
    remove_temp_folder, host_save_node_setup, try_except, makedirs, rmtree, emit, lift,
    run_events, temp_events, cleared, mbind, M_bind.
  destruct w as [files temp]. cbv beta iota zeta delta [w_temp w_files].
  destruct (parse_mocha_files _ _ _) as [p|x]; [|done].
  cbv beta iota zeta delta [w_temp w_files].
  destruct (name_import _ _) as [node_name|]; [|done].
  destruct temp; cbv beta iota zeta delta [w_temp w_files]; rewrite lookup_insert_eq;
    (destruct (grid_patch _ _ _) as [patched|x]; reflexivity).
Qed.

Lemma import_bilinear_uvs_run (e : env) (w : world) :
  import_bilinear_uvs e w
  = expected_run "Surface" e w
      (parse_mocha_files (env_start_frame e) (fun path => w_files w !! path)
         (env_selected e))
      (fun node_name p => uv_patch node_name p.1.2 p.2 (env_setup e)).
Proof.
  unfold import_bilinear_uvs, expected_run, parse_in_world, name_in_host,
    save_selected_node, read_setup, write_setup, reload_selected_node,
    remove_temp_folder, host_save_node_setup, try_except, makedirs, rmtree, emit, lift,
    run_events, temp_events, cleared, mbind, M_bind.
  destruct w as [files temp]. cbv beta iota zeta delta [w_temp w_files].
  destruct (parse_mocha_files _ _ _) as [p|x]; [|done].
  cbv beta iota zeta delta [w_temp w_files].
  destruct (name_import _ _) as [node_name|]; [|done].
  destruct temp; cbv beta iota zeta delta [w_temp w_files]; rewrite lookup_insert_eq;
    (destruct (uv_patch _ _ _ _) as [patched|x]; reflexivity).
Qed.

End Runs.

(** ** Naming always succeeds *)

Lemma str_int_inj (a b : Z) : str_int a = str_int b -> a = b.
Proof.
  unfold str_int. intros H. apply (f_equal NilEmpty.int_of_string) in H.
  rewrite !NilEmpty.isi in H. injection H as H.
  apply (f_equal Z.of_int) in H. by rewrite !DecimalZ.of_to in H.
Qed.

Lemma str_int_nonempty (z : Z) : str_int z ≠ EmptyString.
Proof.
  intros H. assert (z = 0) as ->; [|done].
  change EmptyString with (NilEmpty.string_of_int (Decimal.Pos Decimal.Nil)) in H.
  unfold str_int in H. apply (f_equal NilEmpty.int_of_string) in H.
  rewrite !NilEmpty.isi in H. injection H as H.
  apply (f_equal Z.of_int) in H. by rewrite DecimalZ.of_to in H.
Qed.

Lemma append_inj_l (p a b : string) : p +:+ a = p +:+ b -> a = b.
Proof. induction p as [|c p IH]; simpl; [done|]. intros [= H]. by apply IH. Qed.

Lemma append_nonempty (p a : string) : p = p +:+ a -> a = EmptyString.
Proof. induction p as [|c p IH]; simpl; [done|]. intros [= H]. by apply IH. Qed.

Lemma existsb_eqb_elem (name : string) (l : list string) :
  existsb (String.eqb name) l = true <-> name ∈ l.
Proof.
  rewrite existsb_exists. split.
  - intros (x & Hx%list_elem_of_In & ->%String.eqb_eq). done.
  - intros H. exists name. split; [by apply list_elem_of_In | apply String.eqb_refl].
Qed.

Lemma length_candidates fuel track_name name num :
  length (candidates fuel track_name name num) = fuel.
Proof.
  revert name num. induction fuel as [|fuel IH]; intros; simpl; [done | by rewrite IH].
Qed.

Lemma candidates_elem fuel track_name num x :
  x ∈ candidates fuel track_name (track_name +:+ str_int num) num ->
  exists j, num <= j /\ x = track_name +:+ str_int j.
Proof.
  revert num. induction fuel as [|fuel IH]; intros num; simpl.
  - by intros ?%elem_of_nil.
  - intros [->|H]%elem_of_cons.
    + exists num. split; [lia | done].
    + apply IH in H as (j & Hj & ->). exists j. split; [lia | done].
Qed.

Lemma candidates_NoDup fuel track_name name num :
  (forall j, num < j -> name ≠ track_name +:+ str_int j) ->
  NoDup (candidates fuel track_name name num).
Proof.
  revert name num. induction fuel as [|fuel IH]; intros name num Hname; simpl.
  - constructor.
  - constructor.
    + intros (j & Hj & ->)%candidates_elem. apply (Hname j); [lia | done].
    + apply IH. intros j Hj Heq%append_inj_l%str_int_inj. lia.
Qed.

Lemma name_import_fuel_None fuel track_name existing name num :
  name_import_fuel fuel track_name existing name num = None ->
  forall x, x ∈ candidates fuel track_name name num -> x ∈ existing.
Proof.
  revert name num. induction fuel as [|fuel IH]; intros name num; simpl.
  - by intros _ x ?%elem_of_nil.
  - destruct (existsb (String.eqb name) existing) eqn:Hex; simpl; [|done].
    intros H x [->|Hx]%elem_of_cons.
    + by apply existsb_eqb_elem.
    + by apply (IH _ _ H).
Qed.

Lemma name_import_total (track_name : string) (existing : list string) :
  exists name, name_import track_name existing = Some name.
Proof.
  unfold name_import.
  destruct (name_import_fuel _ _ _ _ _) as [name|] eqn:H; [by exists name|].
  exfalso.
  pose proof (name_import_fuel_None _ _ _ _ _ H) as Hin.
  assert (Hnd : NoDup (candidates (S (length existing)) track_name track_name 0)).
  { apply candidates_NoDup. intros j Hj Heq%append_nonempty.
    by apply str_int_nonempty in Heq. }
  pose proof (submseteq_length _ _ (NoDup_submseteq _ _ Hnd Hin)) as Hlen.
  rewrite length_candidates in Hlen. lia.
Qed.

Lemma name_import_fuel_mono fuel fuel' track_name existing name num r :
  name_import_fuel fuel track_name existing name num = Some r ->
  (fuel <= fuel')%nat ->
  name_import_fuel fuel' track_name existing name num = Some r.
Proof.
  revert fuel' name num. induction fuel as [|fuel IH]; intros fuel' name num; simpl; [done|].
  intros H Hle. destruct fuel' as [|fuel']; [lia|]. simpl.
  destruct (negb (existsb (String.eqb name) existing)); [done|].
  apply IH; [done | lia].
Qed.

Lemma name_import_fuel_ext fuel track_name l1 l2 name num :
  (forall x, x ∈ l1 <-> x ∈ l2) ->
  name_import_fuel fuel track_name l1 name num
  = name_import_fuel fuel track_name l2 name num.
Proof.
  intros Hl. revert name num. induction fuel as [|fuel IH]; intros name num; simpl; [done|].
  assert (existsb (String.eqb name) l1 = existsb (String.eqb name) l2) as ->.
  { apply Bool.eq_iff_eq_true. by rewrite !existsb_eqb_elem. }
  by rewrite IH.
Qed.

(** The new name depends on the set of existing names only. *)
Lemma name_import_same_set track_name l1 l2 :
  (forall x, x ∈ l1 <-> x ∈ l2) ->
  name_import track_name l1 = name_import track_name l2.
Proof.
  intros Hl.
  destruct (name_import_total track_name l1) as (r1 & H1).
  destruct (name_import_total track_name l2) as (r2 & H2).
  rewrite H1, H2. f_equal. unfold name_import in *.
  apply (name_import_fuel_mono _ (S (length l1 + length l2))) in H1; [|lia].
  apply (name_import_fuel_mono _ (S (length l1 + length l2))) in H2; [|lia].
  rewrite (name_import_fuel_ext _ _ l1 l2) in H1 by done. congruence.
Qed.

(** ** Order and determinism of the operations *)

Ltac walk :=
  repeat match goal with
  | H : [] !! _ = Some _ |- _ => by rewrite lookup_nil in H
  | H : (_ :: _) !! ?i = Some _ |- _ => destruct i; simpl in H; try discriminate H
  end.

Section RunFacts.
Context {FM : PyFloat}.

Lemma expected_run_order kind e w parsed patch :
  let '(r, w', tr) := expected_run kind e w parsed patch in
  load_after_write e tr /\
  (r = Ok () ->
   exists p node_name patched,
     parsed = Ok p /\
     name_import p.1.1 (env_existing e) = Some node_name /\
     patch node_name p = Ok patched /\
     tr = run_events kind e w node_name patched /\
     w_temp w' = false).
Proof.
  unfold expected_run, load_after_write, run_events, temp_events.
  destruct parsed as [p|x].
  2: { split; [intros i path Hi; simpl in Hi; walk | intros H; discriminate H]. }
  destruct (name_import p.1.1 (env_existing e)) as [node_name|] eqn:Hname.
  2: { split; [intros i path Hi; simpl in Hi; walk | intros H; discriminate H]. }
  destruct (patch node_name p) as [patched|x] eqn:Hpatch; cbv zeta.
  - split; [|intros _; by exists p, node_name, patched].
    intros i path Hi. destruct (w_temp w); simpl in Hi; walk; injection Hi as <-;
      (split; [done|]).
    + exists 7%nat, patched. split; [lia | done].
    + exists 5%nat, patched. split; [lia | done].
  - split; [|intros H; discriminate H].
    intros i path Hi. destruct (w_temp w); simpl in Hi; walk.
Qed.

Lemma expected_run_outcome kind e w parsed patch :
  (expected_run kind e w parsed patch).1.1
  = (_ ← patch_outcome e parsed patch; Ok ()) /\
  writes (expected_run kind e w parsed patch).2
  = match patch_outcome e parsed patch with
    | Ok patched => [patched]
    | Raise _ => []
    end.
Proof.
  unfold expected_run, patch_outcome.
  destruct parsed as [p|x]; [|done]. simpl.
  destruct (name_import p.1.1 (env_existing e)) as [node_name|]; [|done]. simpl.
  destruct (patch node_name p) as [patched|x]; simpl.
  - split; [done|]. unfold run_events, temp_events. by destruct (w_temp w).
  - split; [done|]. unfold temp_events. by destruct (w_temp w).
Qed.


Lemma read_files_ext sf (f g : string -> option (list string)) selected (t : tracks) :
  (forall path, path ∈ selected -> f path = g path) ->
  read_files sf f selected t = read_files sf g selected t.
Proof.
  unfold read_files. revert t.
  induction selected as [|l selected IH]; intros t Hfg; simpl; [done|].
  rewrite <- (Hfg l) by left.
  destruct (f l) as [lines|]; [|done].
  destruct (read_lines sf l lines t) as [t'|x]; [|done]. simpl.
  apply IH. intros path Hp. apply Hfg. by right.
Qed.

Lemma parse_mocha_files_ext start_frame (f g : string -> option (list string)) selected :
  (forall path, path ∈ selected -> f path = g path) ->
  parse_mocha_files start_frame f selected = parse_mocha_files start_frame g selected.
Proof.
  intros Hfg. unfold parse_mocha_files.
  destruct (validate_selection selected) as [name|x]; [|done]. simpl.
  by rewrite (read_files_ext _ f g).
Qed.

Lemma patch_outcome_same (e1 e2 : env) (w1 w2 : world)
    (patch : list string -> string -> string * tracks * list (string * list keyframe) ->
             result (list string)) :
  env_setup e1 = env_setup e2 ->
  env_selected e1 = env_selected e2 ->
  (forall path, path ∈ env_selected e1 -> w_files w1 !! path = w_files w2 !! path) ->
  env_start_frame e1 = env_start_frame e2 ->
  (forall x, x ∈ env_existing e1 <-> x ∈ env_existing e2) ->
  patch_outcome e1
    (parse_mocha_files (env_start_frame e1) (fun path => w_files w1 !! path)
       (env_selected e1)) (patch (env_setup e1))
  = patch_outcome e2
      (parse_mocha_files (env_start_frame e2) (fun path => w_files w2 !! path)
         (env_selected e2)) (patch (env_setup e2)).
Proof.
  intros Hsetup Hsel Hfiles Hsf Hex. unfold patch_outcome.
  rewrite <- Hsetup, <- Hsel, <- Hsf.
  rewrite (parse_mocha_files_ext _ _ (fun path => w_files w2 !! path)) by done.
  destruct (parse_mocha_files _ _ _) as [p|x]; [|done]. simpl.
  by rewrite (name_import_same_set _ _ _ Hex).
Qed.

(** C7. In every run of either operation, complete or cut short by an
    exception, a reload of the host is preceded by the write of the
    setup file; a complete run creates the node, names it, makes the
    temp folder, saves the setup, reads the setup file, writes the
    patched lines to the same file, reloads, and removes the temp
    folder, in this order, and the text written is the patch of the
    text saved. *)
Theorem import_load_after_write (e : env) (w : world) :
  (let '(r, w', tr) := import_perspective_grid e w in
   load_after_write e tr /\
   (r = Ok () ->
    exists p node_name patched,
      parse_mocha_files (env_start_frame e) (fun path => w_files w !! path)
        (env_selected e) = Ok p /\
      name_import p.1.1 (env_existing e) = Some node_name /\
      grid_patch node_name p.2 (env_setup e) = Ok patched /\
      tr = run_events "Perspective Grid" e w node_name patched /\
      w_temp w' = false)) /\
  (let '(r, w', tr) := import_bilinear_uvs e w in
   load_after_write e tr /\
   (r = Ok () ->
    exists p node_name patched,
      parse_mocha_files (env_start_frame e) (fun path => w_files w !! path)
        (env_selected e) = Ok p /\
      name_import p.1.1 (env_existing e) = Some node_name /\
      uv_patch node_name p.1.2 p.2 (env_setup e) = Ok patched /\
      tr = run_events "Surface" e w node_name patched /\
      w_temp w' = false)).
Proof.
  split.
  - rewrite import_perspective_grid_run.
    apply (expected_run_order "Perspective Grid" e w _
             (fun node_name p => grid_patch node_name p.2 (env_setup e))).
  - rewrite import_bilinear_uvs_run.
    apply (expected_run_order "Surface" e w _
             (fun node_name p => uv_patch node_name p.1.2 p.2 (env_setup e))).
Qed.

(** C8. Two runs of the same operation with the same saved setup text,
    the same selected paths, the same contents of the selected files,
    the same batch start frame and the same set of existing node names
    end the same way and write the same text, whatever else differs
    (the host node, the temp folder, other files). *)
Theorem import_deterministic (e1 e2 : env) (w1 w2 : world) :
  env_setup e1 = env_setup e2 ->
  env_selected e1 = env_selected e2 ->
  (forall path, path ∈ env_selected e1 -> w_files w1 !! path = w_files w2 !! path) ->
  env_start_frame e1 = env_start_frame e2 ->
  (forall x, x ∈ env_existing e1 <-> x ∈ env_existing e2) ->
  ((import_perspective_grid e1 w1).1.1 = (import_perspective_grid e2 w2).1.1 /\
   writes (import_perspective_grid e1 w1).2 = writes (import_perspective_grid e2 w2).2) /\
  ((import_bilinear_uvs e1 w1).1.1 = (import_bilinear_uvs e2 w2).1.1 /\
   writes (import_bilinear_uvs e1 w1).2 = writes (import_bilinear_uvs e2 w2).2).
Proof.
  intros Hsetup Hsel Hfiles Hsf Hex. split.
  - rewrite !import_perspective_grid_run.
    pose proof (patch_outcome_same e1 e2 w1 w2
                  (fun setup node_name p => grid_patch node_name p.2 setup)
                  Hsetup Hsel Hfiles Hsf Hex) as Hsame.
    destruct (expected_run_outcome "Perspective Grid" e1 w1
                (parse_mocha_files (env_start_frame e1) (fun path => w_files w1 !! path)
                   (env_selected e1))
                (fun node_name p => grid_patch node_name p.2 (env_setup e1))) as [-> ->].
    destruct (expected_run_outcome "Perspective Grid" e2 w2
                (parse_mocha_files (env_start_frame e2) (fun path => w_files w2 !! path)
                   (env_selected e2))
                (fun node_name p => grid_patch node_name p.2 (env_setup e2))) as [-> ->].
    by rewrite Hsame.
  - rewrite !import_bilinear_uvs_run.
    pose proof (patch_outcome_same e1 e2 w1 w2
                  (fun setup node_name p => uv_patch node_name p.1.2 p.2 setup)
                  Hsetup Hsel Hfiles Hsf Hex) as Hsame.
    destruct (expected_run_outcome "Surface" e1 w1
                (parse_mocha_files (env_start_frame e1) (fun path => w_files w1 !! path)
                   (env_selected e1))
                (fun node_name p => uv_patch node_name p.1.2 p.2 (env_setup e1))) as [-> ->].
    destruct (expected_run_outcome "Surface" e2 w2
                (parse_mocha_files (env_start_frame e2) (fun path => w_files w2 !! path)
                   (env_selected e2))
                (fun node_name p => uv_patch node_name p.1.2 p.2 (env_setup e2))) as [-> ->].
    by rewrite Hsame.
Qed.

End RunFacts.

(** The sample runs end with the setup reloaded after the write. *)
Example sample_grid_run :
  import_perspective_grid Sample.grid_env Sample.start
  = (Ok (),
     {| w_files := Sample.files; w_temp := false |},
     run_events "Perspective Grid" Sample.grid_env Sample.start "plate"
       Sample.grid_patched).
Proof. by vm_compute. Qed.

Example sample_surface_run :
  (import_bilinear_uvs Sample.surface_env Sample.start).2
  = run_events "Surface" Sample.surface_env Sample.start "plate" Sample.surface_patched.
Proof. by vm_compute. Qed.

Lemma import_load_after_write_witness :
  load_after_write Sample.grid_env
    (import_perspective_grid Sample.grid_env Sample.start).2 /\
  load_after_write Sample.surface_env
    (import_bilinear_uvs Sample.surface_env Sample.start).2.
Proof.
  split.
  - pose proof (proj1 (import_load_after_write Sample.grid_env Sample.start)) as H.
    destruct (import_perspective_grid Sample.grid_env Sample.start) as [[r w'] tr].
    exact (proj1 H).
  - pose proof (proj2 (import_load_after_write Sample.surface_env Sample.start)) as H.
    destruct (import_bilinear_uvs Sample.surface_env Sample.start) as [[r w'] tr].
    exact (proj1 H).
Defined.

Lemma import_deterministic_witness :
  ((import_perspective_grid Sample.grid_env Sample.start).1.1
   = (import_perspective_grid Sample.other_env Sample.other_start).1.1 /\
   writes (import_perspective_grid Sample.grid_env Sample.start).2
   = writes (import_perspective_grid Sample.other_env Sample.other_start).2) /\
  ((import_bilinear_uvs Sample.grid_env Sample.start).1.1
   = (import_bilinear_uvs Sample.other_env Sample.other_start).1.1 /\
   writes (import_bilinear_uvs Sample.grid_env Sample.start).2
   = writes (import_bilinear_uvs Sample.other_env Sample.other_start).2).
Proof.
  apply (import_deterministic Sample.grid_env Sample.other_env Sample.start
           Sample.other_start).
  - reflexivity.
  - reflexivity.
  - intros path Hpath. apply list_elem_of_In in Hpath. simpl in Hpath.
    destruct Hpath as [<-|[<-|[<-|[<-|[]]]]]; reflexivity.
  - reflexivity.
  - intros x. simpl. rewrite !elem_of_cons. rewrite !elem_of_nil. tauto.
Defined.

(** In the sample the grid is 2D in the text written back. *)
Example sample_grid_flag :
  Sample.grid_patched !! 4%nat = Some (T2 +:+ "TransformIs3D no" +:+ NL).
Proof. reflexivity. Qed.

(** ** Further properties: searching *)

Lemma find_line_after_from_shift item (n : Z) (num : nat) setup :
  find_line_after_from item n (S num) setup
  = S <$> find_line_after_from item (n - 1) num setup.
Proof.
  revert num. induction setup as [|line setup IH]; intros num; simpl; [done|].
  replace (n - 1 <? Z.of_nat num) with (n <? Z.of_nat (S num)).
  - destruct ((n <? Z.of_nat (S num)) && contains item line); [done | apply IH].
  - apply Bool.eq_iff_eq_true. rewrite !Z.ltb_lt. lia.
Qed.

Lemma find_line_from_shift item (num : nat) setup :
  find_line_from item (S num) setup = S <$> find_line_from item num setup.
Proof.
  revert num. induction setup as [|line setup IH]; intros num; simpl; [done|].
  destruct (contains item line); [done | apply IH].
Qed.

Lemma find_line_after_negative item (n : Z) (num : nat) setup :
  n < 0 -> find_line_after_from item n num setup = find_line_from item num setup.
Proof.
  intros Hn. revert num. induction setup as [|line setup IH]; intros num; simpl; [done|].
  replace (n <? Z.of_nat num) with true by (symmetry; apply Z.ltb_lt; lia).
  simpl. by rewrite IH.
Qed.

(** X1. Searching after line [n] is searching the lines that follow line
    [n] and counting on from [n + 1]; searching after a negative line
    number is [find_line]. *)
Theorem find_line_after_is_find_line_on_tail (item : string) (setup : list string) :
  (forall n : nat,
     find_line_after item (Z.of_nat n) setup
     = (fun i => (n + 1 + i)%nat) <$> find_line item (drop (n + 1) setup)) /\
  (forall n : Z, n < 0 -> find_line_after item n setup = find_line item setup).
Proof.
  split.
  - unfold find_line_after, find_line. intros n. revert n.
    induction setup as [|line setup IH]; intros n.
    + by rewrite drop_nil.
    + cbn [find_line_after_from].
      assert ((Z.of_nat n <? Z.of_nat 0) = false) as -> by (apply Z.ltb_ge; lia).
      cbn [andb]. rewrite find_line_after_from_shift.
      destruct n as [|n].
      * simpl. rewrite find_line_after_negative by lia. rewrite drop_0.
        by destruct (find_line_from item 0 setup).
      * replace (Z.of_nat (S n) - 1) with (Z.of_nat n) by lia. rewrite IH.
        simpl. destruct (find_line_from item 0 (drop (n + 1) setup)); simpl; [|done].
        f_equal.
  - intros n Hn. by apply find_line_after_negative.
Qed.

(** ** Further properties: the insertion loop *)

Lemma py_insert_beyond {A : Type} (l : list A) (i : Z) (v : A) :
  Z.of_nat (length l) <= i -> py_insert l i v = l ++ [v].
Proof.
  intros Hi. unfold py_insert.
  replace (i <? 0) with false by (symmetry; apply Z.ltb_ge; lia).
  rewrite Z.min_r, Nat2Z.id by lia. by rewrite take_ge, drop_ge by lia.
Qed.

Lemma insert_lines_beyond (lines contents : list string) (start : Z) :
  Z.of_nat (length contents) <= start ->
  insert_lines start lines contents = contents ++ lines.
Proof.
  unfold insert_lines. revert start contents.
  induction lines as [|x lines IH]; intros start contents Hs; simpl.
  - by rewrite app_nil_r.
  - rewrite py_insert_beyond by done.
    rewrite IH by (rewrite length_app; simpl; lia). by rewrite <- app_assoc.
Qed.

(** X2. The loop [for n, v in enumerate(lines, start): contents.insert(n, v)]
    splices [lines], in order and in one piece, in front of line
    [start]; a [start] past the end appends them. *)
Theorem insert_lines_splice (start : nat) (lines contents : list string) :
  insert_lines (Z.of_nat start) lines contents
  = take start contents ++ lines ++ drop start contents /\
  length (insert_lines (Z.of_nat start) lines contents)
  = (length contents + length lines)%nat.
Proof.
  assert (Heq : insert_lines (Z.of_nat start) lines contents
                = take start contents ++ lines ++ drop start contents).
  { destruct (decide (start <= length contents)%nat) as [Hle|Hgt].
    - by apply insert_lines_nat.
    - rewrite insert_lines_beyond by lia.
      by rewrite take_ge, drop_ge, app_nil_r by lia. }
  split; [done|]. rewrite Heq, !length_app, length_take, length_drop. lia.
Qed.

(** ** Further properties: naming *)

Lemma name_import_fuel_Some fuel track_name existing name num r :
  name_import_fuel fuel track_name existing name num = Some r ->
  (r ∉ existing) /\
  (((name ∉ existing) /\ r = name) \/
   ((name ∈ existing) /\
    exists k, num < k /\ r = track_name +:+ str_int k /\
      forall j, num < j < k -> track_name +:+ str_int j ∈ existing)).
Proof.
  revert name num. induction fuel as [|fuel IH]; intros name num; simpl; [done|].
  destruct (existsb (String.eqb name) existing) eqn:Hex; simpl.
  - apply existsb_eqb_elem in Hex. intros H.
    apply IH in H as [Hr Hcase]. split; [done|]. right. split; [done|].
    destruct Hcase as [[Hfree ->] | (Hin & k & Hk & -> & Hbelow)].
    + exists (num + 1). split; [lia|]. split; [done|]. intros j Hj. lia.
    + exists k. split; [lia|]. split; [done|]. intros j Hj.
      destruct (decide (j = num + 1)) as [->|Hne]; [done | apply Hbelow; lia].
  - intros [= <-].
    assert (name ∉ existing) as Hfree.
    { intros Hin%existsb_eqb_elem. congruence. }
    split; [done|]. by left.
Qed.

(** X3. [name_import] returns after at most one call more than there
    are existing nodes (the recursion limit of the interpreter is not
    modelled); the name it returns is not the name of an existing node,
    it is the track name when that is free, and otherwise the track
    name followed by the least number from 1 on that makes it free. *)
Theorem name_import_fresh (track_name : string) (existing : list string) :
  exists name,
    name_import track_name existing = Some name /\
    (name ∉ existing) /\
    (((track_name ∉ existing) /\ name = track_name) \/
     ((track_name ∈ existing) /\
      exists k, 1 <= k /\ name = track_name +:+ str_int k /\
        forall j, 1 <= j < k -> track_name +:+ str_int j ∈ existing)).
Proof.
  destruct (name_import_total track_name existing) as (name & Hname).
  exists name. split; [done|]. unfold name_import in Hname.
  apply name_import_fuel_Some in Hname as [Hfree Hcase]. split; [done|].
  destruct Hcase as [?|(Hin & k & Hk & -> & Hbelow)]; [by left|].
  right. split; [done|]. exists k. split; [lia|]. split; [done|].
  intros j Hj. apply Hbelow. lia.
Qed.

(** ** Further properties: errors of the animation and tracker builders *)

Lemma py_index_beyond {A : Type} (l : list A) (k : nat) :
  (length l <= k)%nat -> py_index l (Z.of_nat k) = Raise IndexError.
Proof.
  intros Hk. unfold py_index.
  replace (Z.of_nat k <? Z.of_nat (length l)) with false by (symmetry; apply Z.ltb_ge; lia).
  replace (Z.of_nat k <? 0) with false by (symmetry; apply Z.ltb_ge; lia).
  by rewrite !andb_false_r.
Qed.

Lemma py_getitem_raises {A : Type} (l : list A) (i : Z) (e : exn) :
  py_getitem l i = Raise e -> e = IndexError.
Proof.
  unfold py_getitem, py_index.
  destruct ((0 <=? i) && (i <? Z.of_nat (length l))); simpl.
  - destruct (l !! Z.to_nat i); [done | by intros [= <-]].
  - destruct ((- Z.of_nat (length l) <=? i) && (i <? 0)); simpl.
    + destruct (l !! Z.to_nat (Z.of_nat (length l) + i)); [done | by intros [= <-]].
    + by intros [= <-].
Qed.

Section BuilderErrors.
Context {FM : PyFloat}.

(** X4. [add_animation] raises [TypeError] when no line contains the node
    name or no later line contains the channel, [IndexError] when
    fewer than two lines follow the channel line or [value_index] is
    not an index of the animation, and in every other case returns the
    setup with the curve spliced in. *)
Theorem add_animation_outcome node_name setup channel animation value_lock
    extrapolation curve_order value_index :
  add_animation node_name setup channel animation value_lock extrapolation
    curve_order value_index
  = match find_line node_name setup with
    | None => Raise TypeError
    | Some n =>
        match find_line_after channel (Z.of_nat n) setup with
        | None => Raise TypeError
        | Some c =>
            if (c + 2 <? length setup)%nat then
              match py_getitem animation value_index with
              | Ok key =>
                  Ok (take (c + 1) setup ++
                      [ T3 +:+ "Extrapolation " +:+ extrapolation +:+ NL;
                        T3 +:+ "Value " +:+ str_val key.2 +:+ NL ] ++
                      animation_block animation value_lock curve_order ++
                      drop (c + 3) setup)
              | Raise _ => Raise IndexError
              end
            else Raise IndexError
        end
    end.
Proof.
  destruct (find_line node_name setup) as [n|] eqn:Hn.
  2: { unfold add_animation. by rewrite Hn. }
  destruct (find_line_after channel (Z.of_nat n) setup) as [c|] eqn:Hc.
  2: { unfold add_animation. rewrite Hn. simpl. by rewrite Hc. }
  destruct (c + 2 <? length setup)%nat eqn:Hlen.
  - apply Nat.ltb_lt in Hlen.
    destruct (py_getitem animation value_index) as [key|e] eqn:Hkey.
    + by apply (add_animation_eq _ _ _ _ _ _ _ _ n c key).
    + unfold add_animation. rewrite Hn. simpl. rewrite Hc. simpl.
      replace (Z.of_nat c + 1) with (Z.of_nat (c + 1)) by lia.
      rewrite py_setitem_nat by lia. simpl. rewrite Hkey. simpl.
      by rewrite (py_getitem_raises _ _ _ Hkey).
  - apply Nat.ltb_ge in Hlen.
    unfold add_animation. rewrite Hn. simpl. rewrite Hc. simpl.
    replace (Z.of_nat c + 1) with (Z.of_nat (c + 1)) by lia.
    replace (Z.of_nat c + 2) with (Z.of_nat (c + 2)) by lia.
    destruct (decide (c + 1 < length setup)%nat) as [Hlt|Hge].
    + rewrite py_setitem_nat by lia. simpl.
      destruct (py_getitem animation value_index) as [key|e] eqn:Hkey; simpl.
      * unfold py_setitem. rewrite py_index_beyond; [done|]. rewrite length_insert. lia.
      * by rewrite (py_getitem_raises _ _ _ Hkey).
    + unfold py_setitem. by rewrite py_index_beyond by lia.
Qed.

Lemma length_tracker_key index frame value : length (tracker_key index frame value) = 10%nat.
Proof. reflexivity. Qed.

Lemma length_shift_key_lines dim first corner :
  length (shift_key_lines dim first corner) = (10 * length corner)%nat.
Proof.
  unfold shift_key_lines. rewrite (length_concat_const _ _ 10).
  - by rewrite length_enumerate_from.
  - intros nf. apply length_tracker_key.
Qed.

(** X5. [add_tracker] raises [IndexError] on a corner without keyframes
    and otherwise returns 139 lines plus 20 per keyframe. *)
Theorem add_tracker_outcome tracker (corner : list keyframe) width height :
  match corner with
  | [] => add_tracker tracker corner width height = Raise IndexError
  | _ :: _ =>
      exists block,
        add_tracker tracker corner width height = Ok block /\
        length block = (139 + 20 * length corner)%nat
  end.
Proof.
  destruct corner as [|first rest]; [done|].
  destruct (add_tracker_shape tracker (first :: rest) width height) as (block & Hb & Hs);
    [done|].
  exists block. split; [done|].
  destruct Hs as (first' & pre & _ & _ & _ & _ & _ & Hpre & ->).
  rewrite !length_app, !length_shift_key_lines, Hpre. simpl. lia.
Qed.

End BuilderErrors.

(** ** Further properties: removing a channel *)

Lemma pop_channel_tail_found kept body endl post :
  Forall (fun l => contains "End" l = false) body ->
  contains "End" endl = true ->
  pop_channel_tail kept (body ++ endl :: post) = Ok (kept ++ post).
Proof.
  intros Hbody Hend. induction Hbody as [|l body Hl _ IH]; simpl.
  - by rewrite Hend.
  - by rewrite Hl.
Qed.

Lemma pop_channel_tail_missing kept body :
  Forall (fun l => contains "End" l = false) body ->
  pop_channel_tail kept body = Raise IndexError.
Proof. intros Hbody. induction Hbody as [|l body Hl _ IH]; simpl; [done | by rewrite Hl]. Qed.

(** X6. The loop that pops the [uv_track_vertices] channel removes the
    lines from the given index up to and including the first one that
    contains [End] and nothing else; when no line from the index on
    contains [End] it raises [IndexError]. *)
Theorem pop_while_removes_channel (pre body : list string) :
  Forall (fun l => contains "End" l = false) body ->
  (forall endl post, contains "End" endl = true ->
     pop_while (S (length (pre ++ body ++ endl :: post))) (pre ++ body ++ endl :: post)
       (Z.of_nat (length pre)) = Ok (pre ++ post)) /\
  pop_while (S (length (pre ++ body))) (pre ++ body) (Z.of_nat (length pre))
  = Raise IndexError.
Proof.
  intros Hbody. split.
  - intros endl post Hend. rewrite pop_while_eq by lia. unfold pop_channel.
    rewrite take_app_length, drop_app_length. by apply pop_channel_tail_found.
  - rewrite pop_while_eq by lia. unfold pop_channel.
    rewrite take_app_length, drop_app_length. by apply pop_channel_tail_missing.
Qed.

Lemma pop_while_removes_channel_witness :
  (forall endl post, contains "End" endl = true ->
     pop_while (S (length (["a"; "b"] ++ ["Channel x"; "Value 0"] ++ endl :: post)))
       (["a"; "b"] ++ ["Channel x"; "Value 0"] ++ endl :: post)
       (Z.of_nat (length ["a"; "b"])) = Ok (["a"; "b"] ++ post)) /\
  pop_while (S (length (["a"; "b"] ++ ["Channel x"; "Value 0"])))
    (["a"; "b"] ++ ["Channel x"; "Value 0"]) (Z.of_nat (length ["a"; "b"]))
  = Raise IndexError.
Proof.
  apply (pop_while_removes_channel ["a"; "b"] ["Channel x"; "Value 0"]).
  repeat constructor.
Defined.

(** ** Further properties: the accepted selections and lines *)

Lemma remove_dups_one (l : list string) (x y : string) :
  length (remove_dups l) = 1%nat -> x ∈ l -> y ∈ l -> x = y.
Proof.
  intros Hlen Hx Hy. rewrite <- elem_of_remove_dups in Hx, Hy.
  destruct (remove_dups l) as [|a [|b r]]; [done| |done].
  apply list_elem_of_singleton in Hx, Hy. congruence.
Qed.

Lemma scan_names_Ok files acc tn r :
  scan_names files acc tn = Ok r -> files ≠ [] ->
  Forall (fun f => name_prefix f = Some r) files /\ Forall (eq r) acc.
Proof.
  revert acc tn. induction files as [|file files IH]; intros acc tn; [done|].
  intros H _. simpl in H. unfold name_prefix at 1.
  destruct (tracker_search file) as [e|] eqn:He; [|done].
  destruct (length (remove_dups (acc ++ [take_chars e file])) =? 1)%nat eqn:Hlen;
    simpl in H; [|done].
  apply Nat.eqb_eq in Hlen.
  assert (Hsame : forall x, x ∈ acc ++ [take_chars e file] -> take_chars e file = x).
  { intros x Hx. apply (remove_dups_one _ _ _ Hlen); [|done].
    apply elem_of_app. right. by apply list_elem_of_singleton. }
  apply bind_Ok in H as (name & Hname & H).
  assert (name = take_chars e file) as ->.
  { unfold py_getitem in Hname. apply bind_Ok in Hname as (k & _ & Hk).
    destruct ((acc ++ [take_chars e file]) !! k) as [x|] eqn:Hx; [|done].
    injection Hk as <-. symmetry. apply Hsame. by eapply list_elem_of_lookup_2. }
  destruct files as [|file' files'].
  - simpl in H. injection H as <-. split.
    + constructor; [by rewrite He | constructor].
    + apply Forall_forall. intros x Hx. apply Hsame. apply elem_of_app. by left.
  - apply IH in H as [Hfiles Hacc]; [|done].
    assert (r = take_chars e file) as ->.
    { apply Forall_app in Hacc as [_ Hlast]. by rewrite Forall_singleton in Hlast. }
    split.
    + constructor; [by rewrite He | done].
    + by apply Forall_app in Hacc as [Hacc _].
Qed.

(** X7. The validation accepts a selection exactly when it has four paths
    whose file names all contain [_Tracker[1-4]] with one and the same
    text before the leftmost match; the track name is that text. *)
Theorem validate_selection_accepts (selected : list string) (p : string) :
  validate_selection selected = Ok p <->
  length selected = 4%nat /\
  Forall (fun path => name_prefix (base_name path) = Some p) selected.
Proof.
  split.
  - unfold validate_selection.
    destruct (length selected =? 4)%nat eqn:Hlen; simpl; [|done].
    apply Nat.eqb_eq in Hlen. rewrite mapM_file_name. simpl. intros H. split; [done|].
    apply scan_names_Ok in H as [H _]; [|by destruct selected].
    by apply Forall_map in H.
  - intros [Hlen Hall]. unfold validate_selection. rewrite Hlen. simpl.
    rewrite mapM_file_name. simpl.
    pose proof (scan_names_good (map base_name selected) [] [] EmptyString p) as H.
    rewrite app_nil_r in H. rewrite H; [|done|by apply Forall_map].
    simpl. by destruct selected.
Qed.

Lemma join_split_go (s : string) (cur : option string) :
  join_empty (py_split_go s cur) = default EmptyString cur +:+ remove_spaces s.
Proof.
  revert cur. induction s as [|c s IH]; intros cur.
  - by destruct cur.
  - cbn [py_split_go remove_spaces]. destruct (is_space c).
    + destruct cur as [w|]; simpl.
      * change (w +:+ join_empty (py_split_go s None) = w +:+ remove_spaces s).
        by rewrite IH.
      * by rewrite IH.
    + rewrite IH. simpl. by rewrite string_app_assoc.
Qed.

Lemma join_split (s : string) : join_empty (py_split s) = remove_spaces s.
Proof. unfold py_split. by rewrite join_split_go. Qed.

Section LineFacts.
Context {FM : PyFloat}.

(** X8. The parser reads a line through its characters other than white
    space, with colons and commas alike: two lines that agree after
    deleting the white space and turning colons into commas give the
    same keyframe or the same exception. *)
Theorem frame_to_tuple_ignores_spacing (sf_offset : Z) (line line' : string) :
  commas (remove_spaces line) = commas (remove_spaces line') ->
  line_fields line = split_on "," (commas (remove_spaces line)) /\
  frame_to_tuple sf_offset line = frame_to_tuple sf_offset line'.
Proof.
  intros H. unfold frame_to_tuple, line_fields. rewrite !join_split.
  fold (commas (remove_spaces line)). fold (commas (remove_spaces line')).
  by rewrite H.
Qed.

Lemma py_getitem_Ok_nat {A : Type} (l : list A) (k : nat) (a : A) :
  py_getitem l (Z.of_nat k) = Ok a -> l !! k = Some a.
Proof.
  unfold py_getitem. intros (i & Hi & H)%bind_Ok.
  apply py_index_nonneg in Hi as [Hi _]; [|lia].
  assert (i = k) as -> by lia. destruct (l !! k); [by injection H as -> | done].
Qed.

(** X9. [frame_to_tuple] returns a keyframe exactly for the lines that
    convert: at least three fields, the first a float with an integer
    value, the second and third floats. *)
Theorem frame_to_tuple_returns (start_frame : Z) (line : string) (k : keyframe) :
  frame_to_tuple (start_frame - 1) line = Ok k <-> converts start_frame line k.
Proof.
  split; [|apply frame_to_tuple_converts].
  unfold frame_to_tuple. fold (line_fields line).
  intros (f0 & H0%(py_getitem_Ok_nat _ 0) & H)%bind_Ok.
  apply bind_Ok in H as (ff & Hff & H). apply bind_Ok in H as (z & Hz & H).
  apply bind_Ok in H as (f1 & H1%(py_getitem_Ok_nat _ 1) & H).
  apply bind_Ok in H as (x & Hx & H).
  apply bind_Ok in H as (f2 & H2%(py_getitem_Ok_nat _ 2) & H).
  apply bind_Ok in H as (y & Hy & [= <-]).
  destruct (line_fields line) as [|g0 [|g1 [|g2 rest]]] eqn:Hf; try done.
  simpl in H0, H1, H2. injection H0 as ->. injection H1 as ->. injection H2 as ->.
  exists f0, f1, f2, rest, ff, z, x, y. repeat (split; [done|]).
  do 2 f_equal. lia.
Qed.

End LineFacts.

Lemma frame_to_tuple_ignores_spacing_witness :
  line_fields "1 : 10.0 , 90.0" = split_on "," (commas (remove_spaces "1 : 10.0 , 90.0")) /\
  frame_to_tuple (FM := HalfFloat.model) 1000 "1 : 10.0 , 90.0"
  = frame_to_tuple 1000 "1,10.0:90.0".
Proof.
  apply (frame_to_tuple_ignores_spacing (FM := HalfFloat.model) 1000
           "1 : 10.0 , 90.0" "1,10.0:90.0").
  reflexivity.
Defined.

(** ** Further properties: the corners of the surface *)

Ltac decide_channels :=
  repeat match goal with
  | |- context [existsb (String.eqb ?s) original_path_channels] =>
      let b := eval vm_compute in (existsb (String.eqb s) original_path_channels) in
      change (existsb (String.eqb s) original_path_channels) with b
  | |- context [ends_with "x" ?s] =>
      let b := eval vm_compute in (ends_with "x" s) in
      change (ends_with "x" s) with b
  end.

Section SurfaceCorners.
Context {FM : PyFloat}.

Lemma mapM_converted (n : Z) (nf : float) (g : float -> Z * float -> Z * float)
    (l : list (Z * float)) :
  float_of_int n = Ok nf ->
  mapM (fun kf => wf ← float_of_int n; Ok (g wf kf)) l = Ok (map (g nf) l).
Proof.
  intros Hn. induction l as [|kf l IH]; [done|].
  cbn [mapM]. rewrite IH, Hn. reflexivity.
Qed.

(** X10. For the four corners of the surface the positions are moved as
    follows: the lower left corner by [+0.5] in x and y; the upper
    left corner by [+0.5] in x and by [- height - 0.5] in y; the lower
    right corner by [- width - 0.5] in x and [+0.5] in y; the upper
    right corner by [- width - 0.5] and [- height - 0.5]. *)
Theorem uv_corner_translation node_name (width height : Z) (wf hf : float)
    (contents : list string) (corner : list keyframe) :
  float_of_int width = Ok wf ->
  float_of_int height = Ok hf ->
  uv_corner node_name width height contents ("lower_left", corner)
  = uv_animate node_name contents "lower_left" (raised kf_x corner) (raised kf_y corner) /\
  uv_corner node_name width height contents ("upper_left", corner)
  = uv_animate node_name contents "upper_left" (raised kf_x corner)
      (lowered kf_y hf corner) /\
  uv_corner node_name width height contents ("lower_right", corner)
  = uv_animate node_name contents "lower_right" (lowered kf_x wf corner)
      (raised kf_y corner) /\
  uv_corner node_name width height contents ("upper_right", corner)
  = uv_animate node_name contents "upper_right" (lowered kf_x wf corner)
      (lowered kf_y hf corner).
Proof.
  intros Hw Hh.
  repeat split; unfold uv_corner, uv_animate; cbn [foldM fst snd];
    unfold uv_dimension; decide_channels; cbv iota;
    rewrite ?(mapM_converted width wf
                (fun wf kf => (kf.1, fsub (fsub kf.2 wf) float_half)) _ Hw),
            ?(mapM_converted height hf
                (fun hf kf => (kf.1, fsub (fsub kf.2 hf) float_half)) _ Hh);
    simpl; unfold float_anim, extract_dimension_x, extract_dimension_y, raised, lowered;
    by rewrite !map_map.
Qed.

(** X11. The two dimensions extracted from a corner have one entry per
    keyframe, in the same order and with the same frames, and together
    give the corner back; a dimension other than [x] and [y] gives
    [None]. *)
Theorem extract_dimension_round_trip (corner : list keyframe) (dimension : string) :
  (exists xs ys,
     extract_dimension corner "x" = Some xs /\
     extract_dimension corner "y" = Some ys /\
     xs = extract_dimension_x corner /\ ys = extract_dimension_y corner /\
     zip_with (fun a b => (a.1, a.2, b.2)) xs ys = corner /\
     map fst xs = map kf_frame corner /\ map fst ys = map kf_frame corner) /\
  (dimension ≠ "x" -> dimension ≠ "y" -> extract_dimension corner dimension = None).
Proof.
  split.
  - eexists _, _. split; [reflexivity|]. split; [reflexivity|].
    split; [reflexivity|]. split; [reflexivity|]. split; [|split].
    + induction corner as [|[[f x] y] corner IH]; simpl; [done | by rewrite IH].
    + by rewrite map_map.
    + by rewrite map_map.
  - intros Hx Hy. unfold extract_dimension.
    apply String.eqb_neq in Hx, Hy. by rewrite Hx, Hy.
Qed.

End SurfaceCorners.

Lemma uv_corner_translation_witness :
  uv_corner "plate" 200 100 Sample.surface_setup
    ("lower_left", lower_left Sample.sample_tracks)
  = uv_animate "plate" Sample.surface_setup "lower_left"
      (raised kf_x (lower_left Sample.sample_tracks))
      (raised kf_y (lower_left Sample.sample_tracks)) /\
  uv_corner "plate" 200 100 Sample.surface_setup
    ("upper_left", lower_left Sample.sample_tracks)
  = uv_animate "plate" Sample.surface_setup "upper_left"
      (raised kf_x (lower_left Sample.sample_tracks))
      (lowered kf_y (200 : @float HalfFloat.model) (lower_left Sample.sample_tracks)) /\
  uv_corner "plate" 200 100 Sample.surface_setup
    ("lower_right", lower_left Sample.sample_tracks)
  = uv_animate "plate" Sample.surface_setup "lower_right"
      (lowered kf_x (400 : @float HalfFloat.model) (lower_left Sample.sample_tracks))
      (raised kf_y (lower_left Sample.sample_tracks)) /\
  uv_corner "plate" 200 100 Sample.surface_setup
    ("upper_right", lower_left Sample.sample_tracks)
  = uv_animate "plate" Sample.surface_setup "upper_right"
      (lowered kf_x (400 : @float HalfFloat.model) (lower_left Sample.sample_tracks))
      (lowered kf_y (200 : @float HalfFloat.model) (lower_left Sample.sample_tracks)).
Proof.
  apply (uv_corner_translation (FM := HalfFloat.model) "plate" 200 100 400 200
           Sample.surface_setup (lower_left Sample.sample_tracks));
    reflexivity.
Defined.

(** ** Further properties: what the patches need and add *)

Section PatchFacts.
Context {FM : PyFloat}.

Lemma add_animation_grows node_name setup channel animation value_lock
    extrapolation curve_order value_index out :
  add_animation node_name setup channel animation value_lock extrapolation
    curve_order value_index = Ok out ->
  animation ≠ [] /\
  length out
  = (length setup + 2 + (if value_lock then 11 else 10) * length animation)%nat.
Proof.
  intros (n & c & key & _ & _ & Hlen & Hkey & ->)%add_animation_Ok_inv. split.
  - intros ->. unfold py_getitem in Hkey.
    destruct (py_index _ _) as [[|k]|]; done.
  - rewrite !length_app, length_take, length_drop, length_animation_block. simpl. lia.
Qed.

Lemma length_grid_animation dim offset corner :
  length (grid_animation dim offset corner) = length corner.
Proof. unfold grid_animation. by rewrite length_map. Qed.

Lemma grid_written_grows node_name width height corners before after :
  grid_written node_name width height corners before after ->
  Forall (fun entry => entry.2 ≠ []) corners /\
  length after
  = (length before + sum_list (map (fun entry => 4 + 20 * length entry.2) corners))%nat.
Proof.
  revert before. induction corners as [|entry corners IH]; intros before;
    cbn [grid_written map sum_list sum_list_with].
  - intros ->. split; [constructor | lia].
  - intros (hf & vf & with_x & with_y & _ & _ & Hx & _ & Hy & _ & Hrest).
    apply add_animation_grows in Hx as [Hne Hlx].
    apply add_animation_grows in Hy as [_ Hly].
    apply IH in Hrest as [Hall Hlen].
    rewrite length_grid_animation in Hlx, Hly. split.
    + constructor; [|done]. intros He. apply Hne. unfold grid_animation. by rewrite He.
    + cbv beta iota in Hlx, Hly.
      change (id (4 + 20 * length entry.2))%nat with (4 + 20 * length entry.2)%nat.
      lia.
Qed.

Lemma grid_patch_written node_name corners contents out :
  grid_patch node_name corners contents = Ok out ->
  exists width height base,
    length base = length contents /\
    grid_written node_name width height corners base out.
Proof.
  intros H. unfold grid_patch in H.
  apply bind_Ok in H as (wl & _ & H). apply bind_Ok in H as (w & _ & H).
  apply bind_Ok in H as (hl & _ & H). apply bind_Ok in H as (h & _ & H).
  apply bind_Ok in H as (base & Hbase & H).
  exists w, h, base. split; [|by apply grid_corners_Ok].
  unfold set_grid_2d in Hbase.
  apply bind_Ok in Hbase as (g & _ & Hbase). apply bind_Ok in Hbase as (t & _ & Hbase).
  apply py_setitem_Ok in Hbase as (k & _ & _ & ->). apply length_insert.
Qed.

(** X12. A setup the grid patch returns has only grown: every corner has at
    least one keyframe, and the text is longer by four lines per corner
    and twenty lines per keyframe. *)
Theorem grid_patch_grows node_name corners contents out :
  grid_patch node_name corners contents = Ok out ->
  Forall (fun entry => entry.2 ≠ []) corners /\
  length out
  = (length contents + sum_list (map (fun entry => 4 + 20 * length entry.2) corners))%nat.
Proof.
  intros (w & h & base & Hbase & [Hall Hlen]%grid_written_grows)%grid_patch_written.
  split; [done|]. by rewrite Hlen, Hbase.
Qed.


(** X13. The grid patch raises [TypeError] as soon as a line it looks for
    is not there: no [FrameWidth] line; or, with the width read, no
    [FrameHeight] line after it; or, with the resolution read, no line
    containing the node name, or no [TransformIs3D] line after that
    one. *)
Theorem grid_patch_missing_line node_name corners contents :
  find_line "FrameWidth" contents = None \/
  (exists width_line width,
     find_line "FrameWidth" contents = Some width_line /\
     line_int contents width_line = Ok width /\
     (find_line_after "FrameHeight" (Z.of_nat width_line) contents = None \/
      exists height_line height,
        find_line_after "FrameHeight" (Z.of_nat width_line) contents = Some height_line /\
        line_int contents height_line = Ok height /\
        (find_line node_name contents = None \/
         exists grid_line,
           find_line node_name contents = Some grid_line /\
           find_line_after "TransformIs3D" (Z.of_nat grid_line) contents = None))) ->
  grid_patch node_name corners contents = Raise TypeError.
Proof.
  unfold grid_patch, set_grid_2d.
  intros [->|(wl & w & -> & Hw & [Hhl|(hl & h & Hhl & Hh & [Hg|(g & Hg & Ht)])])];
    [done|..]; simpl; rewrite Hw; simpl; rewrite Hhl; [done|..]; simpl; rewrite Hh; simpl;
    rewrite Hg; [done|]; simpl; by rewrite Ht.
Qed.

(** X14. When the node name is on the very first line of the setup there is
    no line before it: the index [-1] then denotes the last line, and
    it is the last line of the setup that becomes
    [Node SurfaceBilinear]. *)
Theorem set_bilinear_first_line node_name (contents : list string) :
  find_line node_name contents = Some 0%nat ->
  set_bilinear 0 contents
  = Ok (<[(length contents - 1)%nat := "Node SurfaceBilinear" +:+ NL]> contents) /\
  last (<[(length contents - 1)%nat := "Node SurfaceBilinear" +:+ NL]> contents)
  = Some ("Node SurfaceBilinear" +:+ NL).
Proof.
  intros Hn. pose proof (find_line_lt _ _ _ Hn) as Hlt.
  assert (Hne : contents ≠ []) by (intros ->; simpl in Hlt; lia).
  split.
  - unfold set_bilinear, py_setitem. simpl. by rewrite py_index_last.
  - rewrite last_lookup, length_insert.
    replace (Init.Nat.pred (length contents)) with (length contents - 1)%nat by lia.
    apply list_lookup_insert_eq. lia.
Qed.

End PatchFacts.

Lemma grid_patch_grows_witness :
  Forall (fun entry : string * list keyframe => entry.2 ≠ [])
    (corners_of Sample.sample_tracks) /\
  length Sample.grid_patched
  = (length Sample.grid_setup +
     sum_list (map (fun entry : string * list keyframe => 4 + 20 * length entry.2)
                 (corners_of Sample.sample_tracks)))%nat.
Proof.
  apply (grid_patch_grows (FM := HalfFloat.model) "plate"
           (corners_of Sample.sample_tracks) Sample.grid_setup Sample.grid_patched).
  reflexivity.
Defined.

Lemma grid_patch_missing_line_witness :
  grid_patch (FM := HalfFloat.model) "nobody" (corners_of Sample.sample_tracks)
    Sample.grid_setup = Raise TypeError.
Proof.
  apply (grid_patch_missing_line (FM := HalfFloat.model) "nobody"
           (corners_of Sample.sample_tracks) Sample.grid_setup).
  right. exists 0%nat, 200. split; [reflexivity|]. split; [reflexivity|].
  right. exists 1%nat, 100. split; [reflexivity|]. split; [reflexivity|].
  left. reflexivity.
Defined.

Lemma set_bilinear_first_line_witness :
  set_bilinear 0 ["Name plate"; "ResWidth 200"; "End"]
  = Ok (<[(length ["Name plate"; "ResWidth 200"; "End"] - 1)%nat :=
           "Node SurfaceBilinear" +:+ NL]> ["Name plate"; "ResWidth 200"; "End"]) /\
  last (<[(length ["Name plate"; "ResWidth 200"; "End"] - 1)%nat :=
           "Node SurfaceBilinear" +:+ NL]> ["Name plate"; "ResWidth 200"; "End"])
  = Some ("Node SurfaceBilinear" +:+ NL).
Proof.
  apply (set_bilinear_first_line "plate" ["Name plate"; "ResWidth 200"; "End"]).
  reflexivity.
Defined.

(** ** Further properties: the temp folder and the files *)

Lemma lookup_outside path (files : gmap string (list string)) :
  filter (fun kv : string * list string =>
            starts_with (temp_folder +:+ "/") kv.1 = false) files !! path
  = if in_temp path then None else files !! path.
Proof.
  unfold in_temp. destruct (starts_with _ path) eqn:Hs.
  - apply map_lookup_filter_None. right. intros lines _. cbn [fst]. by rewrite Hs.
  - destruct (files !! path) as [lines|] eqn:Hl.
    + by apply map_lookup_filter_Some.
    + apply map_lookup_filter_None. by left.
Qed.

Lemma lookup_cleared path (w : world) :
  cleared w !! path = if w_temp w && in_temp path then None else w_files w !! path.
Proof.
  unfold cleared. destruct (w_temp w); [|done]. simpl. apply lookup_outside.
Qed.

(** X15. [save_selected_node] never raises, whether or not the temp folder
    is there: afterwards the folder exists, what an earlier folder held
    is gone, every file outside it is as before, and the setup file
    holds what the host saved, so that reading it back returns these
    lines. *)
Theorem save_selected_node_effect (e : env) (w : world) :
  exists w',
    save_selected_node e w = (Ok (), w', temp_events w ++ [ESaveSetup (save_node_path e)]) /\
    w_temp w' = true /\
    (forall path, path ≠ node_filename e ->
       w_files w' !! path
       = if w_temp w && in_temp path then None else w_files w !! path) /\
    read_setup e w' = (Ok (env_setup e), w', [EReadSetup (node_filename e)]).
Proof.
  exists {| w_files := <[node_filename e := env_setup e]> (cleared w); w_temp := true |}.
  split; [|split; [done|split]].
  - unfold save_selected_node, try_except, makedirs, rmtree, host_save_node_setup,
      temp_events, cleared, mbind, M_bind.
    destruct w as [files temp]. cbv beta iota zeta delta [w_temp w_files].
    by destruct temp.
  - intros path Hp. cbn [w_files]. rewrite lookup_insert_ne by done. apply lookup_cleared.
  - unfold read_setup. cbn [w_files]. by rewrite lookup_insert_eq.
Qed.

(** X16. [remove_temp_folder] deletes exactly the files under the temp
    folder when the folder exists, and raises [OSError] without
    touching anything when it does not. *)
Theorem remove_temp_folder_effect (w : world) :
  if w_temp w then
    exists w',
      remove_temp_folder w = (Ok (), w', [ERmTree temp_folder]) /\
      w_temp w' = false /\
      forall path, w_files w' !! path = if in_temp path then None else w_files w !! path
  else remove_temp_folder w = (Raise OSError, w, [ERmTree temp_folder]).
Proof.
  unfold remove_temp_folder, rmtree. destruct (w_temp w); [|done].
  eexists. split; [done|]. split; [done|]. intros path. apply lookup_outside.
Qed.

Section HostFacts.
Context {FM : PyFloat}.

Lemma expected_run_files kind e w parsed patch w' tr :
  expected_run kind e w parsed patch = (Ok (), w', tr) ->
  w_temp w' = false /\
  (forall path, in_temp path = true -> w_files w' !! path = None) /\
  (forall path, in_temp path = false -> path ≠ node_filename e ->
     w_files w' !! path = w_files w !! path) /\
  last tr = Some (ERmTree temp_folder).
Proof.
  unfold expected_run. destruct parsed as [p|x]; [|done].
  destruct (name_import _ _) as [node_name|]; [|done].
  destruct (patch node_name p) as [patched|x]; [|done].
  intros [= <- <-]. cbn [w_temp w_files]. split; [done|]. split; [|split].
  - intros path Hp. by rewrite lookup_outside, Hp.
  - intros path Hp Hne. rewrite lookup_outside, Hp, !lookup_insert_ne by done.
    rewrite lookup_cleared, Hp. by rewrite andb_false_r.
  - unfold run_events. by rewrite !last_app.
Qed.

(** X17. A complete run of either operation ends with the temp folder
    removed: no file is left under it, not even the setup just written,
    and every other file, apart from a setup file lying outside the
    folder, is what it was before the run. *)
Theorem import_cleans_up (e : env) (w w' : world) (tr : list event) :
  import_perspective_grid e w = (Ok (), w', tr) \/
  import_bilinear_uvs e w = (Ok (), w', tr) ->
  w_temp w' = false /\
  (forall path, in_temp path = true -> w_files w' !! path = None) /\
  (forall path, in_temp path = false -> path ≠ node_filename e ->
     w_files w' !! path = w_files w !! path) /\
  last tr = Some (ERmTree temp_folder).
Proof.
  intros [H|H].
  - rewrite import_perspective_grid_run in H. by apply expected_run_files in H.
  - rewrite import_bilinear_uvs_run in H. by apply expected_run_files in H.
Qed.

End HostFacts.

Lemma import_cleans_up_witness :
  w_temp {| w_files := Sample.files; w_temp := false |} = false /\
  (forall path, in_temp path = true ->
     w_files {| w_files := Sample.files; w_temp := false |} !! path = None) /\
  (forall path, in_temp path = false -> path ≠ node_filename Sample.grid_env ->
     w_files {| w_files := Sample.files; w_temp := false |} !! path
     = w_files Sample.start !! path) /\
  last (run_events "Perspective Grid" Sample.grid_env Sample.start "plate"
          Sample.grid_patched) = Some (ERmTree temp_folder).
Proof.
  apply (import_cleans_up (FM := HalfFloat.model) Sample.grid_env Sample.start).
  left. reflexivity.
Defined.


Section FailureFacts.
Context {FM : PyFloat}.



End FailureFacts.


Section CornerFacts.
Context {FM : PyFloat}.




End CornerFacts.


(** ** Further properties: file names *)

Lemma contains_slash_app (a b : string) :
  contains "/" (a +:+ b) = contains "/" a || contains "/" b.
Proof.
  induction a as [|c a IH].
  - change (EmptyString +:+ b) with b. by destruct b.
  - change (String c a +:+ b) with (String c (a +:+ b)).
    cbn [contains starts_with]. rewrite IH.
    destruct (Ascii.eqb "/" c); [done|]. simpl. done.
Qed.

Lemma append_empty_r (s : string) : s +:+ EmptyString = s.
Proof.
  induction s as [|c s IH]; [done|].
  change (String c s +:+ EmptyString) with (String c (s +:+ EmptyString)). by rewrite IH.
Qed.

Lemma split_on_go_last (s cur : string) :
  contains "/" cur = false ->
  exists dir base,
    last (split_on_go "/" s cur) = Some base /\
    cur +:+ s = dir +:+ base /\
    contains "/" base = false /\
    (dir = EmptyString \/ exists d, dir = d +:+ "/").
Proof.
  revert cur. induction s as [|c s IH]; intros cur Hcur.
  - exists EmptyString, cur. by rewrite append_empty_r; eauto.
  - cbn [split_on_go]. destruct (Ascii.eqb c "/") eqn:Hc.
    + apply Ascii.eqb_eq in Hc as ->.
      destruct (IH EmptyString) as (dir & base & Hlast & Heq & Hbase & Hdir); [done|].
      change (EmptyString +:+ s) with s in Heq.
      exists (cur +:+ "/" +:+ dir), base. split; [|split; [|split; [done|]]].
      * pose proof (split_on_go_nonempty "/" s EmptyString) as Hne.
        destruct (split_on_go "/" s EmptyString) as [|a l]; done.
      * change (String "/" s) with ("/" +:+ s). by rewrite Heq, !string_app_assoc.
      * right. destruct Hdir as [->|[d ->]].
        -- exists cur. by rewrite append_empty_r.
        -- exists (cur +:+ "/" +:+ d). by rewrite !string_app_assoc.
    + destruct (IH (cur +:+ String c EmptyString)) as (dir & base & Hlast & Heq & Hbase & Hdir).
      * rewrite contains_slash_app, Hcur. cbn [contains starts_with orb].
        rewrite Ascii.eqb_sym, Hc. done.
      * exists dir, base. split; [done|]. split; [|done].
        by rewrite <- Heq, string_app_assoc.
Qed.

(** X20. [file_name] never raises: it returns what follows the last slash
    of the path, or the whole path when it has no slash. *)
Theorem file_name_last_component (path : string) :
  exists dir base,
    file_name path = Ok base /\
    path = dir +:+ base /\
    contains "/" base = false /\
    (dir = EmptyString \/ exists d, dir = d +:+ "/").
Proof.
  destruct (split_on_go_last path EmptyString) as (dir & base & Hlast & Heq & Hbase & Hdir);
    [done|].
  exists dir, base. split; [|done].
  rewrite file_name_eq. unfold base_name, split_on. by rewrite Hlast.
Qed.

(** ** Further properties: the setup file *)

Lemma save_node_path_relative (e : env) :
  starts_with "/" (env_host_name e) = false ->
  save_node_path e = temp_folder +:+ "/" +:+ env_host_name e.
Proof. intros H. unfold save_node_path, path_join. by rewrite H. Qed.

(** X21. The setup file is named after the host node, with the
    extension [.action] for an Action, [.image] for an Image and
    [.mask] for a node of any other type; unless the name of the host
    node begins with a slash the file lies in the temp folder, so that
    a complete run of either operation leaves no setup file behind. *)
Theorem node_filename_in_temp (FM : PyFloat) (e : env) :
  starts_with "/" (env_host_name e) = false ->
  (exists ext,
     node_filename e = temp_folder +:+ "/" +:+ env_host_name e +:+ ext /\
     ext = (if String.eqb (env_host_type e) "Action" then ".action"
            else if String.eqb (env_host_type e) "Image" then ".image" else ".mask")) /\
  in_temp (node_filename e) = true /\
  (forall w w' tr,
     import_perspective_grid e w = (Ok (), w', tr) \/
     import_bilinear_uvs e w = (Ok (), w', tr) ->
     w_files w' !! node_filename e = None).
Proof.
  intros Hrel.
  assert (Hname : exists ext,
            node_filename e = temp_folder +:+ "/" +:+ env_host_name e +:+ ext /\
            ext = (if String.eqb (env_host_type e) "Action" then ".action"
                   else if String.eqb (env_host_type e) "Image" then ".image"
                   else ".mask")).
  { eexists. split; [|reflexivity]. unfold node_filename.
    rewrite (save_node_path_relative e Hrel).
    by destruct (String.eqb (env_host_type e) "Action"),
      (String.eqb (env_host_type e) "Image"); rewrite !string_app_assoc. }
  assert (Hin : in_temp (node_filename e) = true).
  { destruct Hname as (ext & -> & _). unfold in_temp. apply starts_with_spec.
    exists (env_host_name e +:+ ext). by rewrite !string_app_assoc. }
  split; [done|]. split; [done|].
  intros w w' tr [H|H].
  - rewrite import_perspective_grid_run in H.
    apply expected_run_files in H as (_ & Hgone & _). by apply Hgone.
  - rewrite import_bilinear_uvs_run in H.
    apply expected_run_files in H as (_ & Hgone & _). by apply Hgone.
Qed.

Lemma node_filename_in_temp_witness :
  (exists ext,
     node_filename Sample.other_env
     = temp_folder +:+ "/" +:+ env_host_name Sample.other_env +:+ ext /\
     ext = (if String.eqb (env_host_type Sample.other_env) "Action" then ".action"
            else if String.eqb (env_host_type Sample.other_env) "Image" then ".image"
            else ".mask")) /\
  in_temp (node_filename Sample.other_env) = true /\
  (forall w w' tr,
     import_perspective_grid (FM := HalfFloat.model) Sample.other_env w = (Ok (), w', tr) \/
     import_bilinear_uvs (FM := HalfFloat.model) Sample.other_env w = (Ok (), w', tr) ->
     w_files w' !! node_filename Sample.other_env = None).
Proof.
  apply (node_filename_in_temp HalfFloat.model Sample.other_env). reflexivity.
Defined.
